(** * Product routes: a shallow embedding of the router of [productRoutes.js]
      that uploads images, and of the [Product] mongoose schemas, with the
      properties of the create, update, delete and list operations.

    Layout:
    - [JS]         numbers (IEEE-754 binary64), strings, [parseFloat],
                   [Number.prototype.toFixed], [Number::toString];
    - [Express]    the request: text fields of the form, file part;
    - [Multer]     the [upload] configuration (file filter, size limit);
    - [Validator]  the express-validator chains of [validateProduct];
    - [Mongoose]   the [Product] documents, the two [ProductSchema]
                   declarations, validation and the collection;
    - [Cloudinary] the calls to the asset host;
    - [Effect]     the world of a handler, its environment, and the monad of
                   asynchronous computations that can throw;
    - [Model]      the operations of the model and of the uploader;
    - [Routes]     the four handlers of the router;
    - [Routes2]    the delete handler of the router without upload;
    - [Spec]       the derived fields as the data model of the
                   specification states them, on exact decimal values.

    Strings are sequences of code units below 256 ([String.string]). The
    fields of [req.body] are the strings of a form, as the upload middleware
    presents them. The [:id] segment of a path is any string: the model
    layer casts it to an ObjectId and throws when it cannot. The database
    itself never fails: the errors of the model layer are cast errors,
    validation errors and duplicate keys. *)

From Stdlib Require Import ZArith List String Ascii Bool Lia Permutation Sorted.
From Stdlib Require Import DecimalString DecimalN.
From Stdlib Require Import Floats.SpecFloat.
From Stdlib Require QArith.QArith_base QArith.Qround.
Import ListNotations.
Open Scope string_scope.

(* ================================================================== *)
(** ** JavaScript numbers and strings *)
(* ================================================================== *)

Module JS.

(** A JS number is a binary64 value; the operations are those of the
    specification of IEEE-754 arithmetic in [SpecFloat], at precision 53 and
    maximal exponent 1024. *)
Definition number := spec_float.
Definition prec : Z := 53.
Definition emax : Z := 1024.

Definition NaN : number := S754_nan.
Definition Infinity : number := S754_infinity false.
Definition mul : number -> number -> number := SFmul prec emax.
Definition add : number -> number -> number := SFadd prec emax.

(** [x >= y] of JS: false as soon as one side is NaN. *)
Definition geb (x y : number) : bool :=
  match SFcompare x y with
  | Some Gt | Some Eq => true
  | _ => false
  end.

(** The number nearest to the integer [z] (ties to even). *)
Definition of_Z (z : Z) : number := binary_normalize prec emax z 0 false.

(** The number nearest to [(-1)^s * n * 10^e] (ties to even): the value of
    a decimal literal with digits [n] and exponent [e]. *)
Definition of_decimal (s : bool) (n : N) (e : Z) : number :=
  match n with
  | N0 => S754_zero s
  | Npos p =>
      match e with
      | Zneg k => SFdiv prec emax (S754_finite s p 0)
                        (S754_finite false (Pos.pow 10 k) 0)
      | _ => binary_normalize prec emax
               (if s then Z.neg (p * Z.to_pos (10 ^ e)) else Z.pos (p * Z.to_pos (10 ^ e)))
               0 s
      end
  end.

(** *** Exceptions *)

(** The values thrown or handed to [next]: a plain [Error] with its
    message, multer's error with its code, mongoose's validation error with
    the paths that failed, mongoose's cast error with the type, the value
    and the path, and the server's duplicate-key error (E11000) with the
    indexed path. *)
Inductive Exception :=
  | Error (message : string)
  | MulterError (code : string)
  | ValidationError (paths : list string)
  | CastError (kind : string) (value : string) (path : string)
  | MongoServerError (key : string).

(** *** Characters *)

Definition is_digit (c : ascii) : bool :=
  let n := N_of_ascii c in (48 <=? n)%N && (n <=? 57)%N.

Definition digit_val (c : ascii) : N := (N_of_ascii c - 48)%N.

(** The white space of [String.prototype.trim] and of the regular
    expression class [\s], among the code units below 256: TAB, LF, VT, FF,
    CR, SP and NBSP. *)
Definition is_whitespace (c : ascii) : bool :=
  let n := N_of_ascii c in
  ((9 <=? n)%N && (n <=? 13)%N) || (n =? 32)%N || (n =? 160)%N.

(** *** Strings *)

Fixpoint startsWith (p s : string) : bool :=
  match p, s with
  | EmptyString, _ => true
  | String a p', String b s' => Ascii.eqb a b && startsWith p' s'
  | String _ _, EmptyString => false
  end.

Fixpoint drop (n : nat) (s : string) : string :=
  match n, s with
  | O, _ => s
  | S n', String _ s' => drop n' s'
  | S _, EmptyString => EmptyString
  end.

Fixpoint trimStart (s : string) : string :=
  match s with
  | String c s' => if is_whitespace c then trimStart s' else s
  | EmptyString => EmptyString
  end.

(** [trimEnd s]: [s] without its trailing white space. *)
Fixpoint trimEnd (s : string) : string :=
  match s with
  | EmptyString => EmptyString
  | String c s' =>
      match trimEnd s' with
      | EmptyString => if is_whitespace c then EmptyString else String c EmptyString
      | t => String c t
      end
  end.

Definition trim (s : string) : string := trimEnd (trimStart s).

(** [takeDigits s]: the longest prefix of decimal digits, read as a natural
    number, with its length and the rest of the string. *)
Fixpoint takeDigits_from (acc : N) (len : nat) (s : string) : N * nat * string :=
  match s with
  | String c s' =>
      if is_digit c then takeDigits_from (acc * 10 + digit_val c)%N (S len) s'
      else (acc, len, s)
  | EmptyString => (acc, len, s)
  end.

Definition takeDigits (s : string) : N * nat * string := takeDigits_from 0%N O s.

(** *** [parseFloat] *)

(** The exponent part [e], [E] followed by an optionally signed, non-empty
    run of digits; when the characters after the mantissa are not of that
    shape the literal stops before them and the exponent is 0. *)
Definition exponentPart (s : string) : Z :=
  match s with
  | String c s1 =>
      if Ascii.eqb c "e" || Ascii.eqb c "E" then
        let '(neg, s2) :=
          match s1 with
          | String "-" r => (true, r)
          | String "+" r => (false, r)
          | _ => (false, s1)
          end in
        let '(v, len, _) := takeDigits s2 in
        match len with
        | O => 0%Z
        | _ => if neg then (- Z.of_N v)%Z else Z.of_N v
        end
      else 0%Z
  | EmptyString => 0%Z
  end.

(** The unsigned part of a [StrDecimalLiteral]: [Infinity], or digits with
    an optional fraction and exponent, or a fraction alone. *)
Definition unsignedLiteral (neg : bool) (s : string) : number :=
  if startsWith "Infinity" s then S754_infinity neg
  else
    let '(ip, ilen, r1) := takeDigits s in
    match r1 with
    | String "." r2 =>
        let '(fp, flen, r3) := takeDigits_from ip O r2 in
        match ilen, flen with
        | O, O => NaN
        | _, _ => of_decimal neg fp (exponentPart r3 - Z.of_nat flen)
        end
    | _ =>
        match ilen with
        | O => NaN
        | _ => of_decimal neg ip (exponentPart r1)
        end
    end.

(** [parseFloat(string)]: leading white space is skipped, the longest prefix
    that is a decimal literal is converted, and anything after it is
    ignored; NaN when there is no such prefix. *)
Definition parseFloat (str : string) : number :=
  match trimStart str with
  | String "-" r => unsignedLiteral true r
  | String "+" r => unsignedLiteral false r
  | r => unsignedLiteral false r
  end.

(** *** [Number::toString] and [Number.prototype.toFixed] *)

(** Decimal digits of a natural number, ["0"] for zero. *)
Definition digits (n : N) : string := NilZero.string_of_uint (N.to_uint n).

Fixpoint zeros (n : nat) : string :=
  match n with
  | O => EmptyString
  | S n' => String "0" (zeros n')
  end.

Fixpoint take (n : nat) (s : string) : string :=
  match n, s with
  | S n', String c s' => String c (take n' s')
  | _, _ => EmptyString
  end.

(** The exact value of the finite number [m * 2^e], as a fraction. *)
Definition fraction (m : positive) (e : Z) : Z * Z :=
  match e with
  | Zneg k => (Z.pos m, Z.pos (Pos.pow 2 k))
  | _ => (Z.pos m * 2 ^ e, 1)%Z
  end.

(** [p / q] times [10^j], as a fraction. *)
Definition scale10 (pq : Z * Z) (j : Z) : Z * Z :=
  let '(p, q) := pq in
  match j with
  | Zneg k => (p, q * Z.pos (Pos.pow 10 k))%Z
  | _ => (p * 10 ^ j, q)%Z
  end.

(** The least [n], from [n0] on, with [p / q < 10^n]. *)
Fixpoint decimalExponent_from (fuel : nat) (n0 : Z) (pq : Z * Z) : Z :=
  match fuel with
  | O => n0
  | S fuel' =>
      let '(p, q) := scale10 pq (- n0) in
      if (p <? q)%Z then n0 else decimalExponent_from fuel' (n0 + 1) pq
  end.

Definition decimalExponent (pq : Z * Z) : Z := decimalExponent_from 700 (-330) pq.

Definition same_finite (x : number) (m : positive) (e : Z) : bool :=
  match x with
  | S754_finite false m' e' => Pos.eqb m m' && Z.eqb e e'
  | _ => false
  end.

(** The integers [n], [k], [s] of [Number::toString] for the positive finite
    number [m * 2^e]: [s] has [k] digits, [s * 10^(n-k)] rounds to the
    number, [k] is as small as possible and, for that [k], [s * 10^(n-k)]
    is as close to the number as possible (the even [s] on a tie). The
    search tries [k = 1, 2, ...]; 17 digits always suffice. *)
Fixpoint shortest_from (fuel : nat) (k : Z) (m : positive) (e : Z) (n : Z)
  : Z * Z * Z :=
  let '(p, q) := scale10 (fraction m e) (k - n) in
  let t := (p / q)%Z in
  let r := (p mod q)%Z in
  let lo_ok := same_finite (of_decimal false (Z.to_N t) (n - k)) m e in
  let hi_ok := same_finite (of_decimal false (Z.to_N (t + 1)) (n - k)) m e in
  let lo := (n, k, t) in
  let hi := if (t + 1 <? 10 ^ k)%Z then (n, k, (t + 1)%Z)
            else ((n + 1)%Z, k, (10 ^ (k - 1))%Z) in
  match fuel with
  | O => lo
  | S fuel' =>
      match lo_ok, hi_ok with
      | true, true =>
          match (2 * r ?= q)%Z with
          | Lt => lo
          | Gt => hi
          | Eq => if Z.even t then lo else hi
          end
      | true, false => lo
      | false, true => hi
      | false, false => shortest_from fuel' (k + 1) m e n
      end
  end.

Definition shortest (m : positive) (e : Z) : Z * Z * Z :=
  shortest_from 17 1 m e (decimalExponent (fraction m e)).

(** The string of a positive finite number from its [n], [k], [s]. *)
Definition format_nks (nks : Z * Z * Z) : string :=
  let '(n, k, s) := nks in
  let ds := digits (Z.to_N s) in
  let expo := (if (n - 1 <? 0)%Z then "e-" else "e+") ++ digits (Z.abs_N (n - 1)) in
  if (k <=? n)%Z && (n <=? 21)%Z then ds ++ zeros (Z.to_nat (n - k))
  else if (0 <? n)%Z && (n <=? 21)%Z then
    take (Z.to_nat n) ds ++ "." ++ drop (Z.to_nat n) ds
  else if (-6 <? n)%Z && (n <=? 0)%Z then "0." ++ zeros (Z.to_nat (- n)) ++ ds
  else if (k =? 1)%Z then ds ++ expo
  else take 1 ds ++ "." ++ drop 1 ds ++ expo.

(** [Number::toString(x)], radix 10. *)
Definition toString (x : number) : string :=
  match x with
  | S754_nan => "NaN"
  | S754_zero _ => "0"
  | S754_infinity s => if s then "-Infinity" else "Infinity"
  | S754_finite s m e =>
      (if s then "-" else "") ++ format_nks (shortest m e)
  end.

(** [x.toFixed(f)]: a number that is not finite prints as [toString]; so
    does one of magnitude [10^21] or more; otherwise the integer [n]
    nearest to [|x| * 10^f] (the larger one on a tie) is printed with [f]
    digits after the point. The sign is kept when [x < 0]. *)
Definition toFixed (x : number) (f : nat) : string :=
  match x with
  | S754_finite s m e =>
      let '(p, q) := fraction m e in
      (if s then "-" else "") ++
      if (10 ^ 21 * q <=? p)%Z then format_nks (shortest m e)
      else
        let n := ((2 * p * 10 ^ Z.of_nat f + q) / (2 * q))%Z in
        let ds := digits (Z.to_N n) in
        let ds := zeros (S f - String.length ds) ++ ds in
        match f with
        | O => ds
        | _ => let a := String.length ds - f in
               take a ds ++ "." ++ drop a ds
        end
  | S754_zero _ =>
      match f with
      | O => "0"
      | _ => "0." ++ zeros f
      end
  | _ => toString x
  end.

(** [Math.floor]. *)
Definition floor (x : number) : number :=
  match x with
  | S754_finite s m e =>
      let '(p, q) := fraction m e in
      let z := if s then (- p / q)%Z else (p / q)%Z in
      match z with
      | Z0 => S754_zero s
      | _ => of_Z z
      end
  | _ => x
  end.

End JS.

(* ================================================================== *)
(** ** The request *)
(* ================================================================== *)

Module Express.

(** [req.body]: the text fields of the form, each one absent ([None],
    [undefined] in the handler) or a string. *)
Record Body := {
  itemName : option string;
  sellPrice : option string;
  type : option string;
  primaryUnit : option string;
  customUnit : option string;
  gstEnabled : option string
}.

(** A file part of the form, as multer's memory storage presents it. *)
Record File := {
  fieldname : string;
  mimetype : string;
  buffer : list Byte.byte
}.

(** A request: the [:id] segment of the path (unused by [POST /products]
    and [GET /products]), the text fields and at most one file part. *)
Record Request := {
  params_id : string;
  body : Body;
  attachment : option File
}.

(** [ToString] of a field that is a string or [undefined]. *)
Definition ToString (v : option string) : string :=
  match v with
  | Some s => s
  | None => "undefined"
  end.

End Express.

(* ================================================================== *)
(** ** multer: [upload] *)
(* ================================================================== *)

Module Multer.
Import JS Express.

(** [limits.fileSize]. *)
Definition fileSize : N := 5 * 1024 * 1024.

Definition size (f : File) : N := N.of_nat (List.length (buffer f)).

(** [fileFilter]: [None] is [cb(null, true)]. *)
Definition fileFilter (f : File) : option Exception :=
  if startsWith "image/" (mimetype f) then None
  else Some (Error "Only image files are allowed").

(** [upload.single(name)]: the file part must come in the field [name], pass
    the filter, and hold no more than [fileSize] bytes; the result is
    [req.file], or the error handed to [next]. *)
Definition single (name : string) (req : Request) : Exception + option File :=
  match attachment req with
  | None => inr None
  | Some f =>
      if negb (String.eqb (fieldname f) name) then inl (MulterError "LIMIT_UNEXPECTED_FILE")
      else
        match fileFilter f with
        | Some err => inl err
        | None =>
            if (size f <=? fileSize)%N then inr (Some f)
            else inl (MulterError "LIMIT_FILE_SIZE")
        end
  end.

End Multer.

(* ================================================================== *)
(** ** express-validator: [validateProduct] *)
(* ================================================================== *)

Module Validator.
Import JS Express.

(** An entry of [errors]: the field, the message and the value that was
    checked ([None] for [undefined]). *)
Record FieldError := {
  param : string;
  msg : string;
  value : option string
}.

(** The string a validator sees: the empty string for an absent field. *)
Definition toString (v : option string) : string :=
  match v with
  | Some s => s
  | None => ""
  end.

Fixpoint skipDigits (s : string) : string :=
  match s with
  | String c s' => if is_digit c then skipDigits s' else s
  | EmptyString => s
  end.

Definition is_sign (c : ascii) : bool := Ascii.eqb c "-" || Ascii.eqb c "+".

(** [s] without its first character when that one satisfies [p]. *)
Definition optional (p : ascii -> bool) (s : string) : string :=
  match s with
  | String c r => if p c then r else s
  | EmptyString => s
  end.

(** The regular expression of [isFloat], anchored at both ends: an optional
    sign; an optional run of digits; optionally a point and a possibly empty
    run of digits; optionally [e] or [E], an optional sign and a non-empty
    run of digits. *)
Definition float_regex (s : string) : bool :=
  let s2 := skipDigits (optional is_sign s) in
  let s3 := match s2 with
            | String c r => if Ascii.eqb c "." then skipDigits r else s2
            | EmptyString => s2
            end in
  match s3 with
  | EmptyString => true
  | String c s4 =>
      (Ascii.eqb c "e" || Ascii.eqb c "E") &&
      let s5 := optional is_sign s4 in
      match s5 with
      | String d _ => is_digit d && String.eqb (skipDigits s5) ""
      | EmptyString => false
      end
  end.

(** [str.replace(',', '.')]: the first comma only. *)
Fixpoint replace_comma (s : string) : string :=
  match s with
  | String c s' => if Ascii.eqb c "," then String "." s' else String c (replace_comma s')
  | EmptyString => EmptyString
  end.

Definition mem (s : string) (l : list string) : bool := existsb (String.eqb s) l.

(** [isFloat(str, { min })]. *)
Definition isFloat (min : number) (str : string) : bool :=
  if mem str [""; "."; ","; "-"; "+"] then false
  else
    let value := parseFloat (replace_comma str) in
    float_regex str && geb value min.

(** [isIn(values)]. *)
Definition isIn (values : list string) (str : string) : bool := mem str values.

(** [notEmpty()]. *)
Definition notEmpty (str : string) : bool := negb (String.eqb str "").

(** The four chains of [validateProduct], run in order on the body. The
    result is the list of [validationResult(req).array()] and the body after
    the sanitizers: [trim()] writes the trimmed [itemName] back. *)
Definition validateProduct (b : Body) : list FieldError * Body :=
  let name := trim (toString (itemName b)) in
  let b' := {| itemName := Some name; sellPrice := sellPrice b; type := type b;
               primaryUnit := primaryUnit b; customUnit := customUnit b;
               gstEnabled := gstEnabled b |} in
  let e1 := if notEmpty name then []
            else [{| param := "itemName"; msg := "Item name is required";
                     value := Some name |}] in
  let price := toString (sellPrice b) in
  let e2 := if isFloat (of_Z 0) price then []
            else [{| param := "sellPrice"; msg := "Sell price must be a positive number";
                     value := sellPrice b |}] in
  let ty := toString (type b) in
  let e3 := if isIn ["Veg"; "Non-Veg"] ty then []
            else [{| param := "type"; msg := "Invalid product type"; value := type b |}] in
  let e4 := match primaryUnit b with
            | None => []
            | Some u =>
                if isIn ["piece"; "kg"; "gram"; ""] u then []
                else [{| param := "primaryUnit"; msg := "Invalid value"; value := Some u |}]
            end in
  ((e1 ++ e2 ++ e3 ++ e4)%list, b').

End Validator.

(* ================================================================== *)
(** ** mongoose: the [Product] model *)
(* ================================================================== *)

Module Mongoose.
Import JS.

(** An ObjectId is twelve bytes; a document carries it as the driver prints
    it ([toHexString], and so in JSON): 24 hexadecimal digits in lower
    case. *)
Definition ObjectId := string.

Definition is_hex_digit (c : ascii) : bool :=
  let n := N_of_ascii c in
  is_digit c || ((97 <=? n)%N && (n <=? 102)%N) || ((65 <=? n)%N && (n <=? 70)%N).

Fixpoint all_hex_digits (s : string) : bool :=
  match s with
  | String c s' => is_hex_digit c && all_hex_digits s'
  | EmptyString => true
  end.

(** The letters [A] to [F] in lower case, every other character as it
    is. *)
Definition lower_hex_digit (c : ascii) : ascii :=
  let n := N_of_ascii c in
  if (65 <=? n)%N && (n <=? 70)%N then ascii_of_N (n + 32) else c.

Fixpoint lower_hex (s : string) : string :=
  match s with
  | String c s' => String (lower_hex_digit c) (lower_hex s')
  | EmptyString => EmptyString
  end.

(** The cast of a string to an ObjectId, as [findById] and
    [findByIdAndDelete] apply it to their argument: a string of 24
    hexadecimal digits, in either case, is the identifier with those bytes;
    any other string does not cast. (This is the constructor of the bson
    package from its version 5 on; before, a string of 12 bytes was taken
    as the bytes themselves.) *)
Definition castObjectId (value : string) : option ObjectId :=
  if Nat.eqb (String.length value) 24 && all_hex_digits value
  then Some (lower_hex value)
  else None.

Definition hex_digit (n : N) : ascii :=
  match String.get (N.to_nat n) "0123456789abcdef" with
  | Some c => c
  | None => "0"%char
  end.

(** The last [k] hexadecimal digits of [n], before [acc]. *)
Fixpoint hex_digits (k : nat) (n : N) (acc : string) : string :=
  match k with
  | O => acc
  | S k' => hex_digits k' (n / 16)%N (String (hex_digit (n mod 16)%N) acc)
  end.

(** [toHexString()] of the ObjectId whose twelve bytes are the number [n]
    (modulo [2^96]), most significant byte first. *)
Definition toHexString (n : N) : ObjectId := hex_digits 24 n "".

(** A document of the collection. A path that is [undefined] or [null] is
    [None] ([type] is only so after an assignment of [undefined]).
    [barcode] is declared by the first schema only, [image] and [updatedAt]
    by the second only; a path that the schema does not declare is never
    stored and stays [None]. *)
Record Product := {
  _id : ObjectId;
  itemName : option string;
  sellPrice : number;
  type : option string;
  primaryUnit : option string;
  customUnit : option string;
  gstEnabled : bool;
  gstPercentage : number;
  gstAmount : number;
  totalPrice : number;
  barcode : option string;
  image : option string;
  createdAt : Z;
  updatedAt : option Z
}.

(** What the two [ProductSchema] declarations differ in. Both declare
    [itemName] (required, trimmed), [sellPrice] (required), [type] (enum,
    default [Veg]), [gstEnabled], [gstPercentage], [gstAmount], [totalPrice],
    [primaryUnit], [customUnit] and a creation date. *)
Record Schema := {
  type_enum : list string;
  sellPrice_min : option number;
  totalPrice_min : option number;
  primaryUnit_enum : option (list string);
  customUnit_trim : bool;
  barcode_path : bool;      (* [barcode: { type: String, unique: true }] *)
  image_path : bool;        (* [image: { type: String, default: '' }] *)
  timestamps : bool         (* [{ timestamps: true }]; otherwise
                               [createdAt: { default: Date.now }] *)
}.

(** The first schema of the repository: [barcode], no [image]. *)
Definition ProductSchema_1 : Schema := {|
  type_enum := ["Veg"; "Non-Veg"];
  sellPrice_min := Some (of_Z 0);
  totalPrice_min := Some (of_Z 0);
  primaryUnit_enum := Some ["piece"; "kg"; "gram"; ""];
  customUnit_trim := true;
  barcode_path := true;
  image_path := false;
  timestamps := false
|}.

(** The second schema of the repository: [image] and timestamps, no
    [barcode]. *)
Definition ProductSchema_2 : Schema := {|
  type_enum := ["Veg"; "Non-Veg"; "Beverage"];
  sellPrice_min := None;
  totalPrice_min := None;
  primaryUnit_enum := None;
  customUnit_trim := false;
  barcode_path := false;
  image_path := true;
  timestamps := true
|}.

(** The object given to [new Product(...)] by the create handler. *)
Record Fields := {
  f_itemName : option string;
  f_sellPrice : number;
  f_type : option string;
  f_primaryUnit : option string;
  f_customUnit : option string;
  f_gstEnabled : bool;
  f_gstPercentage : number;
  f_gstAmount : number;
  f_totalPrice : number;
  f_barcode : string;
  f_image : option string
}.

Definition set_customUnit (sch : Schema) (v : option string) : option string :=
  if customUnit_trim sch then option_map trim v else v.

Definition set_image (sch : Schema) (v : option string) : option string :=
  if image_path sch then v else None.

(** [new Product(fields)]: setters and defaults are applied, undeclared
    paths are dropped (strict mode), and the document gets its identifier
    and creation date. *)
Definition new_Product (sch : Schema) (oid : ObjectId) (now : Z) (f : Fields) : Product := {|
  _id := oid;
  itemName := option_map trim (f_itemName f);
  sellPrice := f_sellPrice f;
  type := match f_type f with Some t => Some t | None => Some "Veg" end;
  primaryUnit := f_primaryUnit f;
  customUnit := set_customUnit sch (f_customUnit f);
  gstEnabled := f_gstEnabled f;
  gstPercentage := f_gstPercentage f;
  gstAmount := f_gstAmount f;
  totalPrice := f_totalPrice f;
  barcode := if barcode_path sch then Some (f_barcode f) else None;
  image := set_image sch (f_image f);
  createdAt := now;
  updatedAt := if timestamps sch then Some now else None
|}.

Definition is_nan (x : number) : bool :=
  match x with
  | S754_nan => true
  | _ => false
  end.

(** A number path: NaN does not cast; a declared minimum must be met. *)
Definition check_number (path : string) (min : option number) (x : number) : list string :=
  if is_nan x then [path]
  else match min with
       | Some m => if geb x m then [] else [path]
       | None => []
       end.

Definition check_enum (path : string) (values : list string) (v : string) : list string :=
  if existsb (String.eqb v) values then [] else [path].

(** The paths that fail validation on [save]. *)
Definition validate (sch : Schema) (p : Product) : list string :=
  (match itemName p with
   | Some (String _ _) => []
   | _ => ["itemName"]
   end ++
   match type p with
   | Some t => check_enum "type" (type_enum sch) t
   | None => []
   end ++
   check_number "sellPrice" (sellPrice_min sch) (sellPrice p) ++
   check_number "gstPercentage" None (gstPercentage p) ++
   check_number "gstAmount" None (gstAmount p) ++
   check_number "totalPrice" (totalPrice_min sch) (totalPrice p) ++
   match primaryUnit_enum sch, primaryUnit p with
   | Some values, Some u => check_enum "primaryUnit" values u
   | _, _ => []
   end)%list.

Definition same_id (i : ObjectId) (p : Product) : bool := String.eqb (_id p) i.

Definition same_barcode (b : option string) (p : Product) : bool :=
  match b, barcode p with
  | Some x, Some y => String.eqb x y
  | None, None => true
  | _, _ => false
  end.

(** [sort({ createdAt: -1 })]: insertion in a list that is already in
    descending order, before the first document that is not newer; documents
    of the same date stay in the order of the collection. *)
Fixpoint insert_desc (p : Product) (l : list Product) : list Product :=
  match l with
  | [] => [p]
  | q :: l' => if (createdAt q <=? createdAt p)%Z then p :: q :: l' else q :: insert_desc p l'
  end.

Definition sort_createdAt_desc (l : list Product) : list Product :=
  fold_right insert_desc [] l.

Fixpoint remove_first (i : ObjectId) (l : list Product) : list Product :=
  match l with
  | [] => []
  | q :: l' => if same_id i q then l' else q :: remove_first i l'
  end.

(** The stored document with the identifier of [p] becomes [p]. *)
Fixpoint replace (p : Product) (l : list Product) : list Product :=
  match l with
  | [] => []
  | q :: l' => if same_id (_id p) q then p :: l' else q :: replace p l'
  end.

End Mongoose.

(* ================================================================== *)
(** ** cloudinary: the asset host *)
(* ================================================================== *)

Module Cloudinary.
Import JS.

(** A call to the uploader: [upload(dataURI, { folder, ... })] or
    [destroy(public_id)]. *)
Inductive Call :=
  | upload (dataURI : string) (folder : string)
  | destroy (public_id : string).

Definition base64_alphabet : string :=
  "ABCDEFGHIJKLMNOPQRSTUVWXYZabcdefghijklmnopqrstuvwxyz0123456789+/".

Definition base64_char (n : N) : string :=
  match String.get (N.to_nat n) base64_alphabet with
  | Some c => String c EmptyString
  | None => EmptyString
  end.

(** [Buffer.from(bytes).toString("base64")]. *)
Fixpoint base64 (bytes : list Byte.byte) : string :=
  match bytes with
  | [] => ""
  | [a] =>
      let x := Byte.to_N a in
      base64_char (x / 4) ++ base64_char (x mod 4 * 16) ++ "=="
  | [a; b] =>
      let x := Byte.to_N a in
      let y := Byte.to_N b in
      base64_char (x / 4) ++ base64_char (x mod 4 * 16 + y / 16) ++
      base64_char (y mod 16 * 4) ++ "="
  | a :: b :: c :: rest =>
      let x := Byte.to_N a in
      let y := Byte.to_N b in
      let z := Byte.to_N c in
      base64_char (x / 4) ++ base64_char (x mod 4 * 16 + y / 16) ++
      base64_char (y mod 16 * 4 + z / 64) ++ base64_char (z mod 64) ++ base64 rest
  end%N.

(** [s.split(sep)] for a one-character separator. *)
Fixpoint split (sep : ascii) (s : string) : list string :=
  match s with
  | EmptyString => [EmptyString]
  | String c s' =>
      match split sep s' with
      | h :: t => if Ascii.eqb c sep then EmptyString :: h :: t else String c h :: t
      | [] => [EmptyString]
      end
  end.

(** [url.split('/').pop().split('.')[0]]. *)
Definition publicId (url : string) : string :=
  hd "" (split "." (last (split "/" url) "")).

End Cloudinary.

(* ================================================================== *)
(** ** The world of a handler *)
(* ================================================================== *)

Module Effect.
Import JS Mongoose.

(** What a handler can change: the collection (in insertion order), the
    calls made to the asset host, and the console. *)
Record World := {
  db : list Product;
  calls : list Cloudinary.Call;
  console : list string
}.

(** What a handler reads from outside during one request: the random draw,
    the clock, the twelve bytes that the driver generates for the
    identifier of a new document, and the outcome of the calls to the asset
    host ([uploader_upload] resolves with the [secure_url] or rejects,
    [uploader_destroy] resolves or rejects). *)
Record Env := {
  Math_random : number;
  Date_now : Z;
  ObjectId_generate : N;
  uploader_upload : string -> string + Exception;
  uploader_destroy : string -> option Exception
}.

(** [new ObjectId()], as [new Product(...)] calls it. *)
Definition new_ObjectId (env : Env) : ObjectId := toHexString (ObjectId_generate env).

(** An asynchronous computation: it runs on the world and returns a value
    or throws. *)
Definition M (A : Type) : Type := World -> (A + Exception) * World.

Definition ret {A} (a : A) : M A := fun w => (inl a, w).

Definition throw {A} (e : Exception) : M A := fun w => (inr e, w).

Definition bind {A B} (m : M A) (k : A -> M B) : M B :=
  fun w =>
    match m w with
    | (inl a, w') => k a w'
    | (inr e, w') => (inr e, w')
    end.

(** [try { m } catch (e) { h e }]. *)
Definition try_catch {A} (m : M A) (h : Exception -> M A) : M A :=
  fun w =>
    match m w with
    | (inl a, w') => (inl a, w')
    | (inr e, w') => h e w'
    end.

Definition log (line : string) : M unit :=
  fun w => (inl tt, {| db := db w; calls := calls w; console := console w ++ [line] |}).

Definition call (c : Cloudinary.Call) : M unit :=
  fun w => (inl tt, {| db := db w; calls := calls w ++ [c]; console := console w |}).

Definition get_db : M (list Product) := fun w => (inl (db w), w).

Definition set_db (l : list Product) : M unit :=
  fun w => (inl tt, {| db := l; calls := calls w; console := console w |}).

End Effect.

Declare Scope async_scope.
Delimit Scope async_scope with async.
Notation "x <- m ;; k" := (Effect.bind m (fun x => k))
  (at level 61, m at next level, right associativity) : async_scope.
Notation "m ;;; k" := (Effect.bind m (fun _ => k))
  (at level 61, right associativity) : async_scope.

(* ================================================================== *)
(** ** The operations of the model and of the uploader *)
(* ================================================================== *)

Module Model.
Import JS Mongoose Effect.
Local Open Scope async_scope.

(** [Product.findById(id)]: the query is rejected with a cast error when
    [id] does not cast to an ObjectId. *)
Definition findById (id : string) : M (option Product) :=
  match castObjectId id with
  | None => throw (CastError "ObjectId" id "_id")
  | Some i => l <- get_db ;; ret (find (same_id i) l)
  end.

(** [doc.save()] of a new document: validation, then the insertion, which
    the unique indexes (on [_id], and on [barcode] when declared) can
    refuse. *)
Definition save_new (sch : Schema) (p : Product) : M Product :=
  l <- get_db ;;
  match validate sch p with
  | (_ :: _) as paths => throw (ValidationError paths)
  | [] =>
      if existsb (same_id (_id p)) l then throw (MongoServerError "_id")
      else if barcode_path sch && existsb (same_barcode (barcode p)) l
      then throw (MongoServerError "barcode")
      else set_db (l ++ [p]) ;;; ret p
  end.

(** [doc.save()] of a document that was read from the collection:
    validation, then the document replaces the stored one; timestamps
    refresh [updatedAt]. *)
Definition save (sch : Schema) (now : Z) (p : Product) : M Product :=
  l <- get_db ;;
  match validate sch p with
  | (_ :: _) as paths => throw (ValidationError paths)
  | [] =>
      let p' := {| _id := _id p; itemName := itemName p; sellPrice := sellPrice p;
                   type := type p; primaryUnit := primaryUnit p;
                   customUnit := customUnit p; gstEnabled := gstEnabled p;
                   gstPercentage := gstPercentage p; gstAmount := gstAmount p;
                   totalPrice := totalPrice p; barcode := barcode p; image := image p;
                   createdAt := createdAt p;
                   updatedAt := if timestamps sch then Some now else updatedAt p |} in
      set_db (replace p' l) ;;; ret p'
  end.

(** [Product.findByIdAndDelete(id)], with the same cast. *)
Definition findByIdAndDelete (id : string) : M (option Product) :=
  match castObjectId id with
  | None => throw (CastError "ObjectId" id "_id")
  | Some i =>
      l <- get_db ;;
      match find (same_id i) l with
      | Some p => set_db (remove_first i l) ;;; ret (Some p)
      | None => ret None
      end
  end.

(** [Product.find().sort({ createdAt: -1 })]. *)
Definition find_sorted : M (list Product) :=
  l <- get_db ;; ret (sort_createdAt_desc l).

(** [cloudinary.uploader.upload(dataURI, { folder: "products", ... })],
    resolved to [uploadResponse.secure_url]. *)
Definition uploader_upload (env : Env) (dataURI : string) : M string :=
  call (Cloudinary.upload dataURI "products") ;;;
  match Effect.uploader_upload env dataURI with
  | inl secure_url => ret secure_url
  | inr e => throw e
  end.

(** [cloudinary.uploader.destroy(public_id)]. *)
Definition uploader_destroy (env : Env) (public_id : string) : M unit :=
  call (Cloudinary.destroy public_id) ;;;
  match Effect.uploader_destroy env public_id with
  | None => ret tt
  | Some e => throw e
  end.

End Model.

(* ================================================================== *)
(** ** The router *)
(* ================================================================== *)

Module Routes.
Import JS Express Mongoose Effect Model.
Local Open Scope async_scope.

Inductive Json :=
  | errors_json (errors : list Validator.FieldError)           (* { errors } *)
  | message_json (message : string) (product : option Product)  (* { message, product } *)
  | failure_json (error : string) (details : Exception)        (* { error, details } *)
  | error_json (error : string)                                (* { error } *)
  | products_json (products : list Product).

(** What a route answers: [res.status(s).json(j)], or the error that the
    upload middleware hands to [next]. *)
Inductive Response :=
  | res (status : nat) (json : Json)
  | next (err : Exception).

(** [v === s]. *)
Definition strict_eq (v : option string) (s : string) : bool :=
  match v with
  | Some x => String.eqb x s
  | None => false
  end.

(** Truthiness of a string path. *)
Definition truthy (v : option string) : bool :=
  match v with
  | Some (String _ _) => true
  | _ => false
  end.

(** The literal [0.05]. *)
Definition lit_0_05 : number := of_decimal false 5 (-2).

(** [uploadToCloudinary(file)]. *)
Definition uploadToCloudinary (env : Env) (file : option File) : M (option string) :=
  match file with
  | None => ret None
  | Some f =>
      try_catch
        (let b64 := Cloudinary.base64 (buffer f) in
         let dataURI := "data:" ++ mimetype f ++ ";base64," ++ b64 in
         secure_url <- uploader_upload env dataURI ;;
         ret (Some secure_url))
        (fun error =>
           log "Cloudinary upload error:" ;;;
           throw (Error "Image upload failed"))
  end.

(** The GST details of both handlers. *)
Definition gstPercentage_of (gstEnabled : option string) : number :=
  if strict_eq gstEnabled "true" then of_Z 5 else of_Z 0.

Definition gstAmount_of (gstEnabled : option string) (sellPriceFloat : number) : number :=
  if strict_eq gstEnabled "true"
  then parseFloat (toFixed (mul sellPriceFloat lit_0_05) 2)
  else of_Z 0.

Definition totalPrice_of (sellPriceFloat gstAmount : number) : number :=
  parseFloat (toFixed (add sellPriceFloat gstAmount) 2).

(** The body of the [try] block of [POST /products]. *)
Definition create (sch : Schema) (env : Env) (file : option File) (b : Body) : M Response :=
  imageUrl <- uploadToCloudinary env file ;;
  let gstPercentage := gstPercentage_of (Express.gstEnabled b) in
  let sellPriceFloat := parseFloat (ToString (Express.sellPrice b)) in
  let gstAmount := gstAmount_of (Express.gstEnabled b) sellPriceFloat in
  let totalPrice := totalPrice_of sellPriceFloat gstAmount in
  let barcode := toString (floor (mul (Math_random env) (of_Z 1000000000000))) in
  let newProduct := new_Product sch (new_ObjectId env) (Date_now env) {|
    f_itemName := Express.itemName b;
    f_sellPrice := sellPriceFloat;
    f_type := Express.type b;
    f_primaryUnit := Express.primaryUnit b;
    f_customUnit := Express.customUnit b;
    f_gstEnabled := strict_eq (Express.gstEnabled b) "true";
    f_gstPercentage := gstPercentage;
    f_gstAmount := gstAmount;
    f_totalPrice := totalPrice;
    f_barcode := barcode;
    f_image := imageUrl
  |} in
  savedProduct <- save_new sch newProduct ;;
  ret (res 201 (message_json "Product created successfully" (Some savedProduct))).

(** A handler with its [catch] block: the exception is logged and answered
    with [status] and [{ error, details }]. *)
Definition handle (m : M Response) (line : string) (status : nat) (error : string)
  (w : World) : Response * World :=
  match m w with
  | (inl r, w') => (r, w')
  | (inr e, w') =>
      (res status (failure_json error e),
       {| db := db w'; calls := calls w'; console := console w' ++ [line] |})
  end.

(** [router.post('/products', upload.single('image'), validateProduct, ...)]. *)
Definition post_products (sch : Schema) (env : Env) (req : Request) (w : World)
  : Response * World :=
  match Multer.single "image" req with
  | inl err => (next err, w)
  | inr file =>
      match Validator.validateProduct (body req) with
      | ((_ :: _) as errors, _) => (res 400 (errors_json errors), w)
      | ([], b) =>
          handle (create sch env file b)
                 "Product creation error:" 400 "Failed to create product" w
      end
  end.

(** The body of the [try] block of [PUT /products/:id]. *)
Definition update (sch : Schema) (env : Env) (productId : string)
  (file : option File) (b : Body) : M Response :=
  found <- findById productId ;;
  match found with
  | None => ret (res 404 (error_json "Product not found"))
  | Some existingProduct =>
      imageUrl <-
        match file with
        | None => ret (image existingProduct)
        | Some _ =>
            (if truthy (image existingProduct) then
               try_catch
                 (let publicId := Cloudinary.publicId
                                    (match image existingProduct with Some u => u | None => "" end) in
                  uploader_destroy env ("products/" ++ publicId))
                 (fun deleteError => log "Failed to delete old image:")
             else ret tt) ;;;
            uploadToCloudinary env file
        end ;;
      let gstPercentage := gstPercentage_of (Express.gstEnabled b) in
      let sellPriceFloat := parseFloat (ToString (Express.sellPrice b)) in
      let gstAmount := gstAmount_of (Express.gstEnabled b) sellPriceFloat in
      let totalPrice := totalPrice_of sellPriceFloat gstAmount in
      let existingProduct' := {|
        _id := _id existingProduct;
        itemName := itemName existingProduct;
        sellPrice := sellPriceFloat;
        type := Express.type b;
        primaryUnit := Express.primaryUnit b;
        customUnit := set_customUnit sch (Express.customUnit b);
        gstEnabled := strict_eq (Express.gstEnabled b) "true";
        gstPercentage := gstPercentage;
        gstAmount := gstAmount;
        totalPrice := totalPrice;
        barcode := barcode existingProduct;
        image := set_image sch imageUrl;
        createdAt := createdAt existingProduct;
        updatedAt := updatedAt existingProduct
      |} in
      updatedProduct <- save sch (Date_now env) existingProduct' ;;
      ret (res 200 (message_json "Product updated successfully" (Some updatedProduct)))
  end.

(** [router.put('/products/:id', upload.single('image'), validateProduct, ...)]. *)
Definition put_products (sch : Schema) (env : Env) (req : Request) (w : World)
  : Response * World :=
  match Multer.single "image" req with
  | inl err => (next err, w)
  | inr file =>
      match Validator.validateProduct (body req) with
      | ((_ :: _) as errors, _) => (res 400 (errors_json errors), w)
      | ([], b) =>
          handle (update sch env (params_id req) file b)
                 "Product update error:" 400 "Failed to update product" w
      end
  end.

(** The body of the [try] block of [DELETE /products/:id]. *)
Definition delete (env : Env) (productId : string) : M Response :=
  found <- findById productId ;;
  match found with
  | None => ret (res 404 (error_json "Product not found"))
  | Some product =>
      (if truthy (image product) then
         try_catch
           (let publicId := Cloudinary.publicId
                              (match image product with Some u => u | None => "" end) in
            uploader_destroy env ("products/" ++ publicId))
           (fun deleteError => log "Failed to delete image from Cloudinary:")
       else ret tt) ;;;
      deletedProduct <- findByIdAndDelete productId ;;
      ret (res 200 (message_json "Product deleted successfully" deletedProduct))
  end.

(** [router.delete('/products/:id', ...)]; its [catch] block does not log. *)
Definition delete_products (env : Env) (req : Request) (w : World) : Response * World :=
  match delete env (params_id req) w with
  | (inl r, w') => (r, w')
  | (inr e, w') => (res 500 (failure_json "Failed to delete product" e), w')
  end.

(** [router.get('/products', ...)]. *)
Definition get_products (w : World) : Response * World :=
  match (products <- find_sorted ;; ret (res 200 (products_json products))) w with
  | (inl r, w') => (r, w')
  | (inr e, w') => (res 500 (failure_json "Failed to retrieve products" e), w')
  end.

End Routes.

(* ================================================================== *)
(** ** The router without upload *)
(* ================================================================== *)

(** The second router of [productRoutes.js] has no upload middleware and
    never calls the asset host. Its delete route removes the record in one
    step, and its list route is that of the first router. *)
Module Routes2.
Import JS Express Mongoose Effect Model Routes.
Local Open Scope async_scope.

(** The body of the [try] block of [DELETE /products/:id]. *)
Definition delete (productId : string) : M Response :=
  deletedProduct <- findByIdAndDelete productId ;;
  match deletedProduct with
  | None => ret (res 404 (error_json "Product not found"))
  | Some _ => ret (res 200 (message_json "Product deleted successfully" deletedProduct))
  end.

(** [router.delete('/products/:id', ...)]. *)
Definition delete_products (req : Request) (w : World) : Response * World :=
  match delete (params_id req) w with
  | (inl r, w') => (r, w')
  | (inr e, w') => (res 500 (failure_json "Failed to delete product" e), w')
  end.

End Routes2.

(* ================================================================== *)
(** ** Vocabulary of the properties *)
(* ================================================================== *)

Import JS Mongoose Effect Model Routes.

(** [p] comes before [q] in a list that is newest first. *)
Definition newer_or_same (p q : Product) : Prop := (createdAt q <= createdAt p)%Z.

(** A string that is empty or made of white space only. *)
Fixpoint only_whitespace (s : string) : bool :=
  match s with
  | EmptyString => true
  | String c s' => is_whitespace c && only_whitespace s'
  end.

(** Rounding to two fractional digits, as the handlers do it. *)
Definition round2 (x : number) : number := parseFloat (toFixed x 2).

(** The record stored under the id of a path: the one that [findById]
    resolves to, if the id casts and a record has that identifier. *)
Definition stored (id : string) (w : World) : option Product :=
  match castObjectId id with
  | Some i => find (same_id i) (db w)
  | None => None
  end.

(** The fields that no update may touch. *)
Definition identity (p : Product) : ObjectId * option string * option string * Z :=
  (_id p, itemName p, barcode p, createdAt p).

(** The entry of [errors] for a missing item name. *)
Definition itemName_required : Validator.FieldError :=
  {| Validator.param := "itemName"; Validator.msg := "Item name is required";
     Validator.value := Some "" |}.

Definition invalid_type (v : string) : Validator.FieldError :=
  {| Validator.param := "type"; Validator.msg := "Invalid product type";
     Validator.value := Some v |}.

(** The data URI that [uploadToCloudinary] sends for a file. *)
Definition dataURI (f : Express.File) : string :=
  "data:" ++ Express.mimetype f ++ ";base64," ++ Cloudinary.base64 (Express.buffer f).

(** The call that removes the asset behind an image URL. *)
Definition destroy_of (url : string) : Cloudinary.Call :=
  Cloudinary.destroy ("products/" ++ Cloudinary.publicId url).

(** The removal of an old asset, with its [catch] block: it never throws
    and leaves the collection alone. *)
Definition destroy_old (env : Env) (url : option string) (line : string) : M unit :=
  if truthy url then
    try_catch
      (Model.uploader_destroy env
         ("products/" ++ Cloudinary.publicId (match url with Some u => u | None => "" end)))
      (fun _ => log line)
  else ret tt.

(** *** Digits and rounding *)

(** A string whose first character is a decimal digit. *)
Definition starts_with_digit (s : string) : bool :=
  match s with
  | String c _ => is_digit c
  | EmptyString => false
  end.

(** A string without a comma. *)
Fixpoint no_comma (s : string) : bool :=
  match s with
  | String c s' => negb (Ascii.eqb c ",") && no_comma s'
  | EmptyString => true
  end.

(** A string of decimal digits only, and the number it writes after [acc]. *)
Fixpoint all_digits (s : string) : bool :=
  match s with
  | String c s' => is_digit c && all_digits s'
  | EmptyString => true
  end.

Fixpoint value_from (acc : N) (s : string) : N :=
  match s with
  | String c s' => value_from (acc * 10 + digit_val c)%N s'
  | EmptyString => acc
  end.

(** Rounding to hundredths: the sign of [x] and the integer nearest to
    [|x| * 100], the larger one on a tie. Defined for zero and for the finite
    numbers of magnitude below [10^21]. *)
Definition hundredths (x : number) : option (bool * N) :=
  match x with
  | S754_zero _ => Some (false, 0%N)
  | S754_finite s m e =>
      let '(p, q) := fraction m e in
      if (10 ^ 21 * q <=? p)%Z then None
      else Some (s, Z.to_N ((2 * p * 100 + q) / (2 * q)))
  | _ => None
  end.

(** Every stored record passes the validation of the schema. *)
Definition valid_store (sch : Schema) (w : World) : Prop :=
  Forall (fun p => validate sch p = []) (db w).

(** *** Concrete requests and worlds *)

Module Scenario.

(** The identifier whose twelve bytes are the number [n]: 22 zeros and
    [a1] for [oid 0xa1]. *)
Definition oid (n : N) : ObjectId := toHexString n.

Definition form (name price ty gst : option string) : Express.Body := {|
  Express.itemName := name;
  Express.sellPrice := price;
  Express.type := ty;
  Express.primaryUnit := None;
  Express.customUnit := None;
  Express.gstEnabled := gst
|}.

Definition request (i : string) (b : Express.Body) (f : option Express.File)
  : Express.Request :=
  {| Express.params_id := i; Express.body := b; Express.attachment := f |}.

(** [{itemName:"Tea", sellPrice:20, type:"Beverage", gstEnabled:true}] as
    form fields. *)
Definition tea_beverage : Express.Request :=
  request "" (form (Some "Tea") (Some "20") (Some "Beverage") (Some "true")) None.

Definition tea (ty : string) : Express.Request :=
  request "" (form (Some "Tea") (Some "20") (Some ty) (Some "true")) None.

Definition png : Express.File := {|
  Express.fieldname := "image";
  Express.mimetype := "image/png";
  Express.buffer := [Byte.x89; Byte.x50; Byte.x4e; Byte.x47]
|}.

Definition pdf : Express.File := {|
  Express.fieldname := "image";
  Express.mimetype := "application/pdf";
  Express.buffer := [Byte.x25; Byte.x50; Byte.x44; Byte.x46]
|}.

Definition new_url : string :=
  "https://res.cloudinary.com/demo/image/upload/v2/products/new456.png".

Definition old_url : string :=
  "https://res.cloudinary.com/demo/image/upload/v1/products/old123.png".

(** An environment where the asset host accepts every upload and, as
    [destroy_ok] says, accepts or refuses every removal. *)
Definition env (oid : N) (now : Z) (destroy_ok : bool) : Env := {|
  Math_random := parseFloat "0.123456789012345";
  Date_now := now;
  ObjectId_generate := oid;
  Effect.uploader_upload := fun _ => inl new_url;
  Effect.uploader_destroy := fun _ => if destroy_ok then None else Some (Error "not found")
|}.

(** An environment where the asset host refuses every call. *)
Definition env_down (oid : N) (now : Z) : Env := {|
  Math_random := parseFloat "0.5";
  Date_now := now;
  ObjectId_generate := oid;
  Effect.uploader_upload := fun _ => inr (Error "timeout");
  Effect.uploader_destroy := fun _ => Some (Error "timeout")
|}.

Definition empty : World := {| db := []; calls := []; console := [] |}.

(** A stored record with an image; its [_id] is [oid 0xa1]. *)
Definition coffee : Product := {|
  _id := oid 0xa1;
  itemName := Some "Coffee";
  sellPrice := of_Z 30;
  type := Some "Veg";
  primaryUnit := None;
  customUnit := None;
  gstEnabled := false;
  gstPercentage := of_Z 0;
  gstAmount := of_Z 0;
  totalPrice := of_Z 30;
  barcode := None;
  image := Some old_url;
  createdAt := 5;
  updatedAt := Some 5%Z
|}.

Definition shop : World := {| db := [coffee]; calls := []; console := [] |}.

End Scenario.

(** *** Concrete records *)

Module Records.

(** The record that the request [Scenario.tea "Veg"] creates at time [now]
    under the second schema. *)
Definition tea (n : N) (now : Z) : Product := {|
  _id := Scenario.oid n;
  itemName := Some "Tea";
  sellPrice := of_Z 20;
  type := Some "Veg";
  primaryUnit := None;
  customUnit := None;
  gstEnabled := true;
  gstPercentage := of_Z 5;
  gstAmount := of_Z 1;
  totalPrice := of_Z 21;
  barcode := None;
  image := None;
  createdAt := now;
  updatedAt := Some now
|}.

Definition world (l : list Product) : World := {| db := l; calls := []; console := [] |}.

(** [Scenario.coffee] after an update with the fields of [Scenario.tea] and
    a new image, at time [now]. *)
Definition coffee_updated (now : Z) : Product := {|
  _id := Scenario.oid 0xa1;
  itemName := Some "Coffee";
  sellPrice := of_Z 20;
  type := Some "Veg";
  primaryUnit := None;
  customUnit := None;
  gstEnabled := true;
  gstPercentage := of_Z 5;
  gstAmount := of_Z 1;
  totalPrice := of_Z 21;
  barcode := None;
  image := Some Scenario.new_url;
  createdAt := 5;
  updatedAt := Some now
|}.

End Records.

(** *** Vocabulary of the further properties *)

(** No two stored records share an identifier, or a barcode. *)
Definition unique_ids (w : World) : Prop := NoDup (map _id (db w)).

Definition unique_barcodes (w : World) : Prop := NoDup (map barcode (db w)).

(** A number that is not NaN and not below zero ([-0] counts as zero). *)
Definition nonneg (x : number) : bool :=
  match x with
  | S754_nan => false
  | S754_zero _ => true
  | S754_infinity s => negb s
  | S754_finite s _ _ => negb s
  end.

(** The amounts of a record are numbers that are not below zero. *)
Definition amounts_nonneg (p : Product) : Prop :=
  nonneg (sellPrice p) = true /\ nonneg (gstPercentage p) = true /\
  nonneg (gstAmount p) = true /\ nonneg (totalPrice p) = true.

(** A string in which the character [c] does not occur. *)
Fixpoint without (c : ascii) (s : string) : bool :=
  match s with
  | String d s' => negb (Ascii.eqb d c) && without c s'
  | EmptyString => true
  end.

(** The calls that remove the asset of a record, if it has one. *)
Definition removal_calls (p : Product) : list Cloudinary.Call :=
  match image p with
  | Some (String c u) => [destroy_of (String c u)]
  | _ => []
  end.

(** One of the two schemas of the repository. *)
Definition repository_schema (sch : Schema) : Prop :=
  sch = ProductSchema_1 \/ sch = ProductSchema_2.

(** The barcode that the create handler draws in an environment. *)
Definition barcode_of (env : Env) : string :=
  toString (floor (mul (Math_random env) (of_Z 1000000000000))).

(** What [uploadToCloudinary] gives for the file of a request: nothing
    without a file, the URL that the asset host answers otherwise. *)
Definition uploaded (env : Env) (file : option Express.File) : option string :=
  match file with
  | Some f =>
      match Effect.uploader_upload env (dataURI f) with
      | inl u => Some u
      | inr _ => None
      end
  | None => None
  end.

Definition upload_calls (file : option Express.File) : list Cloudinary.Call :=
  match file with
  | Some f => [Cloudinary.upload (dataURI f) "products"]
  | None => []
  end.

(** The asset host accepts the file of the request, if there is one. *)
Definition upload_accepted (env : Env) (file : option Express.File) : Prop :=
  forall f, file = Some f -> exists u, Effect.uploader_upload env (dataURI f) = inl u.

(** A record with another date of update. *)
Definition with_updatedAt (p : Product) (u : option Z) : Product := {|
  _id := _id p; itemName := itemName p; sellPrice := sellPrice p; type := type p;
  primaryUnit := primaryUnit p; customUnit := customUnit p; gstEnabled := gstEnabled p;
  gstPercentage := gstPercentage p; gstAmount := gstAmount p; totalPrice := totalPrice p;
  barcode := barcode p; image := image p; createdAt := createdAt p; updatedAt := u
|}.

(** A world with another collection, or with more calls. *)
Definition with_db (w : World) (l : list Product) : World :=
  {| db := l; calls := calls w; console := console w |}.

Definition with_calls (w : World) (c : list Cloudinary.Call) : World :=
  {| db := db w; calls := calls w ++ c; console := console w |}.

(** *** The data model of the specification *)

(** The derived fields as the data model of the specification states them,
    on exact decimal values: [gstPercentage] is 5 when [gstEnabled] and 0
    otherwise, [gstAmount] is [round2 (sellPrice * 0.05)] when [gstEnabled]
    and 0 otherwise, [totalPrice] is [round2 (sellPrice + gstAmount)], where
    Round2 rounds a decimal value to two fractional digits, half up or, at
    the implementer's choice, to the even digit on a tie. *)
Module Spec.
Import QArith_base Qround.
Local Open Scope Q_scope.

(** Round2, half up: the hundredth nearest to [x], the upper one when [x]
    is half way between two. *)
Definition Round2_half_up (x : Q) : Q := Qfloor (x * 100 + (1 # 2)) # 100.

(** Round2, banker's: the hundredth nearest to [x], the one with an even
    last digit when [x] is half way between two. *)
Definition Round2_half_even (x : Q) : Q :=
  let n := Qfloor (x * 100) in
  match (x * 100 - inject_Z n) ?= (1 # 2) with
  | Lt => n # 100
  | Gt => (n + 1) # 100
  | Eq => (if Z.even n then n else n + 1)%Z # 100
  end.

Definition gstPercentage (gstEnabled : bool) : Q := if gstEnabled then 5 else 0.

Definition gstAmount (round2 : Q -> Q) (sellPrice : Q) (gstEnabled : bool) : Q :=
  if gstEnabled then round2 (sellPrice * (5 # 100)) else 0.

Definition totalPrice (round2 : Q -> Q) (sellPrice : Q) (gstEnabled : bool) : Q :=
  round2 (sellPrice + gstAmount round2 sellPrice gstEnabled).

End Spec.

(** The exact value of a number, 0 for one that is not finite. *)
Definition exact_value (x : number) : QArith_base.Q :=
  match x with
  | S754_finite s m e =>
      let '(p, q) := fraction m e in
      QArith_base.Qmake (if s then - p else p)%Z (Z.to_pos q)
  | _ => QArith_base.Qmake 0 1
  end.

(** The number that writes a decimal value: the one nearest to it, ties to
    even. *)
Definition of_Q (q : QArith_base.Q) : number :=
  match QArith_base.Qnum q with
  | Z0 => S754_zero false
  | Zpos p =>
      SFdiv prec emax (S754_finite false p 0) (S754_finite false (QArith_base.Qden q) 0)
  | Zneg p =>
      SFdiv prec emax (S754_finite true p 0) (S754_finite false (QArith_base.Qden q) 0)
  end.

(** The decimal value of [n] hundredths. *)
Definition cents (n : Z) : QArith_base.Q := QArith_base.Qmake n 100.

(** The derived fields of a record are those that the data model
    prescribes for its price and its flag, under a rounding [round2]: each
    field is the number that writes the prescribed value. *)
Definition derived_fields_hold (round2 : QArith_base.Q -> QArith_base.Q) (p : Product)
  : Prop :=
  gstPercentage p = of_Q (Spec.gstPercentage (gstEnabled p)) /\
  gstAmount p
  = of_Q (Spec.gstAmount round2 (exact_value (sellPrice p)) (gstEnabled p)) /\
  totalPrice p
  = of_Q (Spec.totalPrice round2 (exact_value (sellPrice p)) (gstEnabled p)).

(** *** The asset behind a URL, the bytes behind a data URI *)

(** The text after the last [c] of [s]; [s] itself when [c] does not
    occur. *)
Fixpoint after_last (c : ascii) (s : string) : string :=
  match s with
  | EmptyString => EmptyString
  | String d s' =>
      if without c s' then (if Ascii.eqb d c then s' else s) else after_last c s'
  end.

(** The text before the first [c] of [s]; [s] itself when [c] does not
    occur. *)
Fixpoint before_first (c : ascii) (s : string) : string :=
  match s with
  | EmptyString => EmptyString
  | String d s' => if Ascii.eqb d c then EmptyString else String d (before_first c s')
  end.

(** The name that a URL gives to its asset: the trailing path segment, up
    to its first dot. *)
Definition asset_name (url : string) : string := before_first "." (after_last "/" url).

(** The value of a character of the base64 alphabet (RFC 4648): [A]-[Z] are
    0 to 25, [a]-[z] 26 to 51, [0]-[9] 52 to 61, [+] is 62 and [/] is 63. *)
Definition base64_value (c : ascii) : option N :=
  let n := N_of_ascii c in
  if (65 <=? n)%N && (n <=? 90)%N then Some (n - 65)%N
  else if (97 <=? n)%N && (n <=? 122)%N then Some (n - 71)%N
  else if (48 <=? n)%N && (n <=? 57)%N then Some (n + 4)%N
  else if (n =? 43)%N then Some 62%N
  else if (n =? 47)%N then Some 63%N
  else None.

Definition is_empty (s : string) : bool :=
  match s with
  | EmptyString => true
  | String _ _ => false
  end.

(** The bytes that a base64 text with padding stands for: four characters
    give three bytes; a last group that ends in one or two [=] gives two
    bytes or one. *)
Fixpoint base64_decode (s : string) : option (list Byte.byte) :=
  match s with
  | EmptyString => Some []
  | String c1 (String c2 (String c3 (String c4 rest))) =>
      match base64_value c1, base64_value c2 with
      | Some v1, Some v2 =>
          match Byte.of_N (v1 * 4 + v2 / 16) with
          | None => None
          | Some b1 =>
              if Ascii.eqb c3 "=" then
                if Ascii.eqb c4 "=" && is_empty rest then Some [b1] else None
              else
                match base64_value c3 with
                | None => None
                | Some v3 =>
                    match Byte.of_N (v2 mod 16 * 16 + v3 / 4) with
                    | None => None
                    | Some b2 =>
                        if Ascii.eqb c4 "=" then
                          if is_empty rest then Some [b1; b2] else None
                        else
                          match base64_value c4, base64_decode rest with
                          | Some v4, Some bytes =>
                              match Byte.of_N (v3 mod 4 * 64 + v4) with
                              | Some b3 => Some (b1 :: b2 :: b3 :: bytes)
                              | None => None
                              end
                          | _, _ => None
                          end
                    end
                end
          end
      | _, _ => None
      end
  | _ => None
  end%N.

(** *** More concrete records and worlds *)

Module Cases.

(** A record of the first schema, whose barcode is the one drawn in the
    environments of [Scenario]. *)
Definition milk : Product := {|
  _id := Scenario.oid 2;
  itemName := Some "Milk";
  sellPrice := of_Z 10;
  type := Some "Veg";
  primaryUnit := None;
  customUnit := None;
  gstEnabled := false;
  gstPercentage := of_Z 0;
  gstAmount := of_Z 0;
  totalPrice := of_Z 10;
  barcode := Some "123456789012";
  image := None;
  createdAt := 2;
  updatedAt := None
|}.

Definition dairy : World := {| db := [milk]; calls := []; console := [] |}.

(** An update request for the record [Scenario.oid 0xa1], with or without a
    file. *)
Definition update_tea (f : option Express.File) : Express.Request :=
  Scenario.request (Scenario.oid 0xa1) (Express.body (Scenario.tea "Veg")) f.

(** A request that prices a snack at 21.50 with GST, for the record
    [Scenario.oid 0xa1] when it is an update. *)
Definition snack : Express.Request :=
  Scenario.request (Scenario.oid 0xa1)
    (Scenario.form (Some "Snack") (Some "21.50") (Some "Veg") (Some "true")) None.

End Cases.

(* ================================================================== *)
(** ** Properties *)
(* ================================================================== *)

(** *** The arithmetic on known values *)

Example parseFloat_values :
  parseFloat "20" = of_Z 20 /\
  parseFloat "0.1" = S754_finite false 7205759403792794 (-56) /\
  parseFloat "  -1.5e3xyz" = of_Z (-1500) /\
  parseFloat "5." = of_Z 5 /\
  parseFloat ".5" = S754_finite false 4503599627370496 (-53) /\
  parseFloat "Infinityx" = Infinity /\
  parseFloat "1e400" = Infinity /\
  parseFloat "e5" = NaN /\
  parseFloat "." = NaN /\
  parseFloat "undefined" = NaN.
Proof. repeat split; vm_compute; reflexivity. Qed.

Example toFixed_values :
  toFixed (parseFloat "1.005") 2 = "1.00" /\
  toFixed (parseFloat "2.345") 2 = "2.35" /\
  toFixed (parseFloat "10.235") 2 = "10.23" /\
  toFixed (parseFloat "0.005") 2 = "0.01" /\
  toFixed (parseFloat "-1.5") 2 = "-1.50" /\
  toFixed (parseFloat "-0.001") 2 = "-0.00" /\
  toFixed (parseFloat "123.456") 2 = "123.46" /\
  toFixed (parseFloat "1e21") 2 = "1e+21" /\
  toFixed (parseFloat "999999999999999999999") 2 = "1e+21" /\
  toFixed Infinity 2 = "Infinity".
Proof. repeat split; vm_compute; reflexivity. Qed.

Example toString_values :
  toString (add (parseFloat "0.1") (parseFloat "0.2")) = "0.30000000000000004" /\
  toString (parseFloat "1e21") = "1e+21" /\
  toString (parseFloat "1e23") = "1e+23" /\
  toString (parseFloat "0.000001") = "0.000001" /\
  toString (parseFloat "0.0000001") = "1e-7" /\
  toString (parseFloat "123456789012345680000") = "123456789012345680000" /\
  toString (parseFloat "5e-324") = "5e-324" /\
  toString (parseFloat "1.7976931348623157e308") = "1.7976931348623157e+308" /\
  toString (floor (mul (parseFloat "0.123456789012345") (of_Z 1000000000000)))
  = "123456789012".
Proof. repeat split; vm_compute; reflexivity. Qed.

Example isFloat_values :
  map (Validator.isFloat (of_Z 0)) ["20"; "19.99"; ".5"; "1e3"; "-0"; "0"]
  = [true; true; true; true; true; true] /\
  map (Validator.isFloat (of_Z 0)) [""; "."; "-1"; "abc"; "1,5"; "12a"; " 1"; "e5"; "Infinity"]
  = [false; false; false; false; false; false; false; false; false].
Proof. split; vm_compute; reflexivity. Qed.

Example base64_values :
  Cloudinary.base64 [Byte.x4d; Byte.x61; Byte.x6e] = "TWFu" /\
  Cloudinary.base64 [Byte.x4d; Byte.x61] = "TWE=" /\
  Cloudinary.base64 [Byte.x4d] = "TQ==" /\
  Cloudinary.publicId Scenario.old_url = "old123".
Proof. repeat split. Qed.

(** *** The collection *)

Section Collection.

Variable i : ObjectId.

Lemma same_id_refl (p : Product) : same_id (_id p) p = true.
Proof. unfold same_id. apply String.eqb_refl. Qed.

Lemma find_absent (l : list Product) :
  (forall p, In p l -> _id p <> i) -> find (same_id i) l = None.
Proof.
  induction l as [|q l IH]; intros H; simpl; [reflexivity|].
  destruct (same_id i q) eqn:E.
  - apply String.eqb_eq in E. exfalso. apply (H q); [now left | exact E].
  - apply IH. intros p Hp. apply H. now right.
Qed.

Lemma find_same_id (l : list Product) (p : Product) :
  find (same_id i) l = Some p -> _id p = i.
Proof.
  intros H. apply find_some in H. destruct H as [_ H].
  now apply String.eqb_eq in H.
Qed.

Lemma find_snoc_fresh (l : list Product) (p : Product) :
  existsb (same_id (_id p)) l = false ->
  find (same_id (_id p)) (l ++ [p]) = Some p.
Proof.
  induction l as [|q l IH]; simpl; intros H.
  - now rewrite same_id_refl.
  - apply orb_false_iff in H. destruct H as [H1 H2].
    rewrite H1. now apply IH.
Qed.

Lemma find_replace (l : list Product) (old p : Product) :
  find (same_id i) l = Some old -> _id p = i ->
  find (same_id i) (replace p l) = Some p.
Proof.
  intros H Hp. subst i.
  induction l as [|q l IH]; simpl in *; [discriminate|].
  destruct (same_id (_id p) q) eqn:E; simpl.
  - now rewrite same_id_refl.
  - rewrite E. now apply IH.
Qed.

(** [replace] keeps, position by position, whatever the new document shares
    with the one it replaces. *)
Lemma map_replace {A} (f : Product -> A) (l : list Product) (old p : Product) :
  find (same_id i) l = Some old -> _id p = i -> f p = f old ->
  map f (replace p l) = map f l.
Proof.
  intros H Hp Hf. subst i.
  induction l as [|q l IH]; simpl in *; [reflexivity|].
  destruct (same_id (_id p) q) eqn:E; simpl.
  - injection H as ->. now rewrite Hf.
  - f_equal. now apply IH.
Qed.

End Collection.

(** *** The order of [GET /products] *)

Lemma insert_desc_perm (p : Product) (l : list Product) :
  Permutation (p :: l) (insert_desc p l).
Proof.
  induction l as [|q l IH]; simpl; [apply Permutation_refl|].
  destruct (createdAt q <=? createdAt p)%Z.
  - apply Permutation_refl.
  - eapply perm_trans; [apply perm_swap|]. now apply perm_skip.
Qed.

Lemma insert_desc_hd (p : Product) (l : list Product) (q : Product) :
  HdRel newer_or_same q l -> newer_or_same q p ->
  HdRel newer_or_same q (insert_desc p l).
Proof.
  intros Hl Hp. destruct l as [|r l]; simpl.
  - now constructor.
  - destruct (createdAt r <=? createdAt p)%Z; constructor; auto.
    now inversion Hl.
Qed.

Lemma insert_desc_sorted (p : Product) (l : list Product) :
  Sorted newer_or_same l -> Sorted newer_or_same (insert_desc p l).
Proof.
  induction 1 as [|q l Hs IH Hhd]; simpl.
  - repeat constructor.
  - destruct (createdAt q <=? createdAt p)%Z eqn:E.
    + apply Z.leb_le in E. constructor.
      * now constructor.
      * constructor. exact E.
    + apply Z.leb_gt in E. constructor; [exact IH|].
      apply insert_desc_hd; [exact Hhd | unfold newer_or_same; lia].
Qed.

Lemma sort_createdAt_desc_perm (l : list Product) :
  Permutation l (sort_createdAt_desc l).
Proof.
  induction l as [|p l IH]; simpl; [constructor|].
  eapply perm_trans; [apply perm_skip, IH | apply insert_desc_perm].
Qed.

Lemma sort_createdAt_desc_sorted (l : list Product) :
  Sorted newer_or_same (sort_createdAt_desc l).
Proof.
  induction l as [|p l IH]; simpl; [constructor | now apply insert_desc_sorted].
Qed.

(** *** White space *)

Lemma trim_only_whitespace (s : string) : only_whitespace s = true -> trim s = "".
Proof.
  unfold trim. induction s as [|c s IH]; simpl; [reflexivity|].
  intros H. apply andb_true_iff in H. destruct H as [Hc Hs].
  rewrite Hc. now apply IH.
Qed.

(** *** The upload middleware *)

Lemma single_accepts (name : string) (req : Express.Request) (f : Express.File) :
  Multer.single name req = inr (Some f) ->
  Express.attachment req = Some f /\
  startsWith "image/" (Express.mimetype f) = true /\
  (Multer.size f <= 5 * 1024 * 1024)%N.
Proof.
  unfold Multer.single, Multer.fileFilter.
  destruct (Express.attachment req) as [g|]; [|discriminate].
  destruct (negb (Express.fieldname g =? name)%string); [discriminate|].
  destruct (startsWith "image/" (Express.mimetype g)) eqn:Hm; [|discriminate].
  destruct (Multer.size g <=? Multer.fileSize)%N eqn:Hs; [|discriminate].
  intros H. injection H as <-. apply N.leb_le in Hs. auto.
Qed.

Lemma single_rejects (name : string) (req : Express.Request) (f : Express.File) :
  Express.attachment req = Some f ->
  startsWith "image/" (Express.mimetype f) = false \/
  (5 * 1024 * 1024 < Multer.size f)%N ->
  exists err, Multer.single name req = inl err.
Proof.
  intros Ha H. unfold Multer.single, Multer.fileFilter. rewrite Ha.
  destruct (negb (Express.fieldname f =? name)%string); [eauto|].
  destruct (startsWith "image/" (Express.mimetype f)) eqn:Hm; [|eauto].
  destruct (Multer.size f <=? Multer.fileSize)%N eqn:Hs; [|eauto].
  apply N.leb_le in Hs. unfold Multer.fileSize in Hs.
  destruct H as [H|H]; [discriminate | lia].
Qed.

(** C10. The create and update routes take an attached file only when its
    media type starts with [image/] and it holds at most 5 * 1024 * 1024
    bytes; a file that is not an image, or a larger one, makes both routes
    answer with the error of the upload middleware, before the handler runs:
    the world is as it was. *)
Theorem upload_accepts_small_images_only
  (sch : Schema) (env : Env) (req : Express.Request) (w : World) (f : Express.File) :
  Express.attachment req = Some f ->
  (Multer.single "image" req = inr (Some f) ->
   startsWith "image/" (Express.mimetype f) = true /\
   (Multer.size f <= 5 * 1024 * 1024)%N) /\
  (startsWith "image/" (Express.mimetype f) = false \/
   (5 * 1024 * 1024 < Multer.size f)%N ->
   exists err,
     post_products sch env req w = (next err, w) /\
     put_products sch env req w = (next err, w)).
Proof.
  intros Ha. split.
  - intros H. now apply single_accepts in H.
  - intros H. destruct (single_rejects "image" req f Ha H) as [err E].
    exists err. unfold post_products, put_products. now rewrite E.
Qed.

Lemma upload_accepts_small_images_only_witness :
  exists err,
    post_products ProductSchema_2 (Scenario.env 0xb1 9 true)
      (Scenario.request (Scenario.oid 0xa1) (Express.body (Scenario.tea "Veg")) (Some Scenario.pdf))
      Scenario.shop = (next err, Scenario.shop) /\
    put_products ProductSchema_2 (Scenario.env 0xb1 9 true)
      (Scenario.request (Scenario.oid 0xa1) (Express.body (Scenario.tea "Veg")) (Some Scenario.pdf))
      Scenario.shop = (next err, Scenario.shop).
Proof.
  apply (upload_accepts_small_images_only ProductSchema_2 (Scenario.env 0xb1 9 true)
           (Scenario.request (Scenario.oid 0xa1) (Express.body (Scenario.tea "Veg")) (Some Scenario.pdf))
           Scenario.shop Scenario.pdf).
  - reflexivity.
  - left. reflexivity.
Defined.

(** *** Validation *)

Lemma validateProduct_itemName (b : Express.Body) :
  trim (Validator.toString (Express.itemName b)) = "" ->
  exists errors b',
    Validator.validateProduct b = (itemName_required :: errors, b').
Proof.
  intros H. unfold Validator.validateProduct. rewrite H. simpl.
  eexists. eexists. reflexivity.
Qed.

(** C6. A create request whose item name is empty or made of white space
    only persists nothing and sends nothing to the asset host: the world is
    as it was. Unless the upload middleware refuses the attachment, the
    request is answered 400 with the list of validation errors, the first
    of which is that of the item name. *)
Theorem create_blank_name_rejected
  (sch : Schema) (env : Env) (req : Express.Request) (w : World) (name : string) :
  Express.itemName (Express.body req) = Some name ->
  only_whitespace name = true ->
  exists r,
    post_products sch env req w = (r, w) /\
    (forall file,
       Multer.single "image" req = inr file ->
       exists errors, r = res 400 (errors_json (itemName_required :: errors))).
Proof.
  intros Hn Hw. unfold post_products.
  destruct (validateProduct_itemName (Express.body req)) as (errors & b' & E).
  { rewrite Hn. simpl. now apply trim_only_whitespace. }
  destruct (Multer.single "image" req) as [err|file].
  - exists (next err). split; [reflexivity | discriminate].
  - rewrite E. eexists. split; [reflexivity|]. intros _ _. now exists errors.
Qed.

Lemma create_blank_name_rejected_witness :
  exists r,
    post_products ProductSchema_2 (Scenario.env 0xb1 9 true)
      (Scenario.request ""
         (Scenario.form (Some "   ") (Some "20") (Some "Veg") (Some "true"))
         (Some Scenario.png))
      Scenario.shop
    = (r, Scenario.shop) /\
    (forall file,
       Multer.single "image"
         (Scenario.request ""
            (Scenario.form (Some "   ") (Some "20") (Some "Veg") (Some "true"))
            (Some Scenario.png)) = inr file ->
       exists errors, r = res 400 (errors_json (itemName_required :: errors))).
Proof.
  apply (create_blank_name_rejected ProductSchema_2 (Scenario.env 0xb1 9 true)
           (Scenario.request ""
              (Scenario.form (Some "   ") (Some "20") (Some "Veg") (Some "true"))
              (Some Scenario.png))
           Scenario.shop "   "); reflexivity.
Defined.

(** The answer to that request, in full. *)
Example create_blank_name_answer :
  post_products ProductSchema_2 (Scenario.env 0xb1 9 true)
    (Scenario.request ""
       (Scenario.form (Some "   ") (Some "20") (Some "Veg") (Some "true"))
       (Some Scenario.png))
    Scenario.shop
  = (res 400 (errors_json [itemName_required]), Scenario.shop).
Proof. reflexivity. Qed.

(** C3, as the code has it. On update the item name is required exactly as
    on create: a request whose item name is absent, empty or made of white
    space only never changes the world, whether or not the id exists. When
    the upload middleware lets the request through, it is answered 400 with
    the list of validation errors, the first of which is that of the item
    name; when the upload middleware refuses its attachment, the error of
    the middleware is handed to [next] instead. *)
Theorem update_requires_itemName
  (sch : Schema) (env : Env) (req : Express.Request) (w : World) :
  trim (Validator.toString (Express.itemName (Express.body req))) = "" ->
  exists r,
    put_products sch env req w = (r, w) /\
    (forall file,
       Multer.single "image" req = inr file ->
       exists errors, r = res 400 (errors_json (itemName_required :: errors))) /\
    (forall err, Multer.single "image" req = inl err -> r = next err).
Proof.
  intros Hn. unfold put_products.
  destruct (validateProduct_itemName (Express.body req) Hn) as (errors & b' & E).
  rewrite E.
  destruct (Multer.single "image" req) as [err|file].
  - exists (next err). split; [reflexivity|]. split; [discriminate|].
    intros err' H. now injection H as <-.
  - exists (res 400 (errors_json (itemName_required :: errors))).
    split; [reflexivity|]. split; [|discriminate].
    intros file' _. now exists errors.
Qed.

Lemma update_requires_itemName_witness :
  exists r,
    put_products ProductSchema_2 (Scenario.env 0xb1 9 true)
      (Scenario.request (Scenario.oid 0xa1)
         (Scenario.form None (Some "20") (Some "Veg") (Some "true")) None)
      Scenario.shop
    = (r, Scenario.shop) /\
    (forall file,
       Multer.single "image"
         (Scenario.request (Scenario.oid 0xa1)
            (Scenario.form None (Some "20") (Some "Veg") (Some "true")) None)
       = inr file ->
       exists errors, r = res 400 (errors_json (itemName_required :: errors))) /\
    (forall err,
       Multer.single "image"
         (Scenario.request (Scenario.oid 0xa1)
            (Scenario.form None (Some "20") (Some "Veg") (Some "true")) None)
       = inl err ->
       r = next err).
Proof.
  apply (update_requires_itemName ProductSchema_2 (Scenario.env 0xb1 9 true)
           (Scenario.request (Scenario.oid 0xa1)
              (Scenario.form None (Some "20") (Some "Veg") (Some "true")) None)
           Scenario.shop).
  reflexivity.
Defined.

(** C3, as stated, fails: the update of the stored record [coffee] with the
    fields [sellPrice: 20, type: Veg, gstEnabled: true] and no item name is
    answered 400 with the one validation error [Item name is required], under
    either schema, although the same request with an item name is answered
    200. *)
Lemma update_without_itemName_fails :
  Express.itemName (Scenario.form None (Some "20") (Some "Veg") (Some "true")) = None /\
  put_products ProductSchema_1 (Scenario.env 0xb1 9 true)
    (Scenario.request (Scenario.oid 0xa1) (Scenario.form None (Some "20") (Some "Veg") (Some "true")) None)
    Scenario.shop
  = (res 400 (errors_json [itemName_required]), Scenario.shop) /\
  put_products ProductSchema_2 (Scenario.env 0xb1 9 true)
    (Scenario.request (Scenario.oid 0xa1) (Scenario.form None (Some "20") (Some "Veg") (Some "true")) None)
    Scenario.shop
  = (res 400 (errors_json [itemName_required]), Scenario.shop) /\
  fst (put_products ProductSchema_2 (Scenario.env 0xb1 9 true)
         (Scenario.request (Scenario.oid 0xa1)
            (Scenario.form (Some "Tea") (Some "20") (Some "Veg") (Some "true")) None)
         Scenario.shop)
  = res 200 (message_json "Product updated successfully"
               (Some {| _id := Scenario.oid 0xa1; itemName := Some "Coffee"; sellPrice := of_Z 20;
                        type := Some "Veg"; primaryUnit := None; customUnit := None;
                        gstEnabled := true; gstPercentage := of_Z 5;
                        gstAmount := of_Z 1; totalPrice := of_Z 21;
                        barcode := None; image := Some Scenario.old_url;
                        createdAt := 5; updatedAt := Some 9%Z |})).
Proof. repeat split; vm_compute; reflexivity. Qed.

(** C2. The create request [{itemName: "Tea", sellPrice: 20, type:
    "Beverage", gstEnabled: true}] is answered 400 with the one validation
    error [Invalid product type], whatever the schema, the environment and
    the world; nothing is stored. *)
Theorem create_tea_beverage_rejected (sch : Schema) (env : Env) (w : World) :
  post_products sch env Scenario.tea_beverage w
  = (res 400 (errors_json [invalid_type "Beverage"]), w).
Proof. reflexivity. Qed.

(** The same request with the type [Veg] is answered 201 and the stored
    record has [gstPercentage = 5], [gstAmount = 1] and [totalPrice = 21]. *)
Example create_tea_veg :
  exists p w',
    post_products ProductSchema_2 (Scenario.env 0xb1 9 true) (Scenario.tea "Veg") Scenario.empty
    = (res 201 (message_json "Product created successfully" (Some p)), w') /\
    db w' = [p] /\
    gstEnabled p = true /\
    gstPercentage p = of_Z 5 /\ gstAmount p = of_Z 1 /\ totalPrice p = of_Z 21.
Proof. eexists. eexists. vm_compute. repeat split; reflexivity. Qed.

(** *** Deletion *)

(** *** The cast of the id of a path *)

Lemma hex_digit_lower (n : N) :
  is_hex_digit (hex_digit n) = true /\ lower_hex_digit (hex_digit n) = hex_digit n.
Proof.
  unfold hex_digit. generalize (N.to_nat n). intros k.
  do 16 (destruct k as [|k]; [split; reflexivity|]).
  split; reflexivity.
Qed.

Lemma hex_digits_canonical (k : nat) (n : N) (acc : string) :
  String.length (hex_digits k n acc) = (k + String.length acc)%nat /\
  all_hex_digits (hex_digits k n acc) = all_hex_digits acc /\
  lower_hex (hex_digits k n acc) = hex_digits k n (lower_hex acc).
Proof.
  revert n acc. induction k as [|k IH]; intros n acc; [now repeat split|].
  cbn [hex_digits].
  destruct (IH (n / 16)%N (String (hex_digit (n mod 16)%N) acc)) as (H1 & H2 & H3).
  destruct (hex_digit_lower (n mod 16)%N) as (Hh & Hl).
  rewrite H1, H2, H3. cbn [String.length all_hex_digits lower_hex].
  rewrite Hh, Hl. repeat split. lia.
Qed.

(** An identifier that the driver printed casts to itself. *)
Lemma castObjectId_toHexString (n : N) :
  castObjectId (toHexString n) = Some (toHexString n).
Proof.
  unfold castObjectId, toHexString.
  destruct (hex_digits_canonical 24 n "") as (H1 & H2 & H3).
  now rewrite H1, H2, H3.
Qed.

Lemma castObjectId_new (env : Env) :
  castObjectId (new_ObjectId env) = Some (new_ObjectId env).
Proof. apply castObjectId_toHexString. Qed.

Lemma findById_run (id : string) (i : ObjectId) (w : World) :
  castObjectId id = Some i -> findById id w = (inl (find (same_id i) (db w)), w).
Proof. intros H. unfold findById. now rewrite H. Qed.

Lemma findById_throws (id : string) (w : World) :
  castObjectId id = None -> findById id w = (inr (CastError "ObjectId" id "_id"), w).
Proof. intros H. unfold findById. now rewrite H. Qed.

Lemma findById_inl (id : string) (w w0 : World) (found : option Product) :
  findById id w = (inl found, w0) ->
  exists i, castObjectId id = Some i /\ found = find (same_id i) (db w) /\ w0 = w.
Proof.
  unfold findById. destruct (castObjectId id) as [i|]; [|discriminate].
  unfold bind, get_db, ret. intros H. injection H as <- <-. now exists i.
Qed.

Lemma stored_cast (id : string) (w : World) (p : Product) :
  stored id w = Some p ->
  castObjectId id = Some (_id p) /\ find (same_id (_id p)) (db w) = Some p.
Proof.
  unfold stored. destruct (castObjectId id) as [i|]; [|discriminate].
  intros H. now rewrite (find_same_id i _ _ H).
Qed.

Lemma findById_stored (id : string) (w : World) (p : Product) :
  stored id w = Some p -> findById id w = (inl (Some p), w).
Proof.
  intros H. destruct (stored_cast _ _ _ H) as (Hc & Hf).
  now rewrite (findById_run _ _ w Hc), Hf.
Qed.

Lemma stored_of_cast (id : string) (i : ObjectId) (w : World) :
  castObjectId id = Some i -> stored id w = find (same_id i) (db w).
Proof. intros H. unfold stored. now rewrite H. Qed.

(** ** C8: deleting an id that is not in the store *)

(** C8, as stated, fails: the id [zz] is the identifier of no stored
    record, and deleting it is answered 500, not 404, because [findById]
    throws the cast error and the [catch] block answers. *)
Lemma delete_malformed_id_fails :
  (forall p, In p (db Scenario.shop) -> _id p <> "zz") /\
  delete_products (Scenario.env 0xb1 9 true)
    (Scenario.request "zz" (Scenario.form None None None None) None) Scenario.shop
  = (res 500 (failure_json "Failed to delete product" (CastError "ObjectId" "zz" "_id")),
     Scenario.shop).
Proof.
  split; [|reflexivity].
  intros p [<-|[]]. vm_compute. discriminate.
Qed.

(** C8, amended. Deleting an id that casts to an ObjectId which no stored
    record has is answered 404 with [Product not found]; deleting an id that
    does not cast is answered 500 with [Failed to delete product] and the
    cast error. In both cases no record is removed, the asset host is not
    called and nothing is logged: the world is as it was. *)
Theorem delete_absent_id_not_found (env : Env) (req : Express.Request) (w : World) :
  (forall p, In p (db w) -> castObjectId (Express.params_id req) <> Some (_id p)) ->
  delete_products env req w
  = (match castObjectId (Express.params_id req) with
     | Some _ => res 404 (error_json "Product not found")
     | None => res 500 (failure_json "Failed to delete product"
                          (CastError "ObjectId" (Express.params_id req) "_id"))
     end, w).
Proof.
  intros H. unfold delete_products, delete, bind.
  destruct (castObjectId (Express.params_id req)) as [i|] eqn:E.
  - rewrite (findById_run _ i w E), (find_absent i); [reflexivity|].
    intros p Hp Heq. apply (H p Hp). now rewrite Heq.
  - now rewrite (findById_throws _ w E).
Qed.

Lemma delete_absent_id_not_found_witness :
  delete_products (Scenario.env 0xb1 9 true)
    (Scenario.request (Scenario.oid 0xee) (Scenario.form None None None None) None)
    Scenario.shop
  = (res 404 (error_json "Product not found"), Scenario.shop).
Proof.
  apply (delete_absent_id_not_found (Scenario.env 0xb1 9 true)
           (Scenario.request (Scenario.oid 0xee) (Scenario.form None None None None) None)
           Scenario.shop).
  intros p [<-|[]]. vm_compute. discriminate.
Defined.

(** *** What the handlers do to the world *)

Lemma bind_inl {A B} (m : M A) (k : A -> M B) (w w' : World) (b : B) :
  bind m k w = (inl b, w') ->
  exists a w1, m w = (inl a, w1) /\ k a w1 = (inl b, w').
Proof.
  unfold bind. destruct (m w) as [[a|e] w1]; [eauto | discriminate].
Qed.

Lemma handle_inl (m : M Response) (line : string) (status : nat) (error : string)
  (w w' : World) (s : nat) (message : string) (p : option Product) :
  handle m line status error w = (res s (message_json message p), w') ->
  m w = (inl (res s (message_json message p)), w').
Proof.
  unfold handle. destruct (m w) as [[r|e] w1]; intros H; [|discriminate].
  now injection H as -> ->.
Qed.

Lemma uploadToCloudinary_db (env : Env) (file : option Express.File) (w w1 : World)
  (r : option string + Exception) :
  uploadToCloudinary env file w = (r, w1) -> db w1 = db w.
Proof.
  unfold uploadToCloudinary, try_catch, Model.uploader_upload, bind, call, log, throw, ret.
  destruct file as [f|]; simpl.
  - destruct (Effect.uploader_upload env _); intros H; injection H as <- <-; reflexivity.
  - intros H. injection H as <- <-. reflexivity.
Qed.

Lemma destroy_old_spec (env : Env) (url : option string) (line : string) (w : World) :
  exists w1,
    destroy_old env url line w = (inl tt, w1) /\
    db w1 = db w /\
    (forall u, url = Some u -> truthy url = true -> In (destroy_of u) (calls w1)) /\
    (truthy url = false -> w1 = w).
Proof.
  unfold destroy_old, try_catch, Model.uploader_destroy, bind, call, log, throw, ret.
  destruct (truthy url) eqn:Ht.
  - destruct url as [u|]; [|discriminate]. simpl.
    destruct (Effect.uploader_destroy env _); eexists; (split; [reflexivity|]);
      (split; [reflexivity|]); (split; [|discriminate]);
      intros u' Hu _; injection Hu as <-; simpl; apply in_or_app; right; now left.
  - exists w. repeat split. intros; discriminate.
Qed.

(** The fields of a record that [POST /products] answers with. *)
Lemma post_products_created
  (sch : Schema) (env : Env) (req : Express.Request) (w w' : World)
  (message : string) (p : Product) :
  post_products sch env req w = (res 201 (message_json message (Some p)), w') ->
  exists g price,
    gstEnabled p = strict_eq g "true" /\
    sellPrice p = price /\
    gstPercentage p = gstPercentage_of g /\
    gstAmount p = gstAmount_of g price /\
    totalPrice p = totalPrice_of price (gstAmount_of g price) /\
    _id p = new_ObjectId env /\
    createdAt p = Date_now env /\
    existsb (same_id (_id p)) (db w) = false /\
    db w' = (db w ++ [p])%list.
Proof.
  unfold post_products, handle, create, save_new, bind, get_db, set_db, throw, ret.
  intros H.
  destruct (Multer.single "image" req) as [err|file]; [discriminate|].
  destruct (Validator.validateProduct (Express.body req)) as [[|e errors] b]; [|discriminate].
  destruct (uploadToCloudinary env file w) as [[imageUrl|e] w1] eqn:Hu; [|discriminate].
  apply uploadToCloudinary_db in Hu.
  destruct (validate sch _) as [|? ?]; [|discriminate].
  destruct (existsb _ (db w1)) eqn:Hid; [discriminate|].
  destruct (barcode_path sch && _); [discriminate|].
  injection H as _ <- <-. simpl. rewrite Hu in *.
  exists (Express.gstEnabled b), (parseFloat (Express.ToString (Express.sellPrice b))).
  repeat split; assumption.
Qed.

(** The image step of [PUT /products/:id]: the stored URL when no file
    comes with the request; otherwise the old asset is removed, errors
    ignored, and the new file is uploaded. *)
Lemma update_image_step (env : Env) (file : option Express.File) (old : Product) (w : World) :
  match file with
  | Some _ =>
      bind (if truthy (image old) then
              try_catch
                (Model.uploader_destroy env
                   ("products/" ++
                    Cloudinary.publicId (match image old with Some u => u | None => "" end)))
                (fun _ => log "Failed to delete old image:")
            else ret tt)
           (fun _ => uploadToCloudinary env file)
  | None => ret (image old)
  end w
  = match file with
    | Some _ =>
        bind (destroy_old env (image old) "Failed to delete old image:")
             (fun _ => uploadToCloudinary env file) w
    | None => (inl (image old), w)
    end.
Proof. destruct file; reflexivity. Qed.

Lemma update_image_db (env : Env) (file : option Express.File) (old : Product)
  (w w1 : World) (r : option string + Exception) :
  match file with
  | Some _ =>
      bind (destroy_old env (image old) "Failed to delete old image:")
           (fun _ => uploadToCloudinary env file) w
  | None => (inl (image old), w)
  end = (r, w1) ->
  db w1 = db w.
Proof.
  destruct file as [f|].
  - unfold bind.
    destruct (destroy_old_spec env (image old) "Failed to delete old image:" w)
      as (w2 & E & Hdb & _). rewrite E.
    intros Hu. apply uploadToCloudinary_db in Hu. congruence.
  - intros H. now injection H as _ <-.
Qed.

(** The fields of a record that [PUT /products/:id] answers with. *)
Lemma put_products_updated
  (sch : Schema) (env : Env) (req : Express.Request) (w w' : World)
  (message : string) (p : Product) :
  put_products sch env req w = (res 200 (message_json message (Some p)), w') ->
  exists g price old,
    gstEnabled p = strict_eq g "true" /\
    sellPrice p = price /\
    gstPercentage p = gstPercentage_of g /\
    gstAmount p = gstAmount_of g price /\
    totalPrice p = totalPrice_of price (gstAmount_of g price) /\
    stored (Express.params_id req) w = Some old /\
    identity p = identity old /\
    db w' = replace p (db w).
Proof.
  unfold put_products. intros H.
  destruct (Multer.single "image" req) as [err|file]; [discriminate|].
  destruct (Validator.validateProduct (Express.body req)) as [[|e errors] b]; [|discriminate].
  apply handle_inl in H. unfold update in H.
  apply bind_inl in H. destruct H as (found & w0 & Hf & H).
  apply findById_inl in Hf. destruct Hf as (i & Hcast & -> & ->).
  rewrite (stored_of_cast _ i w Hcast).
  destruct (find (same_id i) (db w)) as [old|] eqn:Hold; [|discriminate].
  apply bind_inl in H. destruct H as (imageUrl & w1 & Hstep & H).
  rewrite update_image_step in Hstep. apply update_image_db in Hstep.
  apply bind_inl in H. destruct H as (up & w2 & Hsave & H).
  unfold ret in H. injection H as _ Hup Hw. subst up w2.
  unfold save, bind, get_db, set_db, throw, ret in Hsave.
  destruct (validate sch _) as [|? ?]; [|discriminate].
  injection Hsave as <- <-. simpl. rewrite Hstep.
  exists (Express.gstEnabled b), (parseFloat (Express.ToString (Express.sellPrice b))), old.
  repeat split.
Qed.

(** The amounts of an answered record are the expressions of the handler,
    at the price and the flag of the record itself. *)
Lemma derived_fields_of (p : Product) (g : option string) (price : number) :
  gstEnabled p = strict_eq g "true" ->
  sellPrice p = price ->
  gstPercentage p = gstPercentage_of g ->
  gstAmount p = gstAmount_of g price ->
  totalPrice p = totalPrice_of price (gstAmount_of g price) ->
  gstPercentage p = (if gstEnabled p then of_Z 5 else of_Z 0) /\
  gstAmount p = (if gstEnabled p then round2 (mul (sellPrice p) lit_0_05) else of_Z 0) /\
  totalPrice p = round2 (add (sellPrice p) (gstAmount p)).
Proof.
  intros He Hp H1 H2 H3.
  rewrite H3, H1, He, Hp. rewrite H2 at 1. rewrite H2.
  unfold gstPercentage_of, gstAmount_of, totalPrice_of, round2.
  destruct (strict_eq g "true"); repeat split.
Qed.

(** C9. A successful update (200) leaves the id, the item name, the barcode
    and the creation date of every stored record as they were, whatever the
    body says: the answered record is the one stored under the id of the
    request, it has these four fields of the record that was stored there,
    and the collection holds the same four fields at every position. *)
Theorem update_keeps_identity
  (sch : Schema) (env : Env) (req : Express.Request) (w w' : World)
  (message : string) (p : Product) :
  put_products sch env req w = (res 200 (message_json message (Some p)), w') ->
  (exists old,
     stored (Express.params_id req) w = Some old /\
     _id p = _id old /\ itemName p = itemName old /\
     barcode p = barcode old /\ createdAt p = createdAt old) /\
  stored (Express.params_id req) w' = Some p /\
  map identity (db w') = map identity (db w).
Proof.
  intros H. apply put_products_updated in H.
  destruct H as (g & price & old & _ & _ & _ & _ & _ & Hold & Hid & Hdb).
  destruct (stored_cast _ _ _ Hold) as (Hcast & Hfind).
  assert (Hi : _id p = _id old).
  { unfold identity in Hid. now injection Hid. }
  split; [|split].
  - exists old. unfold identity in Hid. injection Hid as -> -> -> ->. auto.
  - rewrite (stored_of_cast _ _ w' Hcast), Hdb. now apply (find_replace _ _ old).
  - rewrite Hdb. now apply (map_replace (_id old) identity _ old).
Qed.

Lemma update_keeps_identity_witness :
  (exists old,
     stored (Scenario.oid 0xa1) Scenario.shop = Some old /\
     _id (Records.coffee_updated 9) = _id old /\
     itemName (Records.coffee_updated 9) = itemName old /\
     barcode (Records.coffee_updated 9) = barcode old /\
     createdAt (Records.coffee_updated 9) = createdAt old) /\
  stored (Scenario.oid 0xa1)
    {| db := [Records.coffee_updated 9];
       calls := [destroy_of Scenario.old_url;
                 Cloudinary.upload (dataURI Scenario.png) "products"];
       console := [] |} = Some (Records.coffee_updated 9) /\
  map identity [Records.coffee_updated 9] = map identity [Scenario.coffee].
Proof.
  apply (update_keeps_identity ProductSchema_2 (Scenario.env 0xb1 9 true)
           (Scenario.request (Scenario.oid 0xa1)
              (Scenario.form (Some "Chai") (Some "20") (Some "Veg") (Some "true"))
              (Some Scenario.png))
           Scenario.shop
           {| db := [Records.coffee_updated 9];
              calls := [destroy_of Scenario.old_url;
                        Cloudinary.upload (dataURI Scenario.png) "products"];
              console := [] |}
           "Product updated successfully" (Records.coffee_updated 9)).
  vm_compute. reflexivity.
Defined.

(** *** Failure of the upload *)

Lemma uploadToCloudinary_fails (env : Env) (f : Express.File) (e : Exception) (w : World) :
  Effect.uploader_upload env (dataURI f) = inr e ->
  uploadToCloudinary env (Some f) w
  = (inr (Error "Image upload failed"),
     {| db := db w;
        calls := calls w ++ [Cloudinary.upload (dataURI f) "products"];
        console := console w ++ ["Cloudinary upload error:"] |}).
Proof.
  intros Hu.
  unfold uploadToCloudinary, try_catch, Model.uploader_upload, bind, call, log, throw, ret.
  fold (dataURI f). now rewrite Hu.
Qed.

Lemma uploadToCloudinary_succeeds (env : Env) (f : Express.File) (url : string) (w : World) :
  Effect.uploader_upload env (dataURI f) = inl url ->
  uploadToCloudinary env (Some f) w
  = (inl (Some url),
     {| db := db w;
        calls := calls w ++ [Cloudinary.upload (dataURI f) "products"];
        console := console w |}).
Proof.
  intros Hu.
  unfold uploadToCloudinary, try_catch, Model.uploader_upload, bind, call, log, throw, ret.
  fold (dataURI f). now rewrite Hu.
Qed.

(** C4. When the asset host refuses the upload of the image of a valid
    create request, the request is answered 400 with [Failed to create
    product] and the details [Image upload failed]; the collection is as it
    was: the world only gains the call to the host and the two lines of
    the console. *)
Theorem create_upload_failure_persists_nothing
  (sch : Schema) (env : Env) (req : Express.Request) (w : World)
  (f : Express.File) (e : Exception) :
  Multer.single "image" req = inr (Some f) ->
  fst (Validator.validateProduct (Express.body req)) = [] ->
  Effect.uploader_upload env (dataURI f) = inr e ->
  post_products sch env req w
  = (res 400 (failure_json "Failed to create product" (Error "Image upload failed")),
     {| db := db w;
        calls := calls w ++ [Cloudinary.upload (dataURI f) "products"];
        console := console w ++ ["Cloudinary upload error:"; "Product creation error:"] |}).
Proof.
  intros Hf Hv Hu. unfold post_products. rewrite Hf.
  destruct (Validator.validateProduct (Express.body req)) as [errors b].
  simpl in Hv. subst errors.
  unfold handle, create. unfold bind at 1.
  rewrite (uploadToCloudinary_fails env f e w Hu). simpl.
  now rewrite <- app_assoc.
Qed.

Lemma create_upload_failure_persists_nothing_witness :
  post_products ProductSchema_2 (Scenario.env_down 0xb1 9)
    (Scenario.request "" (Express.body (Scenario.tea "Veg")) (Some Scenario.png))
    Scenario.shop
  = (res 400 (failure_json "Failed to create product" (Error "Image upload failed")),
     {| db := db Scenario.shop;
        calls := calls Scenario.shop ++ [Cloudinary.upload (dataURI Scenario.png) "products"];
        console := console Scenario.shop
                   ++ ["Cloudinary upload error:"; "Product creation error:"] |}).
Proof.
  apply (create_upload_failure_persists_nothing ProductSchema_2 (Scenario.env_down 0xb1 9)
           (Scenario.request "" (Express.body (Scenario.tea "Veg")) (Some Scenario.png))
           Scenario.shop Scenario.png (Error "timeout")); reflexivity.
Defined.

(** *** Listing *)

Lemma get_products_sorted (w : World) :
  get_products w = (res 200 (products_json (sort_createdAt_desc (db w))), w).
Proof. reflexivity. Qed.

(** C7. [GET /products] answers 200 with the stored records, newest first:
    the list is a permutation of the collection in which every record is
    followed by one that is not newer. After three successful creates A, B,
    C at increasing times, starting from an empty collection, the list
    is C, B, A. *)
Theorem list_newest_first
  (sch : Schema) (envA envB envC : Env) (reqA reqB reqC : Express.Request)
  (w0 w1 w2 w3 : World) (mA mB mC : string) (a b c : Product) :
  post_products sch envA reqA w0 = (res 201 (message_json mA (Some a)), w1) ->
  post_products sch envB reqB w1 = (res 201 (message_json mB (Some b)), w2) ->
  post_products sch envC reqC w2 = (res 201 (message_json mC (Some c)), w3) ->
  (Date_now envA < Date_now envB)%Z ->
  (Date_now envB < Date_now envC)%Z ->
  exists l,
    get_products w3 = (res 200 (products_json l), w3) /\
    Permutation (db w3) l /\
    Sorted newer_or_same l /\
    (db w0 = [] -> l = [c; b; a]).
Proof.
  intros HA HB HC Hab Hbc.
  exists (sort_createdAt_desc (db w3)).
  split; [apply get_products_sorted|].
  split; [apply sort_createdAt_desc_perm|].
  split; [apply sort_createdAt_desc_sorted|].
  intros H0.
  apply post_products_created in HA, HB, HC.
  destruct HA as (_ & _ & _ & _ & _ & _ & _ & _ & Ha & _ & HA).
  destruct HB as (_ & _ & _ & _ & _ & _ & _ & _ & Hb & _ & HB).
  destruct HC as (_ & _ & _ & _ & _ & _ & _ & _ & Hc & _ & HC).
  rewrite HC, HB, HA, H0. simpl.
  assert (E1 : (createdAt c <=? createdAt b)%Z = false) by (apply Z.leb_gt; lia).
  assert (E2 : (createdAt c <=? createdAt a)%Z = false) by (apply Z.leb_gt; lia).
  assert (E3 : (createdAt b <=? createdAt a)%Z = false) by (apply Z.leb_gt; lia).
  rewrite E1. simpl. rewrite E2, E3. reflexivity.
Qed.

Lemma list_newest_first_witness :
  exists l,
    get_products (Records.world [Records.tea 1 1; Records.tea 2 2; Records.tea 3 3])
    = (res 200 (products_json l),
       Records.world [Records.tea 1 1; Records.tea 2 2; Records.tea 3 3]) /\
    Permutation [Records.tea 1 1; Records.tea 2 2; Records.tea 3 3] l /\
    Sorted newer_or_same l /\
    (@nil Product = [] -> l = [Records.tea 3 3; Records.tea 2 2; Records.tea 1 1]).
Proof.
  apply (list_newest_first ProductSchema_2
           (Scenario.env 1 1 true) (Scenario.env 2 2 true) (Scenario.env 3 3 true)
           (Scenario.tea "Veg") (Scenario.tea "Veg") (Scenario.tea "Veg")
           Scenario.empty
           (Records.world [Records.tea 1 1])
           (Records.world [Records.tea 1 1; Records.tea 2 2])
           (Records.world [Records.tea 1 1; Records.tea 2 2; Records.tea 3 3])
           "Product created successfully" "Product created successfully"
           "Product created successfully"
           (Records.tea 1 1) (Records.tea 2 2) (Records.tea 3 3)).
  - vm_compute. reflexivity.
  - vm_compute. reflexivity.
  - vm_compute. reflexivity.
  - simpl. lia.
  - simpl. lia.
Defined.

(** *** Numbers that are not NaN *)

Lemma iter_pos_invariant {A} (P : A -> Prop) (f : A -> A) :
  (forall x, P x -> P (f x)) -> forall n x, P x -> P (iter_pos f n x).
Proof. intros Hf. induction n; simpl; auto. Qed.

Lemma shr_1_nonneg (mrs : shr_record) :
  (0 <= shr_m mrs)%Z -> (0 <= shr_m (shr_1 mrs))%Z.
Proof.
  destruct mrs as [m r s]. simpl.
  destruct m as [|p|p]; try destruct p; simpl; lia.
Qed.

Lemma shr_nonneg (mrs : shr_record) (e n : Z) :
  (0 <= shr_m mrs)%Z -> (0 <= shr_m (fst (shr mrs e n)))%Z.
Proof.
  unfold shr. destruct n; simpl; auto.
  intros H. apply iter_pos_invariant; auto using shr_1_nonneg.
Qed.

Lemma shr_fexp_nonneg (m e : Z) (l : location) :
  (0 <= m)%Z -> (0 <= shr_m (fst (shr_fexp prec emax m e l)))%Z.
Proof.
  unfold shr_fexp. intros H. apply shr_nonneg.
  destruct l as [|[]]; simpl; assumption.
Qed.

Lemma round_nearest_even_nonneg (m : Z) (l : location) :
  (0 <= m)%Z -> (0 <= round_nearest_even m l)%Z.
Proof.
  unfold round_nearest_even. destruct l as [|[]]; try destruct (Z.even m); lia.
Qed.

Lemma binary_round_aux_not_nan (sx : bool) (mx ex : Z) (lx : location) :
  (0 <= mx)%Z -> is_nan (binary_round_aux prec emax sx mx ex lx) = false.
Proof.
  intros H. unfold binary_round_aux.
  pose proof (shr_fexp_nonneg mx ex lx H) as H1.
  destruct (shr_fexp prec emax mx ex lx) as [mrs' e']. simpl in H1.
  pose proof (shr_fexp_nonneg _ e' loc_Exact
                (round_nearest_even_nonneg _ (loc_of_shr_record mrs') H1)) as H2.
  destruct (shr_fexp prec emax _ e' loc_Exact) as [mrs'' e'']. simpl in H2.
  destruct (shr_m mrs''); [reflexivity | | lia].
  now destruct (e'' <=? emax - prec)%Z.
Qed.

Lemma binary_normalize_not_nan (m e : Z) (s : bool) :
  is_nan (binary_normalize prec emax m e s) = false.
Proof.
  unfold binary_normalize, binary_round.
  destruct m as [|p|p]; [reflexivity | |];
    destruct (shl_align p e _) as [mz ez]; now apply binary_round_aux_not_nan.
Qed.

Lemma of_decimal_not_nan (s : bool) (n : N) (e : Z) : is_nan (of_decimal s n e) = false.
Proof.
  unfold of_decimal. destruct n as [|p]; [reflexivity|].
  destruct e as [|k|k]; try apply binary_normalize_not_nan.
  unfold SFdiv, SFdiv_core_binary.
  match goal with
  | |- context [Z.div_eucl ?a ?b] =>
      assert (Hq : (0 <= a / b)%Z);
      [ apply Z.div_pos; [|lia] | unfold Z.div in Hq; destruct (Z.div_eucl a b) as [q r] ]
  end.
  - match goal with
    | |- (0 <= match ?x with _ => _ end)%Z => destruct x; try lia
    end.
    apply Z.shiftl_nonneg. lia.
  - now apply binary_round_aux_not_nan.
Qed.

Lemma mul_finite_not_nan (x : number) (s : bool) (m : positive) (e : Z) :
  is_nan x = false -> is_nan (mul x (S754_finite s m e)) = false.
Proof.
  destruct x as [sx|sx| |sx mx ex]; simpl; intros H; try reflexivity; try discriminate.
  now apply binary_round_aux_not_nan.
Qed.

Lemma add_finite_not_nan (s : bool) (m : positive) (e : Z) (y : number) :
  is_nan y = false -> is_nan (add (S754_finite s m e) y) = false.
Proof.
  destruct y as [sy|sy| |sy my ey]; simpl; intros H; try reflexivity; try discriminate.
  apply binary_normalize_not_nan.
Qed.

(** *** [parseFloat] after [toFixed] *)

Lemma digits_starts_with_digit (n : N) : starts_with_digit (digits n) = true.
Proof. unfold digits. now destruct (N.to_uint n). Qed.

Lemma starts_with_digit_app (a b : string) :
  starts_with_digit a = true -> starts_with_digit (a ++ b) = true.
Proof. now destruct a. Qed.

Lemma starts_with_digit_take (n : nat) (s : string) :
  starts_with_digit s = true -> starts_with_digit (take (S n) s) = true.
Proof. now destruct s. Qed.

Lemma starts_with_digit_zeros (k : nat) (s : string) :
  starts_with_digit s = true -> starts_with_digit (zeros k ++ s) = true.
Proof. now destruct k. Qed.

Lemma length_zeros_app (k : nat) (s : string) :
  String.length (zeros k ++ s) = (k + String.length s)%nat.
Proof. induction k as [|k IH]; simpl; [reflexivity | now rewrite IH]. Qed.

Lemma format_nks_starts_with_digit (nks : Z * Z * Z) :
  starts_with_digit (format_nks nks) = true.
Proof.
  destruct nks as [[n k] s]. unfold format_nks.
  pose proof (digits_starts_with_digit (Z.to_N s)) as Hd.
  destruct ((k <=? n)%Z && (n <=? 21)%Z); [now apply starts_with_digit_app|].
  destruct ((0 <? n)%Z && (n <=? 21)%Z) eqn:E.
  - apply andb_true_iff in E. destruct E as [E _]. apply Z.ltb_lt in E.
    destruct (Z.to_nat n) as [|n'] eqn:En; [lia|].
    now apply starts_with_digit_app, starts_with_digit_take.
  - destruct ((-6 <? n)%Z && (n <=? 0)%Z); [reflexivity|].
    destruct (k =? 1)%Z; [now apply starts_with_digit_app|].
    now apply starts_with_digit_app, starts_with_digit_take.
Qed.

(** The text of [toFixed(2)] for a finite number that is not zero: a sign,
    then text that starts with a digit. *)
Lemma toFixed_finite (s : bool) (m : positive) (e : Z) :
  exists text,
    toFixed (S754_finite s m e) 2 = ((if s then "-" else "") ++ text)%string /\
    starts_with_digit text = true.
Proof.
  unfold toFixed. destruct (fraction m e) as [p q].
  eexists. split; [reflexivity|].
  destruct (10 ^ 21 * q <=? p)%Z; [apply format_nks_starts_with_digit|].
  set (n := ((2 * p * 10 ^ Z.of_nat 2 + q) / (2 * q))%Z).
  set (ds := (zeros (3 - String.length (digits (Z.to_N n))) ++ digits (Z.to_N n))%string).
  assert (Hds : starts_with_digit ds = true)
    by apply starts_with_digit_zeros, digits_starts_with_digit.
  assert (Hlen : (3 <= String.length ds)%nat).
  { unfold ds. rewrite length_zeros_app. lia. }
  destruct (String.length ds - 2)%nat as [|a] eqn:Ea; [lia|].
  now apply starts_with_digit_app, starts_with_digit_take.
Qed.

Lemma takeDigits_from_len (s : string) (acc : N) (len : nat) :
  (len <= snd (fst (takeDigits_from acc len s)))%nat.
Proof.
  revert acc len. induction s as [|c s IH]; intros acc len; simpl; [lia|].
  destruct (is_digit c); simpl; [|lia].
  specialize (IH (acc * 10 + digit_val c)%N (S len)). lia.
Qed.

Lemma unsignedLiteral_digit (neg : bool) (c : ascii) (r : string) :
  is_digit c = true -> is_nan (unsignedLiteral neg (String c r)) = false.
Proof.
  intros Hc. unfold unsignedLiteral.
  assert (HI : startsWith "Infinity" (String c r) = false).
  { change (startsWith "Infinity" (String c r))
      with (Ascii.eqb "I" c && startsWith "nfinity" r).
    destruct (Ascii.eqb_spec "I" c) as [<-|]; [discriminate Hc | reflexivity]. }
  rewrite HI. unfold takeDigits. simpl takeDigits_from. rewrite Hc.
  match goal with
  | |- context [takeDigits_from ?a 1 r] =>
      pose proof (takeDigits_from_len r a 1) as Hlen;
      destruct (takeDigits_from a 1 r) as [[ip ilen] r1]
  end.
  simpl in Hlen. destruct ilen as [|ilen]; [lia|].
  destruct r1 as [|d r2]; [apply of_decimal_not_nan|].
  destruct (Ascii.eqb_spec d ".") as [->|Hd].
  - destruct (takeDigits_from ip 0 r2) as [[fp flen] r3]. apply of_decimal_not_nan.
  - assert (E : forall A (x y : A),
               match String d r2 with String "." _ => x | _ => y end = y).
    { intros A x y. destruct d as [[] [] [] [] [] [] [] []]; try reflexivity.
      now elim Hd. }
    rewrite E. apply of_decimal_not_nan.
Qed.

Lemma parseFloat_digit (c : ascii) (r : string) :
  is_digit c = true -> parseFloat (String c r) = unsignedLiteral false (String c r).
Proof.
  destruct c as [[] [] [] [] [] [] [] []]; intros H; vm_compute in H;
    try discriminate H; reflexivity.
Qed.

Lemma parseFloat_signed_text (s : bool) (text : string) :
  starts_with_digit text = true ->
  is_nan (parseFloat ((if s then "-" else "") ++ text)) = false.
Proof.
  destruct text as [|c r]; [discriminate|]. simpl starts_with_digit. intros Hc.
  destruct s.
  - change (parseFloat ("-" ++ String c r)) with (unsignedLiteral true (String c r)).
    now apply unsignedLiteral_digit.
  - simpl append. rewrite parseFloat_digit by assumption.
    now apply unsignedLiteral_digit.
Qed.

(** Rounding to two digits never yields NaN, except from NaN. *)
Lemma round2_not_nan (x : number) : is_nan x = false -> is_nan (round2 x) = false.
Proof.
  unfold round2. destruct x as [s|s| |s m e]; intros H.
  - reflexivity.
  - now destruct s.
  - discriminate.
  - destruct (toFixed_finite s m e) as (text & -> & Ht).
    now apply parseFloat_signed_text.
Qed.

(** *** [round2] rounds to hundredths *)

Lemma value_from_of_uint_acc (d : Decimal.uint) (acc : positive) :
  value_from (Npos acc) (NilEmpty.string_of_uint d) = Npos (Pos.of_uint_acc d acc).
Proof.
  revert acc. induction d; intros acc;
    cbn [NilEmpty.string_of_uint value_from Pos.of_uint_acc]; try reflexivity;
    rewrite <- IHd; f_equal; unfold digit_val;
    match goal with
    | |- context [N_of_ascii ?c] =>
        let v := eval vm_compute in (N_of_ascii c) in change (N_of_ascii c) with v
    end; lia.
Qed.

Lemma value_from_of_uint (d : Decimal.uint) :
  value_from 0 (NilEmpty.string_of_uint d) = N.of_uint d.
Proof.
  unfold N.of_uint.
  induction d; cbn [NilEmpty.string_of_uint value_from Pos.of_uint]; try reflexivity;
    try exact IHd; rewrite <- value_from_of_uint_acc; reflexivity.
Qed.

Lemma value_from_digits (n : N) : value_from 0 (digits n) = n.
Proof.
  unfold digits. rewrite <- (DecimalN.Unsigned.of_to n) at 2.
  destruct (N.to_uint n); cbn [NilZero.string_of_uint];
    [reflexivity | apply value_from_of_uint ..].
Qed.

Lemma value_from_zeros (k : nat) (s : string) :
  value_from 0 (zeros k ++ s) = value_from 0 s.
Proof. induction k as [|k IH]; simpl; [reflexivity | exact IH]. Qed.

Lemma value_from_app (a b : string) (acc : N) :
  value_from acc (a ++ b) = value_from (value_from acc a) b.
Proof. revert acc. induction a as [|c a IH]; intros acc; simpl; [reflexivity | apply IH]. Qed.

Lemma all_digits_digits (n : N) : all_digits (digits n) = true.
Proof.
  unfold digits.
  assert (H : forall d, all_digits (NilEmpty.string_of_uint d) = true)
    by (induction d; simpl; auto).
  destruct (N.to_uint n); cbn [NilZero.string_of_uint]; [reflexivity | apply H ..].
Qed.

Lemma all_digits_app (a b : string) :
  all_digits (a ++ b) = all_digits a && all_digits b.
Proof.
  induction a as [|c a IH]; simpl; [reflexivity|]. now rewrite IH, andb_assoc.
Qed.

Lemma all_digits_zeros (k : nat) : all_digits (zeros k) = true.
Proof. induction k; simpl; auto. Qed.

Lemma take_drop (n : nat) (s : string) : (take n s ++ drop n s)%string = s.
Proof.
  revert s. induction n as [|n IH]; intros [|c s]; simpl; try reflexivity.
  now rewrite IH.
Qed.

Lemma length_drop (n : nat) (s : string) :
  String.length (drop n s) = (String.length s - n)%nat.
Proof.
  revert s. induction n as [|n IH]; intros [|c s]; simpl; try reflexivity.
  apply IH.
Qed.

Lemma length_take (n : nat) (s : string) :
  (n <= String.length s)%nat -> String.length (take n s) = n.
Proof.
  revert s. induction n as [|n IH]; intros [|c s]; simpl; try reflexivity; try lia.
  intros H. rewrite IH; lia.
Qed.

Lemma append_empty (s : string) : (s ++ "")%string = s.
Proof. induction s as [|c s IH]; simpl; [reflexivity | now rewrite IH]. Qed.

(** Reading a run of digits that is followed by something else. *)
Lemma takeDigits_from_run (d rest : string) (acc : N) (len : nat) :
  all_digits d = true -> starts_with_digit rest = false ->
  takeDigits_from acc len (d ++ rest) = (value_from acc d, (len + String.length d)%nat, rest).
Proof.
  revert acc len. induction d as [|c d IH]; intros acc len Hd Hr;
    cbn [append value_from String.length takeDigits_from].
  - rewrite Nat.add_0_r. destruct rest as [|c r]; [reflexivity|].
    cbn [starts_with_digit] in Hr. cbn [takeDigits_from]. now rewrite Hr.
  - cbn [all_digits] in Hd. apply andb_true_iff in Hd. destruct Hd as [Hc Hd].
    rewrite Hc, IH by assumption. f_equal. f_equal. lia.
Qed.

(** The number read from [ip.fp], both runs of digits, [ip] not empty. *)
Lemma unsignedLiteral_fixed (neg : bool) (ip fp : string) :
  all_digits ip = true -> all_digits fp = true -> ip <> "" ->
  unsignedLiteral neg (ip ++ "." ++ fp)
  = of_decimal neg (value_from 0 (ip ++ fp)) (- Z.of_nat (String.length fp)).
Proof.
  intros Hi Hf Hne. unfold unsignedLiteral.
  destruct ip as [|c ip]; [now elim Hne|].
  assert (Hc : is_digit c = true) by (simpl in Hi; now apply andb_true_iff in Hi).
  assert (HI : startsWith "Infinity" (String c ip ++ "." ++ fp) = false).
  { change (startsWith "Infinity" (String c ip ++ "." ++ fp))
      with (Ascii.eqb "I" c && startsWith "nfinity" (ip ++ "." ++ fp)).
    destruct (Ascii.eqb_spec "I" c) as [<-|]; [discriminate Hc | reflexivity]. }
  rewrite HI. unfold takeDigits.
  rewrite (takeDigits_from_run (String c ip) ("." ++ fp) 0 0 Hi eq_refl).
  cbn [append]. cbv iota beta.
  change (String "." fp) with (String "."%char fp).
  rewrite <- (append_empty fp) at 1.
  rewrite (takeDigits_from_run fp "" (value_from 0 (String c ip)) 0 Hf eq_refl).
  cbn [String.length Nat.add].
  change (String c (ip ++ fp)) with (String c ip ++ fp)%string.
  rewrite value_from_app. reflexivity.
Qed.

(** X23. [round2] is rounding to hundredths wherever that is defined: for
    zero and for finite numbers of magnitude below [10^21], the result is
    the number nearest to [n / 100], where [n] is the integer nearest to the
    magnitude times 100, the larger one on a tie, with the sign kept. *)
Lemma round2_hundredths (x : number) (s : bool) (n : N) :
  hundredths x = Some (s, n) -> round2 x = of_decimal s n (-2).
Proof.
  unfold round2, hundredths. destruct x as [z|z| |sx m e]; try discriminate.
  - intros H. injection H as <- <-. reflexivity.
  - unfold toFixed. destruct (fraction m e) as [p q].
    destruct (10 ^ 21 * q <=? p)%Z; [discriminate|].
    intros H. injection H as <- <-.
    change (10 ^ Z.of_nat 2)%Z with 100%Z.
    set (k := Z.to_N ((2 * p * 100 + q) / (2 * q))).
    set (ds := (zeros (3 - String.length (digits k)) ++ digits k)%string).
    assert (Hall : all_digits ds = true).
    { unfold ds. now rewrite all_digits_app, all_digits_zeros, all_digits_digits. }
    assert (Hlen : (3 <= String.length ds)%nat).
    { unfold ds. rewrite length_zeros_app. lia. }
    assert (Hval : value_from 0 ds = k).
    { unfold ds. now rewrite value_from_zeros, value_from_digits. }
    set (a := (String.length ds - 2)%nat).
    assert (Ht : all_digits (take a ds) = true /\ all_digits (drop a ds) = true).
    { apply andb_true_iff. rewrite <- all_digits_app. now rewrite take_drop. }
    destruct Ht as [Hta Hdr].
    assert (Hne : take a ds <> "").
    { intros E. apply (f_equal String.length) in E.
      rewrite length_take in E by (unfold a; lia). unfold a in E. simpl in E. lia. }
    assert (Hl2 : String.length (drop a ds) = 2%nat).
    { rewrite length_drop. unfold a. lia. }
    assert (Hsign : parseFloat ((if sx then "-" else "") ++ take a ds ++ "." ++ drop a ds)
                    = unsignedLiteral sx (take a ds ++ "." ++ drop a ds)).
    { destruct (take a ds) as [|c r] eqn:Et; [now elim Hne|].
      assert (Hc : is_digit c = true) by (simpl in Hta; now apply andb_true_iff in Hta).
      destruct sx; [reflexivity|].
      cbn [append]. now apply parseFloat_digit. }
    rewrite Hsign, (unsignedLiteral_fixed sx _ _ Hta Hdr Hne).
    now rewrite take_drop, Hval, Hl2.
Qed.

(** For instance 1.005, which is just below 1.005 as a binary64 number,
    rounds to 1, and 2.345, which is just above, to 2.35. *)
Example round2_1_005 :
  round2 (parseFloat "1.005") = of_Z 1 /\ round2 (parseFloat "2.345") = parseFloat "2.35".
Proof. split; vm_compute; reflexivity. Qed.

(** *** What a body owes to [validateProduct] *)

Lemma is_digit_not_comma (c : ascii) : is_digit c = true -> Ascii.eqb c "," = false.
Proof.
  intros H. destruct (Ascii.eqb_spec c ",") as [->|]; [discriminate H | reflexivity].
Qed.

Lemma no_comma_skipDigits (s : string) :
  no_comma (Validator.skipDigits s) = true -> no_comma s = true.
Proof.
  induction s as [|c s IH]; simpl; [auto|].
  destruct (is_digit c) eqn:E; [|auto].
  intros H. now rewrite (is_digit_not_comma c E), IH.
Qed.

Lemma no_comma_optional_sign (s : string) :
  no_comma (Validator.optional Validator.is_sign s) = true -> no_comma s = true.
Proof.
  destruct s as [|c s]; simpl; [auto|].
  unfold Validator.is_sign.
  destruct (Ascii.eqb_spec c "-") as [->|]; [simpl; auto|].
  destruct (Ascii.eqb_spec c "+") as [->|]; simpl; auto.
Qed.

Lemma float_regex_no_comma (s : string) :
  Validator.float_regex s = true -> no_comma s = true.
Proof.
  unfold Validator.float_regex. intros H.
  apply no_comma_optional_sign, no_comma_skipDigits.
  destruct (Validator.skipDigits (Validator.optional Validator.is_sign s)) as [|c r];
    [reflexivity|].
  assert (Hexp : forall t,
             match t with
             | EmptyString => true
             | String c0 s4 =>
                 (Ascii.eqb c0 "e" || Ascii.eqb c0 "E") &&
                 match Validator.optional Validator.is_sign s4 with
                 | String d _ =>
                     is_digit d &&
                     String.eqb (Validator.skipDigits (Validator.optional Validator.is_sign s4)) ""
                 | EmptyString => false
                 end
             end = true -> no_comma t = true).
  { intros [|c0 s4]; [reflexivity|]. intros Ht.
    apply andb_true_iff in Ht. destruct Ht as [Hc0 Ht]. simpl.
    assert (Hc : Ascii.eqb c0 "," = false).
    { apply orb_true_iff in Hc0.
      destruct Hc0 as [E|E]; apply Ascii.eqb_eq in E; now subst c0. }
    rewrite Hc. simpl. apply no_comma_optional_sign, no_comma_skipDigits.
    destruct (Validator.optional Validator.is_sign s4) as [|d s5]; [discriminate|].
    apply andb_true_iff in Ht. destruct Ht as [_ Ht].
    apply String.eqb_eq in Ht. now rewrite Ht. }
  destruct (Ascii.eqb_spec c ".") as [->|Hc].
  - simpl. apply no_comma_skipDigits. now apply Hexp.
  - now apply Hexp.
Qed.

Lemma replace_comma_no_comma (s : string) :
  no_comma s = true -> Validator.replace_comma s = s.
Proof.
  induction s as [|c s IH]; simpl; [reflexivity|].
  intros H. apply andb_true_iff in H. destruct H as [Hc Hs].
  apply negb_true_iff in Hc. now rewrite Hc, IH.
Qed.

(** A price that passes [isFloat({ min: 0 })] parses to a number that is at
    least zero. *)
Lemma isFloat_parseFloat (price : string) :
  Validator.isFloat (of_Z 0) price = true -> geb (parseFloat price) (of_Z 0) = true.
Proof.
  unfold Validator.isFloat.
  destruct (Validator.mem price _); [discriminate|].
  intros H. apply andb_true_iff in H. destruct H as [Hr Hg].
  now rewrite (replace_comma_no_comma price (float_regex_no_comma price Hr)) in Hg.
Qed.

(** A body without validation errors has a price and a type that the
    validators accept; the sanitizers only touch the item name. *)
Lemma validateProduct_passes (b b' : Express.Body) :
  Validator.validateProduct b = ([], b') ->
  (exists price,
     Express.sellPrice b' = Some price /\ Validator.isFloat (of_Z 0) price = true) /\
  (exists ty, Express.type b' = Some ty /\ (ty = "Veg" \/ ty = "Non-Veg")) /\
  Express.gstEnabled b' = Express.gstEnabled b.
Proof.
  unfold Validator.validateProduct. intros H. injection H as He <-. simpl.
  apply app_eq_nil in He. destruct He as [_ He].
  apply app_eq_nil in He. destruct He as [H2 He].
  apply app_eq_nil in He. destruct He as [H3 _].
  repeat split.
  - destruct (Express.sellPrice b) as [price|]; [|discriminate H2].
    exists price. split; [reflexivity|]. cbn [Validator.toString] in H2.
    destruct (Validator.isFloat _ price); [reflexivity | discriminate H2].
  - destruct (Express.type b) as [ty|]; [|discriminate H3].
    exists ty. split; [reflexivity|].
    unfold Validator.isIn, Validator.mem in H3. cbn [Validator.toString existsb] in H3.
    destruct (String.eqb_spec ty "Veg"); [now left|].
    destruct (String.eqb_spec ty "Non-Veg"); [now right|]. discriminate H3.
Qed.

Lemma lit_0_05_finite : lit_0_05 = S754_finite false 7205759403792794 (-57).
Proof. vm_compute. reflexivity. Qed.

(** The amounts computed from a price that is at least zero are numbers. *)
Lemma amounts_not_nan (g : option string) (price : number) :
  geb price (of_Z 0) = true ->
  is_nan price = false /\
  is_nan (gstPercentage_of g) = false /\
  is_nan (gstAmount_of g price) = false /\
  is_nan (totalPrice_of price (gstAmount_of g price)) = false.
Proof.
  unfold gstPercentage_of, gstAmount_of, totalPrice_of. intros H.
  destruct price as [s|s| |s m e].
  - destruct s, (strict_eq g "true"); vm_compute; auto.
  - destruct s; [discriminate H|].
    destruct (strict_eq g "true"); vm_compute; auto.
  - discriminate H.
  - assert (Hg : is_nan (if strict_eq g "true"
                         then parseFloat (toFixed (mul (S754_finite s m e) lit_0_05) 2)
                         else of_Z 0) = false).
    { destruct (strict_eq g "true"); [|reflexivity].
      apply round2_not_nan. rewrite lit_0_05_finite. now apply mul_finite_not_nan. }
    repeat split.
    + now destruct (strict_eq g "true").
    + exact Hg.
    + apply round2_not_nan. now apply add_finite_not_nan.
Qed.

(** *** Replacing the image *)

Lemma bind_run {A B} (m : M A) (k : A -> M B) (w w1 : World) (a : A) :
  m w = (inl a, w1) -> bind m k w = k a w1.
Proof. unfold bind. now intros ->. Qed.

(** What the second schema asks of a record. *)
Lemma validate_schema_2 (p : Product) :
  (exists c r, itemName p = Some (String c r)) ->
  type p = Some "Veg" \/ type p = Some "Non-Veg" ->
  is_nan (sellPrice p) = false ->
  is_nan (gstPercentage p) = false ->
  is_nan (gstAmount p) = false ->
  is_nan (totalPrice p) = false ->
  validate ProductSchema_2 p = [].
Proof.
  intros (c & r & Hn) Ht H1 H2 H3 H4.
  unfold validate, check_number, check_enum. simpl.
  rewrite Hn, H1, H2, H3, H4.
  now destruct Ht as [-> | ->].
Qed.

Lemma validate_itemName (sch : Schema) (p : Product) :
  validate sch p = [] -> exists c r, itemName p = Some (String c r).
Proof.
  unfold validate. intros H. apply app_eq_nil in H. destruct H as [H _].
  destruct (itemName p) as [[|c r]|]; try discriminate H. eauto.
Qed.

(** An update with a new image, seen in full, when the asset host refuses
    the removal of the old asset: the refusal is logged and the record is
    updated. *)
Example update_with_new_image_when_removal_fails :
  put_products ProductSchema_2 (Scenario.env 0xb1 9 false)
    (Scenario.request (Scenario.oid 0xa1) (Express.body (Scenario.tea "Veg")) (Some Scenario.png))
    Scenario.shop
  = (res 200 (message_json "Product updated successfully" (Some (Records.coffee_updated 9))),
     {| db := [Records.coffee_updated 9];
        calls := [Cloudinary.destroy "products/old123";
                  Cloudinary.upload "data:image/png;base64,iVBORw==" "products"];
        console := ["Failed to delete old image:"] |}).
Proof. vm_compute. reflexivity. Qed.

(** *** Stored records are valid *)

Lemma Forall_replace (P : Product -> Prop) (p : Product) (l : list Product) :
  P p -> Forall P l -> Forall P (replace p l).
Proof.
  intros Hp. induction 1 as [|q l Hq Hl IH]; simpl; [constructor|].
  destruct (same_id (_id p) q); constructor; auto.
Qed.

Lemma Forall_remove_first (P : Product -> Prop) (i : ObjectId) (l : list Product) :
  Forall P l -> Forall P (remove_first i l).
Proof.
  induction 1 as [|q l Hq Hl IH]; simpl; [constructor|].
  destruct (same_id i q); [assumption | now constructor].
Qed.

(** X1. The routes keep the collection valid: a record enters it, or
    changes in it, only through [save], which validates first. *)
Theorem routes_keep_store_valid
  (sch : Schema) (env : Env) (req : Express.Request) (w : World) :
  valid_store sch w ->
  valid_store sch (snd (post_products sch env req w)) /\
  valid_store sch (snd (put_products sch env req w)) /\
  valid_store sch (snd (delete_products env req w)) /\
  valid_store sch (snd (get_products w)).
Proof.
  unfold valid_store. intros H. repeat split.
  - unfold post_products.
    destruct (Multer.single "image" req) as [err|file]; [exact H|].
    destruct (Validator.validateProduct (Express.body req)) as [[|e errors] b]; [|exact H].
    unfold handle, create. unfold bind at 1.
    destruct (uploadToCloudinary env file w) as [[url|e] w1] eqn:Hu;
      apply uploadToCloudinary_db in Hu; [|simpl; now rewrite Hu].
    unfold save_new, bind, get_db, set_db, throw, ret.
    destruct (validate sch _) eqn:Hv; [|simpl; now rewrite Hu].
    destruct (existsb _ (db w1)); [simpl; now rewrite Hu|].
    destruct (barcode_path sch && _); simpl; rewrite Hu; [exact H|].
    apply Forall_app. split; [exact H|]. constructor; [exact Hv | constructor].
  - unfold put_products.
    destruct (Multer.single "image" req) as [err|file]; [exact H|].
    destruct (Validator.validateProduct (Express.body req)) as [[|e errors] b]; [|exact H].
    unfold handle, update. unfold bind at 1.
    destruct (castObjectId (Express.params_id req)) as [i|] eqn:Hc;
      [rewrite (findById_run _ i w Hc) | rewrite (findById_throws _ w Hc); exact H].
    destruct (find (same_id i) (db w)) as [old|]; [|exact H].
    unfold bind at 1. rewrite update_image_step.
    match goal with
    | |- context [match ?X with (_, _) => _ end] =>
        match X with
        | match file with _ => _ end => destruct X as [[url|e] w1] eqn:Hstep
        end
    end; apply update_image_db in Hstep; [|simpl; now rewrite Hstep].
    unfold save, bind, get_db, set_db, throw, ret.
    destruct (validate sch _) eqn:Hv; simpl; rewrite Hstep; [|exact H].
    apply Forall_replace; [exact Hv | exact H].
  - unfold delete_products, delete. unfold bind at 1.
    destruct (castObjectId (Express.params_id req)) as [i|] eqn:Hc;
      [rewrite (findById_run _ i w Hc) | rewrite (findById_throws _ w Hc); exact H].
    destruct (find (same_id i) (db w)) as [p|] eqn:Hp; [|exact H].
    destruct (destroy_old_spec env (image p) "Failed to delete image from Cloudinary:" w)
      as (w1 & Hd & Hdb & _).
    unfold destroy_old in Hd. rewrite (bind_run _ _ w w1 tt Hd).
    unfold findByIdAndDelete. rewrite Hc.
    unfold bind, get_db, set_db, ret. rewrite Hdb, Hp. simpl.
    now apply Forall_remove_first.
  - exact H.
Qed.

Lemma routes_keep_store_valid_witness :
  valid_store ProductSchema_2
    (snd (post_products ProductSchema_2 (Scenario.env 0xb1 9 true)
            (Scenario.tea "Veg") Scenario.shop)) /\
  valid_store ProductSchema_2
    (snd (put_products ProductSchema_2 (Scenario.env 0xb1 9 true)
            (Scenario.tea "Veg") Scenario.shop)) /\
  valid_store ProductSchema_2
    (snd (delete_products (Scenario.env 0xb1 9 true) (Scenario.tea "Veg") Scenario.shop)) /\
  valid_store ProductSchema_2 (snd (get_products Scenario.shop)).
Proof.
  apply (routes_keep_store_valid ProductSchema_2 (Scenario.env 0xb1 9 true)
           (Scenario.tea "Veg") Scenario.shop).
  repeat constructor.
Defined.

(* ================================================================== *)
(** ** Further properties of the routes *)
(* ================================================================== *)

(** *** The collection under insertion, replacement and removal *)

Section Frame.

Variables i j : ObjectId.
Hypothesis other : j <> i.

Lemma same_id_other (p : Product) : _id p = i -> same_id j p = false.
Proof.
  intros H. unfold same_id. apply String.eqb_neq. congruence.
Qed.

Lemma find_snoc_other (l : list Product) (p : Product) :
  _id p = i -> find (same_id j) (l ++ [p]) = find (same_id j) l.
Proof.
  intros Hp. induction l as [|q l IH]; simpl.
  - now rewrite (same_id_other p Hp).
  - now rewrite IH.
Qed.

Lemma find_replace_other (l : list Product) (p : Product) :
  _id p = i -> find (same_id j) (replace p l) = find (same_id j) l.
Proof.
  intros Hp. induction l as [|q l IH]; simpl; [reflexivity|].
  destruct (same_id (_id p) q) eqn:E; simpl.
  - rewrite (same_id_other p Hp).
    apply String.eqb_eq in E. rewrite (same_id_other q); [reflexivity | congruence].
  - now rewrite IH.
Qed.

Lemma find_remove_first_other (l : list Product) :
  find (same_id j) (remove_first i l) = find (same_id j) l.
Proof.
  induction l as [|q l IH]; simpl; [reflexivity|].
  destruct (same_id i q) eqn:E; simpl.
  - apply String.eqb_eq in E. now rewrite (same_id_other q E).
  - now rewrite IH.
Qed.

End Frame.

Lemma map_id_replace (p : Product) (l : list Product) :
  map _id (replace p l) = map _id l.
Proof.
  induction l as [|q l IH]; simpl; [reflexivity|].
  destruct (same_id (_id p) q) eqn:E; simpl.
  - apply String.eqb_eq in E. now rewrite E.
  - now rewrite IH.
Qed.

Lemma existsb_same_id (i : ObjectId) (l : list Product) :
  existsb (same_id i) l = false -> ~ In i (map _id l).
Proof.
  induction l as [|q l IH]; simpl; [tauto|].
  intros H. apply orb_false_iff in H. destruct H as [H1 H2].
  apply String.eqb_neq in H1. intros [E|E]; [congruence | now apply IH].
Qed.

Lemma existsb_same_barcode (b : option string) (l : list Product) :
  existsb (same_barcode b) l = false -> ~ In b (map barcode l).
Proof.
  induction l as [|q l IH]; simpl; [tauto|].
  intros H. apply orb_false_iff in H. destruct H as [H1 H2].
  intros [E|E]; [|now apply IH].
  unfold same_barcode in H1. rewrite E in H1.
  destruct b as [x|]; [|discriminate]. now rewrite String.eqb_refl in H1.
Qed.

Lemma NoDup_snoc {A} (l : list A) (a : A) : NoDup l -> ~ In a l -> NoDup (l ++ [a]).
Proof.
  intros Hl Ha. apply NoDup_app; [exact Hl | repeat constructor; auto |].
  intros x Hx [<-|[]]. contradiction.
Qed.

Lemma remove_first_incl {A} (f : Product -> A) (i : ObjectId) (l : list Product) (x : A) :
  In x (map f (remove_first i l)) -> In x (map f l).
Proof.
  induction l as [|q l IH]; simpl; [tauto|].
  destruct (same_id i q); simpl; tauto.
Qed.

Lemma NoDup_remove_first {A} (f : Product -> A) (i : ObjectId) (l : list Product) :
  NoDup (map f l) -> NoDup (map f (remove_first i l)).
Proof.
  induction l as [|q l IH]; simpl; [auto|].
  intros H. inversion H as [|? ? Hn Hl]; subst.
  destruct (same_id i q); [exact Hl|]. simpl. constructor; [|auto].
  intros Hin. apply Hn. now apply (remove_first_incl f i).
Qed.

Lemma find_remove_first_same (i : ObjectId) (l : list Product) :
  NoDup (map _id l) -> find (same_id i) (remove_first i l) = None.
Proof.
  induction l as [|q l IH]; simpl; [reflexivity|].
  intros H. inversion H as [|? ? Hn Hl]; subst.
  destruct (same_id i q) eqn:E; simpl.
  - apply String.eqb_eq in E. apply find_absent. intros p Hp Hi.
    apply Hn. rewrite E, <- Hi. now apply in_map.
  - rewrite E. now apply IH.
Qed.

Lemma remove_first_snoc_fresh (l : list Product) (p : Product) :
  existsb (same_id (_id p)) l = false -> remove_first (_id p) (l ++ [p]) = l.
Proof.
  induction l as [|q l IH]; simpl.
  - now rewrite same_id_refl.
  - intros H. apply orb_false_iff in H. destruct H as [H1 H2].
    rewrite H1. now rewrite IH.
Qed.

(** *** What each route can do to the collection *)

(** [POST /products] leaves the collection as it is or appends one record:
    a valid one, with the identifier of the environment, that no stored
    record has, and with a barcode that no stored record has when the schema
    declares the barcode. *)
Lemma post_products_db
  (sch : Schema) (env : Env) (req : Express.Request) (w w' : World) (r : Response) :
  post_products sch env req w = (r, w') ->
  db w' = db w \/
  exists p,
    r = res 201 (message_json "Product created successfully" (Some p)) /\
    db w' = (db w ++ [p])%list /\
    _id p = new_ObjectId env /\
    validate sch p = [] /\
    existsb (same_id (_id p)) (db w) = false /\
    (barcode_path sch = true -> existsb (same_barcode (barcode p)) (db w) = false).
Proof.
  unfold post_products. intros H.
  destruct (Multer.single "image" req) as [err|file];
    [injection H as _ <-; now left|].
  destruct (Validator.validateProduct (Express.body req)) as [[|e errors] b];
    [|injection H as _ <-; now left].
  unfold handle, create in H. unfold bind at 1 in H.
  destruct (uploadToCloudinary env file w) as [[url|e] w1] eqn:Hu;
    apply uploadToCloudinary_db in Hu; [|injection H as _ <-; now left].
  unfold save_new, bind, get_db, set_db, throw, ret in H.
  destruct (validate sch _) eqn:Hv; [|injection H as _ <-; now left].
  destruct (existsb _ (db w1)) eqn:Hid; [injection H as _ <-; now left|].
  destruct (barcode_path sch && _) eqn:Hb; [injection H as _ <-; now left|].
  injection H as <- <-. right. eexists. split; [reflexivity|]. simpl.
  rewrite Hu in *. repeat split; try assumption.
  intros Hp. rewrite Hp in Hb. exact Hb.
Qed.

(** [PUT /products/:id] leaves the collection as it is or replaces the
    record stored under the id by a valid one with the same id, item name,
    barcode and creation date. *)
Lemma put_products_db
  (sch : Schema) (env : Env) (req : Express.Request) (w w' : World) (r : Response) :
  put_products sch env req w = (r, w') ->
  db w' = db w \/
  exists old p,
    r = res 200 (message_json "Product updated successfully" (Some p)) /\
    stored (Express.params_id req) w = Some old /\
    identity p = identity old /\
    validate sch p = [] /\
    db w' = replace p (db w).
Proof.
  unfold put_products. intros H.
  destruct (Multer.single "image" req) as [err|file];
    [injection H as _ <-; now left|].
  destruct (Validator.validateProduct (Express.body req)) as [[|e errors] b];
    [|injection H as _ <-; now left].
  unfold handle, update in H. unfold bind at 1 in H.
  destruct (castObjectId (Express.params_id req)) as [i|] eqn:Hc;
    [rewrite (findById_run _ i w Hc) in H
    | rewrite (findById_throws _ w Hc) in H; injection H as _ <-; now left].
  rewrite (stored_of_cast _ i w Hc).
  destruct (find (same_id i) (db w)) as [old|] eqn:Hold;
    [|injection H as _ <-; now left].
  unfold bind at 1 in H. rewrite update_image_step in H.
  match type of H with
  | context [match ?X with (_, _) => _ end] =>
      match X with
      | match file with _ => _ end => destruct X as [[url|e] w1] eqn:Hstep
      end
  end; apply update_image_db in Hstep; [|injection H as _ <-; now left].
  unfold save, bind, get_db, set_db, throw, ret in H.
  destruct (validate sch _) eqn:Hv; [|injection H as _ <-; now left].
  injection H as <- <-. right. eexists. eexists. split; [reflexivity|]. simpl.
  rewrite Hstep. repeat split. exact Hv.
Qed.

(** [DELETE /products/:id] removes the record stored under the id, if
    there is one, and nothing else. *)
Lemma delete_products_db (env : Env) (req : Express.Request) (w : World) :
  db (snd (delete_products env req w))
  = match stored (Express.params_id req) w with
    | Some p => remove_first (_id p) (db w)
    | None => db w
    end.
Proof.
  unfold delete_products, delete, stored. unfold bind at 1.
  destruct (castObjectId (Express.params_id req)) as [i|] eqn:Hc;
    [rewrite (findById_run _ i w Hc) | now rewrite (findById_throws _ w Hc)].
  destruct (find (same_id i) (db w)) as [p|] eqn:Hp; [|reflexivity].
  destruct (destroy_old_spec env (image p) "Failed to delete image from Cloudinary:" w)
    as (w1 & Hd & Hdb & _).
  unfold destroy_old in Hd. rewrite (bind_run _ _ w w1 tt Hd).
  unfold findByIdAndDelete. rewrite Hc.
  unfold bind, get_db, set_db, ret. rewrite Hdb, Hp.
  now rewrite (find_same_id i _ _ Hp).
Qed.

(** X2. The three writing routes keep the identifiers of the collection
    distinct. *)
Theorem routes_keep_ids_unique
  (sch : Schema) (env : Env) (req : Express.Request) (w : World) :
  unique_ids w ->
  unique_ids (snd (post_products sch env req w)) /\
  unique_ids (snd (put_products sch env req w)) /\
  unique_ids (snd (delete_products env req w)).
Proof.
  unfold unique_ids. intros H. repeat split.
  - destruct (post_products sch env req w) as [r w'] eqn:R.
    destruct (post_products_db sch env req w w' r R) as [E|(p & _ & E & _ & _ & Hid & _)];
      simpl; rewrite E; [exact H|].
    rewrite map_app. apply NoDup_snoc; [exact H | now apply existsb_same_id].
  - destruct (put_products sch env req w) as [r w'] eqn:R.
    destruct (put_products_db sch env req w w' r R) as [E|(old & p & _ & _ & _ & _ & E)];
      simpl; rewrite E; [exact H|].
    now rewrite map_id_replace.
  - rewrite delete_products_db. destruct (stored _ w); [|exact H].
    now apply NoDup_remove_first.
Qed.

Lemma routes_keep_ids_unique_witness :
  unique_ids (snd (post_products ProductSchema_2 (Scenario.env 0xb1 9 true)
                     (Scenario.tea "Veg") Scenario.shop)) /\
  unique_ids (snd (put_products ProductSchema_2 (Scenario.env 0xb1 9 true)
                     (Scenario.request (Scenario.oid 0xa1) (Express.body (Scenario.tea "Veg")) None)
                     Scenario.shop)) /\
  unique_ids (snd (delete_products (Scenario.env 0xb1 9 true)
                     (Scenario.request (Scenario.oid 0xa1) (Express.body (Scenario.tea "Veg")) None)
                     Scenario.shop)).
Proof.
  split; [|split].
  - apply (routes_keep_ids_unique ProductSchema_2 (Scenario.env 0xb1 9 true)
             (Scenario.tea "Veg") Scenario.shop).
    repeat constructor. simpl. tauto.
  - apply (routes_keep_ids_unique ProductSchema_2 (Scenario.env 0xb1 9 true)
             (Scenario.request (Scenario.oid 0xa1) (Express.body (Scenario.tea "Veg")) None) Scenario.shop).
    repeat constructor. simpl. tauto.
  - apply (routes_keep_ids_unique ProductSchema_2 (Scenario.env 0xb1 9 true)
             (Scenario.request (Scenario.oid 0xa1) (Express.body (Scenario.tea "Veg")) None) Scenario.shop).
    repeat constructor. simpl. tauto.
Defined.

(** X3. Under a schema that declares the barcode with its unique index, the
    three writing routes keep the barcodes of the collection distinct: the
    create route refuses a barcode that is already stored, and the update
    route never writes the barcode. *)
Theorem routes_keep_barcodes_unique
  (sch : Schema) (env : Env) (req : Express.Request) (w : World) :
  barcode_path sch = true ->
  unique_barcodes w ->
  unique_barcodes (snd (post_products sch env req w)) /\
  unique_barcodes (snd (put_products sch env req w)) /\
  unique_barcodes (snd (delete_products env req w)).
Proof.
  unfold unique_barcodes. intros Hb H. repeat split.
  - destruct (post_products sch env req w) as [r w'] eqn:R.
    destruct (post_products_db sch env req w w' r R) as [E|(p & _ & E & _ & _ & _ & Hbar)];
      simpl; rewrite E; [exact H|].
    rewrite map_app. apply NoDup_snoc; [exact H|].
    apply existsb_same_barcode. now apply Hbar.
  - destruct (put_products sch env req w) as [r w'] eqn:R.
    destruct (put_products_db sch env req w w' r R) as [E|(old & p & _ & Hold & Hid & _ & E)];
      simpl; rewrite E; [exact H|].
    destruct (stored_cast _ _ _ Hold) as (_ & Hfind).
    rewrite (map_replace (_id old) barcode _ old p); [exact H | exact Hfind | |].
    + unfold identity in Hid. now injection Hid.
    + unfold identity in Hid. now injection Hid as _ _ -> _.
  - rewrite delete_products_db. destruct (stored _ w); [|exact H].
    now apply NoDup_remove_first.
Qed.

Lemma routes_keep_barcodes_unique_witness :
  unique_barcodes (snd (post_products ProductSchema_1 (Scenario.env 0xb1 9 true)
                          (Scenario.tea "Veg") Scenario.shop)) /\
  unique_barcodes (snd (put_products ProductSchema_1 (Scenario.env 0xb1 9 true)
                          (Scenario.tea "Veg") Scenario.shop)) /\
  unique_barcodes (snd (delete_products (Scenario.env 0xb1 9 true)
                          (Scenario.tea "Veg") Scenario.shop)).
Proof.
  apply (routes_keep_barcodes_unique ProductSchema_1 (Scenario.env 0xb1 9 true)
           (Scenario.tea "Veg") Scenario.shop).
  - reflexivity.
  - repeat constructor. simpl. tauto.
Defined.

(** *** Amounts that are not below zero *)

Lemma geb_nonneg (x : number) : geb x (of_Z 0) = nonneg x.
Proof. destruct x as [s|s| |s m e]; try destruct s; reflexivity. Qed.

Lemma nonneg_not_nan (x : number) : nonneg x = true -> is_nan x = false.
Proof. now destruct x. Qed.

Lemma binary_round_aux_nonneg (mx ex : Z) (lx : location) :
  (0 <= mx)%Z -> nonneg (binary_round_aux prec emax false mx ex lx) = true.
Proof.
  intros H. unfold binary_round_aux.
  pose proof (shr_fexp_nonneg mx ex lx H) as H1.
  destruct (shr_fexp prec emax mx ex lx) as [mrs' e']. simpl in H1.
  pose proof (shr_fexp_nonneg _ e' loc_Exact
                (round_nearest_even_nonneg _ (loc_of_shr_record mrs') H1)) as H2.
  destruct (shr_fexp prec emax _ e' loc_Exact) as [mrs'' e'']. simpl in H2.
  destruct (shr_m mrs''); [reflexivity | | lia].
  now destruct (e'' <=? emax - prec)%Z.
Qed.

Lemma binary_normalize_nonneg (m e : Z) :
  (0 <= m)%Z -> nonneg (binary_normalize prec emax m e false) = true.
Proof.
  unfold binary_normalize, binary_round. intros H.
  destruct m as [|p|p]; [reflexivity | | lia].
  destruct (shl_align p e _) as [mz ez]. now apply binary_round_aux_nonneg.
Qed.

Lemma of_decimal_nonneg (n : N) (e : Z) : nonneg (of_decimal false n e) = true.
Proof.
  unfold of_decimal. destruct n as [|p]; [reflexivity|].
  destruct e as [|k|k]; try (apply binary_normalize_nonneg; lia).
  unfold SFdiv, SFdiv_core_binary.
  match goal with
  | |- context [Z.div_eucl ?a ?b] =>
      assert (Hq : (0 <= a / b)%Z);
      [ apply Z.div_pos; [|lia] | unfold Z.div in Hq; destruct (Z.div_eucl a b) as [q r] ]
  end.
  - match goal with
    | |- (0 <= match ?x with _ => _ end)%Z => destruct x; try lia
    end.
    apply Z.shiftl_nonneg. lia.
  - now apply binary_round_aux_nonneg.
Qed.

Lemma mul_lit_nonneg (x : number) : nonneg x = true -> nonneg (mul x lit_0_05) = true.
Proof.
  rewrite lit_0_05_finite.
  destruct x as [s|s| |s m e]; simpl; intros H; try reflexivity; try discriminate.
  - now rewrite xorb_false_r.
  - apply negb_true_iff in H. subst s. now apply binary_round_aux_nonneg.
Qed.

Lemma add_nonneg (x y : number) :
  nonneg x = true -> nonneg y = true -> nonneg (add x y) = true.
Proof.
  destruct x as [sx|sx| |sx mx ex], y as [sy|sy| |sy my ey]; simpl; intros Hx Hy;
    try reflexivity; try discriminate; try assumption.
  - now destruct sx, sy.
  - apply negb_true_iff in Hx, Hy. now subst.
  - apply negb_true_iff in Hx, Hy. subst. simpl.
    apply (binary_normalize_nonneg (Z.pos _ + Z.pos _)). lia.
Qed.

(** What is read from text that starts with a digit is the value of a
    decimal literal. *)
Lemma unsignedLiteral_digit_value (neg : bool) (c : ascii) (r : string) :
  is_digit c = true ->
  exists n e, unsignedLiteral neg (String c r) = of_decimal neg n e.
Proof.
  intros Hc. unfold unsignedLiteral.
  assert (HI : startsWith "Infinity" (String c r) = false).
  { change (startsWith "Infinity" (String c r))
      with (Ascii.eqb "I" c && startsWith "nfinity" r).
    destruct (Ascii.eqb_spec "I" c) as [<-|]; [discriminate Hc | reflexivity]. }
  rewrite HI. unfold takeDigits. simpl takeDigits_from. rewrite Hc.
  match goal with
  | |- context [takeDigits_from ?a 1 r] =>
      pose proof (takeDigits_from_len r a 1) as Hlen;
      destruct (takeDigits_from a 1 r) as [[ip ilen] r1]
  end.
  simpl in Hlen. destruct ilen as [|ilen]; [lia|].
  destruct r1 as [|d r2]; [eauto|].
  destruct (Ascii.eqb_spec d ".") as [->|Hd].
  - destruct (takeDigits_from ip 0 r2) as [[fp flen] r3]. eauto.
  - assert (E : forall A (x y : A),
               match String d r2 with String "." _ => x | _ => y end = y).
    { intros A x y. destruct d as [[] [] [] [] [] [] [] []]; try reflexivity.
      now elim Hd. }
    rewrite E. eauto.
Qed.

(** Rounding to two digits keeps a number that is not below zero so. *)
Lemma round2_nonneg (x : number) : nonneg x = true -> nonneg (round2 x) = true.
Proof.
  unfold round2. destruct x as [s|s| |s m e]; intros H.
  - reflexivity.
  - destruct s; [discriminate | reflexivity].
  - discriminate.
  - simpl in H. apply negb_true_iff in H. subst s.
    destruct (toFixed_finite false m e) as (text & -> & Ht).
    destruct text as [|c r]; [discriminate|]. simpl starts_with_digit in Ht.
    simpl append. rewrite parseFloat_digit by assumption.
    destruct (unsignedLiteral_digit_value false c r Ht) as (n & k & ->).
    apply of_decimal_nonneg.
Qed.

(** The amounts that the handlers compute from a price that is not below
    zero are not below zero. *)
Lemma amounts_of_nonneg (g : option string) (price : number) :
  nonneg price = true ->
  nonneg (gstPercentage_of g) = true /\
  nonneg (gstAmount_of g price) = true /\
  nonneg (totalPrice_of price (gstAmount_of g price)) = true.
Proof.
  intros H. unfold gstPercentage_of, gstAmount_of, totalPrice_of.
  assert (Hg : nonneg (if strict_eq g "true"
                       then parseFloat (toFixed (mul price lit_0_05) 2)
                       else of_Z 0) = true).
  { destruct (strict_eq g "true"); [|reflexivity].
    apply round2_nonneg. now apply mul_lit_nonneg. }
  repeat split.
  - now destruct (strict_eq g "true").
  - exact Hg.
  - apply round2_nonneg. now apply add_nonneg.
Qed.

(** *** Trimming *)

Lemma trimEnd_idempotent (s : string) : trimEnd (trimEnd s) = trimEnd s.
Proof.
  induction s as [|c s IH]; cbn [trimEnd]; [reflexivity|].
  destruct (trimEnd s) as [|d t] eqn:E.
  - destruct (is_whitespace c) eqn:Hc; cbn [trimEnd]; [reflexivity | now rewrite Hc].
  - cbn [trimEnd] in *. now rewrite IH.
Qed.

Lemma trimStart_head (s : string) :
  match trimStart s with
  | String c _ => is_whitespace c = false
  | EmptyString => True
  end.
Proof.
  induction s as [|c s IH]; cbn [trimStart]; [exact I|].
  destruct (is_whitespace c) eqn:E; [exact IH | exact E].
Qed.

Lemma trimStart_trimEnd (s : string) :
  match s with
  | String c _ => is_whitespace c = false
  | EmptyString => True
  end ->
  trimStart (trimEnd s) = trimEnd s.
Proof.
  destruct s as [|c s]; [reflexivity|]. intros Hc. cbn [trimEnd].
  destruct (trimEnd s); rewrite ?Hc; cbn [trimStart]; now rewrite Hc.
Qed.

(** Trimming is idempotent: a trimmed string has no white space left to
    trim at either end. *)
Lemma trim_idempotent (s : string) : trim (trim s) = trim s.
Proof.
  unfold trim.
  rewrite (trimStart_trimEnd (trimStart s) (trimStart_head s)).
  apply trimEnd_idempotent.
Qed.

(** *** Valid requests pass the validation of the schemas *)

(** All that a body without validation errors owes to the four chains. *)
Lemma validateProduct_accepts (b b' : Express.Body) :
  Validator.validateProduct b = ([], b') ->
  (exists c r, Express.itemName b' = Some (String c r) /\
               String c r = trim (Validator.toString (Express.itemName b))) /\
  (exists price, Express.sellPrice b' = Some price /\
                 nonneg (parseFloat price) = true) /\
  (exists ty, Express.type b' = Some ty /\ (ty = "Veg" \/ ty = "Non-Veg")) /\
  (forall u, Express.primaryUnit b' = Some u ->
             existsb (String.eqb u) ["piece"; "kg"; "gram"; ""] = true) /\
  Express.customUnit b' = Express.customUnit b /\
  Express.gstEnabled b' = Express.gstEnabled b.
Proof.
  intros H.
  destruct (validateProduct_passes b b' H) as ((price & Hp & Hf) & Hty & Hg).
  apply isFloat_parseFloat in Hf. rewrite geb_nonneg in Hf.
  unfold Validator.validateProduct in H. injection H as He <-.
  cbn [Express.itemName Express.sellPrice Express.type Express.primaryUnit
       Express.customUnit Express.gstEnabled] in *.
  apply app_eq_nil in He. destruct He as [H1 He].
  apply app_eq_nil in He. destruct He as [_ He].
  apply app_eq_nil in He. destruct He as [_ H4].
  repeat split; try assumption.
  - unfold Validator.notEmpty in H1.
    destruct (trim (Validator.toString (Express.itemName b))) as [|c r];
      [discriminate H1 | eauto].
  - eauto.
  - intros u Hu. rewrite Hu in H4. unfold Validator.isIn, Validator.mem in H4.
    cbn [existsb] in *.
    destruct ((u =? "piece")%string || _); [reflexivity | discriminate H4].
Qed.

(** Both schemas accept a record whose item name is not empty, whose type
    and unit are among those of the validators, and whose amounts are
    not below zero. *)
Lemma validate_repository_schema (sch : Schema) (p : Product) :
  repository_schema sch ->
  (exists c r, itemName p = Some (String c r)) ->
  type p = Some "Veg" \/ type p = Some "Non-Veg" ->
  (forall u, primaryUnit p = Some u ->
             existsb (String.eqb u) ["piece"; "kg"; "gram"; ""] = true) ->
  amounts_nonneg p ->
  validate sch p = [].
Proof.
  intros Hs (c & r & Hn) Ht Hu (H1 & H2 & H3 & H4).
  unfold validate, check_number, check_enum.
  rewrite Hn, (nonneg_not_nan _ H1), (nonneg_not_nan _ H2),
    (nonneg_not_nan _ H3), (nonneg_not_nan _ H4).
  destruct Hs as [-> | ->]; simpl.
  - rewrite !geb_nonneg, H1, H4.
    destruct Ht as [-> | ->]; simpl;
      (destruct (primaryUnit p) as [u|]; [|reflexivity]);
      specialize (Hu u eq_refl); simpl in Hu; now rewrite Hu.
  - now destruct Ht as [-> | ->].
Qed.

(** *** Running the handlers *)

Lemma existsb_false_of {A} (f : A -> bool) (l : list A) :
  (forall x, In x l -> f x = false) -> existsb f l = false.
Proof.
  induction l as [|a l IH]; simpl; [reflexivity|].
  intros H. rewrite (H a) by now left. apply IH. intros x Hx. apply H. now right.
Qed.

Lemma uploadToCloudinary_accepted (env : Env) (file : option Express.File) (w : World) :
  upload_accepted env file ->
  uploadToCloudinary env file w
  = (inl (uploaded env file),
     {| db := db w; calls := calls w ++ upload_calls file; console := console w |}).
Proof.
  intros H. destruct file as [f|].
  - destruct (H f eq_refl) as (u & Hu).
    rewrite (uploadToCloudinary_succeeds env f u w Hu). simpl. now rewrite Hu.
  - simpl. destruct w; simpl. now rewrite app_nil_r.
Qed.

(** The removal of the old asset, whatever the asset host answers: the call
    is sent if the record has an image and the collection is not touched. *)
Lemma destroy_old_calls (env : Env) (p : Product) (line : string) (w : World) :
  exists w1,
    destroy_old env (image p) line w = (inl tt, w1) /\
    db w1 = db w /\ calls w1 = (calls w ++ removal_calls p)%list.
Proof.
  unfold destroy_old, removal_calls, try_catch, Model.uploader_destroy, bind, call, log,
    throw, ret.
  destruct (image p) as [[|c u]|]; simpl.
  - eexists. repeat split. now rewrite app_nil_r.
  - destruct (Effect.uploader_destroy env _); eexists; repeat split.
  - eexists. repeat split. now rewrite app_nil_r.
Qed.

(** The record that the update handler saves. *)
Lemma update_saved_valid
  (sch : Schema) (b0 b : Express.Body) (old : Product) (img : option string) :
  repository_schema sch ->
  Validator.validateProduct b0 = ([], b) ->
  validate sch old = [] ->
  validate sch
    {| _id := _id old; itemName := itemName old;
       sellPrice := parseFloat (Express.ToString (Express.sellPrice b));
       type := Express.type b;
       primaryUnit := Express.primaryUnit b;
       customUnit := set_customUnit sch (Express.customUnit b);
       gstEnabled := strict_eq (Express.gstEnabled b) "true";
       gstPercentage := gstPercentage_of (Express.gstEnabled b);
       gstAmount := gstAmount_of (Express.gstEnabled b)
                      (parseFloat (Express.ToString (Express.sellPrice b)));
       totalPrice := totalPrice_of (parseFloat (Express.ToString (Express.sellPrice b)))
                       (gstAmount_of (Express.gstEnabled b)
                          (parseFloat (Express.ToString (Express.sellPrice b))));
       barcode := barcode old; image := img;
       createdAt := createdAt old; updatedAt := updatedAt old |} = [].
Proof.
  intros Hs Hb Hold.
  destruct (validateProduct_accepts b0 b Hb)
    as (_ & (price & Hp & Hn) & (ty & Hty & Hin) & Hu & _ & _).
  destruct (amounts_of_nonneg (Express.gstEnabled b) (parseFloat price) Hn)
    as (N2 & N3 & N4).
  apply validate_repository_schema; simpl; rewrite ?Hp, ?Hty; simpl; auto.
  - now apply (validate_itemName sch).
  - now destruct Hin as [-> | ->]; [left | right].
  - repeat split; assumption.
Qed.

(** The record that the create handler saves. *)
Lemma create_saved_valid
  (sch : Schema) (b0 b : Express.Body) (oid : ObjectId) (now : Z)
  (bar : string) (img : option string) :
  repository_schema sch ->
  Validator.validateProduct b0 = ([], b) ->
  validate sch
    (new_Product sch oid now
       {| f_itemName := Express.itemName b;
          f_sellPrice := parseFloat (Express.ToString (Express.sellPrice b));
          f_type := Express.type b;
          f_primaryUnit := Express.primaryUnit b;
          f_customUnit := Express.customUnit b;
          f_gstEnabled := strict_eq (Express.gstEnabled b) "true";
          f_gstPercentage := gstPercentage_of (Express.gstEnabled b);
          f_gstAmount := gstAmount_of (Express.gstEnabled b)
                           (parseFloat (Express.ToString (Express.sellPrice b)));
          f_totalPrice := totalPrice_of (parseFloat (Express.ToString (Express.sellPrice b)))
                            (gstAmount_of (Express.gstEnabled b)
                               (parseFloat (Express.ToString (Express.sellPrice b))));
          f_barcode := bar; f_image := img |}) = [].
Proof.
  intros Hs Hb.
  destruct (validateProduct_accepts b0 b Hb)
    as ((c & r & Hname & Htrim) & (price & Hp & Hn) & (ty & Hty & Hin) & Hu & _ & _).
  destruct (amounts_of_nonneg (Express.gstEnabled b) (parseFloat price) Hn)
    as (N2 & N3 & N4).
  apply validate_repository_schema; simpl; rewrite ?Hp, ?Hty, ?Hname; simpl; auto.
  - rewrite Htrim, trim_idempotent, <- Htrim. eauto.
  - now destruct Hin as [-> | ->]; [left | right].
  - repeat split; assumption.
Qed.

(** [save] of a new document that is valid and collides with nothing. *)
Lemma save_new_ok (sch : Schema) (p : Product) (w : World) :
  validate sch p = [] ->
  existsb (same_id (_id p)) (db w) = false ->
  barcode_path sch && existsb (same_barcode (barcode p)) (db w) = false ->
  save_new sch p w = (inl p, with_db w (db w ++ [p])).
Proof.
  intros Hv Hi Hb. unfold save_new, bind, get_db, set_db, ret.
  now rewrite Hv, Hi, Hb.
Qed.

(** [save] of a new document whose barcode is taken. *)
Lemma save_new_barcode_taken (sch : Schema) (p : Product) (w : World) :
  validate sch p = [] ->
  existsb (same_id (_id p)) (db w) = false ->
  barcode_path sch && existsb (same_barcode (barcode p)) (db w) = true ->
  save_new sch p w = (inr (MongoServerError "barcode"), w).
Proof.
  intros Hv Hi Hb. unfold save_new, bind, get_db, throw.
  now rewrite Hv, Hi, Hb.
Qed.

(** [save] of a valid document that was read from the collection. *)
Lemma save_ok (sch : Schema) (now : Z) (p : Product) (w : World) :
  validate sch p = [] ->
  save sch now p w
  = (inl (with_updatedAt p (if timestamps sch then Some now else updatedAt p)),
     with_db w (replace (with_updatedAt p (if timestamps sch then Some now
                                            else updatedAt p)) (db w))).
Proof.
  intros Hv. unfold save, bind, get_db, set_db, ret. now rewrite Hv.
Qed.

(** *** Creation *)

(** X5. Under either schema of the repository, a create request that
    passes the upload middleware and the validators, whose file (if any)
    the asset host accepts, and whose identifier and barcode no stored
    record has, is answered 201: the record is appended to the collection,
    its item name is the trimmed one of the body, its amounts are not below
    zero, and the asset host is called exactly for the upload of the
    file. *)
Theorem create_valid_request_succeeds
  (sch : Schema) (env : Env) (req : Express.Request) (w : World)
  (file : option Express.File) :
  repository_schema sch ->
  Multer.single "image" req = inr file ->
  fst (Validator.validateProduct (Express.body req)) = [] ->
  upload_accepted env file ->
  (forall q, In q (db w) -> _id q <> new_ObjectId env) ->
  (forall q, In q (db w) -> barcode q <> Some (barcode_of env)) ->
  exists p w',
    post_products sch env req w
    = (res 201 (message_json "Product created successfully" (Some p)), w') /\
    db w' = (db w ++ [p])%list /\
    calls w' = (calls w ++ upload_calls file)%list /\
    itemName p = Some (trim (Validator.toString (Express.itemName (Express.body req)))) /\
    image p = set_image sch (uploaded env file) /\
    amounts_nonneg p.
Proof.
  intros Hs Hf Hv Hup Hid Hbar.
  destruct (Validator.validateProduct (Express.body req)) as [errors b] eqn:Hb.
  simpl in Hv. subst errors.
  unfold post_products. rewrite Hf, Hb. unfold handle, create.
  rewrite (bind_run _ _ w _ _ (uploadToCloudinary_accepted env file w Hup)).
  erewrite bind_run;
    [| apply save_new_ok;
       [ now apply (create_saved_valid sch (Express.body req) b)
       | apply existsb_false_of; intros q Hq; apply String.eqb_neq; now apply Hid
       | destruct (barcode_path sch) eqn:Hp; [|reflexivity];
         apply existsb_false_of; intros q Hq; unfold same_barcode;
         cbn [new_Product barcode f_barcode]; rewrite Hp;
         destruct (barcode q) as [y|] eqn:E; [|reflexivity];
         apply String.eqb_neq; intros Heq; apply (Hbar q Hq);
         rewrite E; unfold barcode_of; now rewrite Heq ] ].
  unfold ret. eexists. eexists. split; [reflexivity|].
  destruct (validateProduct_accepts _ b Hb)
    as ((c & r & Hname & Htrim) & (price & Hp & Hn) & _).
  destruct (amounts_of_nonneg (Express.gstEnabled b) (parseFloat price) Hn)
    as (N2 & N3 & N4).
  cbn. rewrite Hp. cbn.
  repeat split; try assumption.
  rewrite Hname. cbn [option_map]. now rewrite Htrim, trim_idempotent.
Qed.

Lemma create_valid_request_succeeds_witness :
  exists p w',
    post_products ProductSchema_1 (Scenario.env 0xb1 9 true)
      (Scenario.request "" (Express.body (Scenario.tea "Veg")) (Some Scenario.png))
      Scenario.shop
    = (res 201 (message_json "Product created successfully" (Some p)), w') /\
    db w' = (db Scenario.shop ++ [p])%list /\
    calls w' = (calls Scenario.shop ++ upload_calls (Some Scenario.png))%list /\
    itemName p
    = Some (trim (Validator.toString
                    (Express.itemName (Express.body (Scenario.tea "Veg"))))) /\
    image p = set_image ProductSchema_1
                (uploaded (Scenario.env 0xb1 9 true) (Some Scenario.png)) /\
    amounts_nonneg p.
Proof.
  apply (create_valid_request_succeeds ProductSchema_1 (Scenario.env 0xb1 9 true)
           (Scenario.request "" (Express.body (Scenario.tea "Veg")) (Some Scenario.png))
           Scenario.shop (Some Scenario.png)).
  - left. reflexivity.
  - reflexivity.
  - reflexivity.
  - intros f _. eexists. reflexivity.
  - intros q [<-|[]]. simpl. discriminate.
  - intros q [<-|[]]. simpl. discriminate.
Defined.

(** X6. Under the schema with the unique barcode, a create request that is
    valid in every respect but draws a barcode that a stored record has is
    answered 400 with the duplicate-key error; the collection is as it was,
    but the file of the request has already been uploaded: the asset stays
    on the host with no record that refers to it. *)
Theorem create_barcode_taken
  (env : Env) (req : Express.Request) (w : World) (file : option Express.File)
  (q : Product) :
  Multer.single "image" req = inr file ->
  fst (Validator.validateProduct (Express.body req)) = [] ->
  upload_accepted env file ->
  (forall q, In q (db w) -> _id q <> new_ObjectId env) ->
  In q (db w) -> barcode q = Some (barcode_of env) ->
  post_products ProductSchema_1 env req w
  = (res 400 (failure_json "Failed to create product" (MongoServerError "barcode")),
     {| db := db w;
        calls := calls w ++ upload_calls file;
        console := console w ++ ["Product creation error:"] |}).
Proof.
  intros Hf Hv Hup Hid Hq Hbar.
  destruct (Validator.validateProduct (Express.body req)) as [errors b] eqn:Hb.
  simpl in Hv. subst errors.
  unfold post_products. rewrite Hf, Hb. unfold handle, create.
  rewrite (bind_run _ _ w _ _ (uploadToCloudinary_accepted env file w Hup)).
  unfold bind.
  rewrite save_new_barcode_taken; [reflexivity | | |].
  - apply (create_saved_valid ProductSchema_1 (Express.body req) b); [now left | exact Hb].
  - apply existsb_false_of. intros p Hp. apply String.eqb_neq. now apply Hid.
  - cbn [ProductSchema_1 barcode_path andb]. apply existsb_exists. exists q.
    split; [exact Hq|]. unfold same_barcode. cbn [new_Product barcode ProductSchema_1
      barcode_path f_barcode]. rewrite Hbar. apply String.eqb_refl.
Qed.

Lemma create_barcode_taken_witness :
  post_products ProductSchema_1 (Scenario.env 0xb1 9 true)
    (Scenario.request "" (Express.body (Scenario.tea "Veg")) (Some Scenario.png))
    Cases.dairy
  = (res 400 (failure_json "Failed to create product" (MongoServerError "barcode")),
     {| db := db Cases.dairy;
        calls := calls Cases.dairy ++ upload_calls (Some Scenario.png);
        console := console Cases.dairy ++ ["Product creation error:"] |}).
Proof.
  apply (create_barcode_taken (Scenario.env 0xb1 9 true)
           (Scenario.request "" (Express.body (Scenario.tea "Veg")) (Some Scenario.png))
           Cases.dairy (Some Scenario.png) Cases.milk).
  - reflexivity.
  - reflexivity.
  - intros f _. eexists. reflexivity.
  - intros q [<-|[]]; simpl; discriminate.
  - left. reflexivity.
  - vm_compute. reflexivity.
Defined.

(** *** Update *)

(** The image step of the update handler when the asset host accepts the
    file: the old asset is removed first, then the file is uploaded. *)
Lemma update_image_accepted
  (env : Env) (file : option Express.File) (old : Product) (w : World) :
  upload_accepted env file ->
  match file with
  | Some _ =>
      bind (destroy_old env (image old) "Failed to delete old image:")
           (fun _ => uploadToCloudinary env file) w
  | None => (inl (image old), w)
  end
  = (inl (match file with Some _ => uploaded env file | None => image old end),
     match file with
     | Some _ =>
         {| db := db w;
            calls := calls w ++ removal_calls old ++ upload_calls file;
            console := console
                         (snd (destroy_old env (image old) "Failed to delete old image:" w)) |}
     | None => w
     end).
Proof.
  intros Hup. destruct file as [f|]; [|reflexivity].
  destruct (destroy_old_calls env old "Failed to delete old image:" w)
    as (w1 & Hd & Hdb & Hc).
  rewrite (bind_run _ _ w w1 tt Hd), Hd.
  rewrite (uploadToCloudinary_accepted env (Some f) w1 Hup).
  cbn [snd]. now rewrite Hdb, Hc, <- app_assoc.
Qed.



(** X8. A valid update request for an id that casts to an ObjectId which
    no stored record has is answered 404 with [Product not found], before
    anything is sent to the asset host, even when the request carries a
    file: the world is as it was. For an id that does not cast, the cast
    error of [findById] goes to the [catch] block: the answer is 400 with
    [Failed to update product], one line is logged, and nothing else
    changes. *)
Theorem update_absent_id_not_found
  (sch : Schema) (env : Env) (req : Express.Request) (w : World)
  (file : option Express.File) :
  Multer.single "image" req = inr file ->
  fst (Validator.validateProduct (Express.body req)) = [] ->
  (forall p, In p (db w) -> castObjectId (Express.params_id req) <> Some (_id p)) ->
  put_products sch env req w
  = match castObjectId (Express.params_id req) with
    | Some _ => (res 404 (error_json "Product not found"), w)
    | None =>
        (res 400 (failure_json "Failed to update product"
                    (CastError "ObjectId" (Express.params_id req) "_id")),
         {| db := db w; calls := calls w;
            console := console w ++ ["Product update error:"] |})
    end.
Proof.
  intros Hf Hv Hid.
  destruct (Validator.validateProduct (Express.body req)) as [errors b] eqn:Hb.
  simpl in Hv. subst errors.
  unfold put_products. rewrite Hf, Hb.
  unfold handle, update, bind.
  destruct (castObjectId (Express.params_id req)) as [i|] eqn:E.
  - rewrite (findById_run _ i w E), (find_absent i); [reflexivity|].
    intros p Hp Heq. apply (Hid p Hp). now rewrite Heq.
  - now rewrite (findById_throws _ w E).
Qed.

Lemma update_absent_id_not_found_witness :
  put_products ProductSchema_2 (Scenario.env 0xb1 9 true)
    (Scenario.request (Scenario.oid 0xee) (Express.body (Scenario.tea "Veg"))
       (Some Scenario.png))
    Scenario.shop
  = (res 404 (error_json "Product not found"), Scenario.shop).
Proof.
  apply (update_absent_id_not_found ProductSchema_2 (Scenario.env 0xb1 9 true)
           (Scenario.request (Scenario.oid 0xee) (Express.body (Scenario.tea "Veg"))
              (Some Scenario.png))
           Scenario.shop (Some Scenario.png)).
  - reflexivity.
  - reflexivity.
  - intros p [<-|[]]. vm_compute. discriminate.
Defined.

(** The same request for the id [zz], which does not cast. *)
Example update_malformed_id :
  put_products ProductSchema_2 (Scenario.env 0xb1 9 true)
    (Scenario.request "zz" (Express.body (Scenario.tea "Veg")) (Some Scenario.png))
    Scenario.shop
  = (res 400 (failure_json "Failed to update product" (CastError "ObjectId" "zz" "_id")),
     {| db := [Scenario.coffee]; calls := []; console := ["Product update error:"] |}).
Proof. reflexivity. Qed.

(** X9. When the asset host refuses the upload of the file of a valid
    update request for a stored record, the request is answered 400 with
    [Failed to update product] and [Image upload failed], and the collection
    is as it was; but the removal of the old asset, if the record had one,
    was sent to the host before the upload: the record still refers to an
    asset whose removal has been asked. *)
Theorem update_upload_failure
  (sch : Schema) (env : Env) (req : Express.Request) (w : World)
  (f : Express.File) (old : Product) (e : Exception) :
  Multer.single "image" req = inr (Some f) ->
  fst (Validator.validateProduct (Express.body req)) = [] ->
  stored (Express.params_id req) w = Some old ->
  Effect.uploader_upload env (dataURI f) = inr e ->
  exists w',
    put_products sch env req w
    = (res 400 (failure_json "Failed to update product" (Error "Image upload failed")), w') /\
    db w' = db w /\
    stored (Express.params_id req) w' = Some old /\
    calls w' = (calls w ++ removal_calls old
                ++ [Cloudinary.upload (dataURI f) "products"])%list.
Proof.
  intros Hf Hv Hold Hu.
  destruct (Validator.validateProduct (Express.body req)) as [errors b] eqn:Hb.
  simpl in Hv. subst errors.
  unfold put_products. rewrite Hf, Hb. unfold handle, update.
  rewrite (bind_run _ _ w w (Some old))
    by now apply findById_stored.
  destruct (destroy_old_calls env old "Failed to delete old image:" w)
    as (w1 & Hd & Hdb & Hc).
  unfold destroy_old in Hd.
  unfold bind at 1. unfold bind at 1. rewrite Hd.
  rewrite (uploadToCloudinary_fails env f e w1 Hu).
  eexists. split; [reflexivity|]. cbn [db calls].
  unfold stored. cbn [db]. rewrite Hdb, Hc, <- app_assoc. auto.
Qed.

Lemma update_upload_failure_witness :
  exists w',
    put_products ProductSchema_2 (Scenario.env_down 0xb1 9)
      (Cases.update_tea (Some Scenario.png)) Scenario.shop
    = (res 400 (failure_json "Failed to update product" (Error "Image upload failed")), w') /\
    db w' = db Scenario.shop /\
    stored (Express.params_id (Cases.update_tea (Some Scenario.png))) w'
    = Some Scenario.coffee /\
    calls w' = (calls Scenario.shop ++ removal_calls Scenario.coffee
                ++ [Cloudinary.upload (dataURI Scenario.png) "products"])%list.
Proof.
  apply (update_upload_failure ProductSchema_2 (Scenario.env_down 0xb1 9)
           (Cases.update_tea (Some Scenario.png)) Scenario.shop Scenario.png
           Scenario.coffee (Error "timeout")); reflexivity.
Defined.

(** *** Deletion *)

(** How the delete handler runs on a stored record. *)
Lemma delete_runs
  (env : Env) (req : Express.Request) (w : World) (p : Product) :
  stored (Express.params_id req) w = Some p ->
  exists w',
    delete_products env req w
    = (res 200 (message_json "Product deleted successfully" (Some p)), w') /\
    db w' = remove_first (_id p) (db w) /\
    calls w' = (calls w ++ removal_calls p)%list.
Proof.
  intros Hp. destruct (stored_cast _ _ _ Hp) as (Hcast & Hfind).
  unfold delete_products, delete.
  rewrite (bind_run _ _ w w (Some p)) by now apply findById_stored.
  destruct (destroy_old_calls env p "Failed to delete image from Cloudinary:" w)
    as (w1 & Hd & Hdb & Hc).
  unfold destroy_old in Hd. rewrite (bind_run _ _ w w1 tt Hd).
  unfold findByIdAndDelete. rewrite Hcast.
  unfold bind, get_db, set_db, ret. rewrite Hdb, Hfind.
  eexists. split; [reflexivity|]. cbn [db calls]. split; [reflexivity | exact Hc].
Qed.

(** X10. Deleting a stored record is answered 200 with that record, whatever
    the asset host answers: the record is removed from the collection, the
    removal of its asset is sent to the host if it has one, and when the
    identifiers of the collection are distinct no record is stored under
    the id afterwards. *)
Theorem delete_stored_record
  (env : Env) (req : Express.Request) (w : World) (p : Product) :
  stored (Express.params_id req) w = Some p ->
  exists w',
    delete_products env req w
    = (res 200 (message_json "Product deleted successfully" (Some p)), w') /\
    db w' = remove_first (_id p) (db w) /\
    calls w' = (calls w ++ removal_calls p)%list /\
    (unique_ids w -> stored (Express.params_id req) w' = None).
Proof.
  intros Hp. destruct (delete_runs env req w p Hp) as (w' & E & Hdb & Hc).
  exists w'. repeat split; try assumption.
  intros Hu. destruct (stored_cast _ _ _ Hp) as (Hcast & _).
  unfold stored. rewrite Hcast, Hdb. now apply find_remove_first_same.
Qed.

Lemma delete_stored_record_witness :
  exists w',
    delete_products (Scenario.env_down 0xb1 9) (Cases.update_tea None) Scenario.shop
    = (res 200 (message_json "Product deleted successfully" (Some Scenario.coffee)), w') /\
    db w' = remove_first (_id Scenario.coffee) (db Scenario.shop) /\
    calls w' = (calls Scenario.shop ++ removal_calls Scenario.coffee)%list /\
    (unique_ids Scenario.shop ->
     stored (Express.params_id (Cases.update_tea None)) w' = None).
Proof.
  apply (delete_stored_record (Scenario.env_down 0xb1 9) (Cases.update_tea None)
           Scenario.shop Scenario.coffee).
  reflexivity.
Defined.

Lemma delete_absent_id_not_found_of_find
  (env : Env) (req : Express.Request) (w : World) (i : ObjectId) :
  castObjectId (Express.params_id req) = Some i ->
  find (same_id i) (db w) = None ->
  delete_products env req w = (res 404 (error_json "Product not found"), w).
Proof.
  intros Hc H. unfold delete_products, delete, bind.
  now rewrite (findById_run _ i w Hc), H.
Qed.

Lemma delete_cast_fails (env : Env) (req : Express.Request) (w : World) :
  castObjectId (Express.params_id req) = None ->
  delete_products env req w
  = (res 500 (failure_json "Failed to delete product"
                (CastError "ObjectId" (Express.params_id req) "_id")), w).
Proof.
  intros Hc. unfold delete_products, delete, bind.
  now rewrite (findById_throws _ w Hc).
Qed.

Lemma findByIdAndDelete_run (id : string) (i : ObjectId) (w : World) :
  castObjectId id = Some i ->
  findByIdAndDelete id w
  = match find (same_id i) (db w) with
    | Some p => (inl (Some p), with_db w (remove_first i (db w)))
    | None => (inl None, w)
    end.
Proof.
  intros Hc. unfold findByIdAndDelete. rewrite Hc.
  unfold bind, get_db, set_db, ret.
  now destruct (find (same_id i) (db w)).
Qed.

(** X11. The delete route of the router without upload answers as the one
    of the router with upload and leaves the same collection, but never
    calls the asset host and never logs: an asset that the record refers to
    stays on the host. *)
Theorem delete_without_cleanup (env : Env) (req : Express.Request) (w : World) :
  fst (Routes2.delete_products req w) = fst (delete_products env req w) /\
  db (snd (Routes2.delete_products req w)) = db (snd (delete_products env req w)) /\
  calls (snd (Routes2.delete_products req w)) = calls w /\
  console (snd (Routes2.delete_products req w)) = console w.
Proof.
  unfold Routes2.delete_products, Routes2.delete, bind.
  destruct (castObjectId (Express.params_id req)) as [i|] eqn:Hc.
  - rewrite (findByIdAndDelete_run _ i w Hc).
    destruct (find (same_id i) (db w)) as [p|] eqn:Hp.
    + assert (Hs : stored (Express.params_id req) w = Some p)
        by now rewrite (stored_of_cast _ i w Hc).
      destruct (delete_runs env req w p Hs) as (w' & -> & Hdb & _).
      cbn. now rewrite Hdb, (find_same_id i _ _ Hp).
    + now rewrite (delete_absent_id_not_found_of_find env req w i Hc Hp).
  - rewrite (delete_cast_fails env req w Hc).
    unfold findByIdAndDelete. now rewrite Hc.
Qed.

(** *** Frames and compositions *)

(** X4. Each writing route touches the record of one identifier only:
    what is stored under any other identifier is the same before and
    after, whatever the outcome of the request. The identifier is the new
    one for a create, the one that the id of the path casts to for an
    update or a delete. *)
Theorem routes_touch_one_record
  (sch : Schema) (env : Env) (req : Express.Request) (w : World) (j : string) :
  castObjectId j <> Some (new_ObjectId env) ->
  castObjectId j <> castObjectId (Express.params_id req) ->
  stored j (snd (post_products sch env req w)) = stored j w /\
  stored j (snd (put_products sch env req w)) = stored j w /\
  stored j (snd (delete_products env req w)) = stored j w.
Proof.
  intros Hnew Hid. unfold stored at 1 3 5 6 4 2.
  destruct (castObjectId j) as [i|]; [|repeat split].
  repeat split.
  - destruct (post_products sch env req w) as [r w'] eqn:R.
    destruct (post_products_db sch env req w w' r R) as [E|(p & _ & E & Hp & _)];
      simpl; rewrite E; [reflexivity|].
    apply (find_snoc_other (new_ObjectId env)); [congruence | exact Hp].
  - destruct (put_products sch env req w) as [r w'] eqn:R.
    destruct (put_products_db sch env req w w' r R)
      as [E|(old & p & _ & Hold & Hident & _ & E)]; simpl; rewrite E; [reflexivity|].
    destruct (stored_cast _ _ _ Hold) as (Hcast & _).
    apply (find_replace_other (_id old)); [congruence|].
    unfold identity in Hident. now injection Hident.
  - rewrite delete_products_db. destruct (stored _ w) as [p|] eqn:Hp; [|reflexivity].
    destruct (stored_cast _ _ _ Hp) as (Hcast & _).
    apply find_remove_first_other. congruence.
Qed.

Lemma routes_touch_one_record_witness :
  stored (Scenario.oid 0xa1)
    (snd (post_products ProductSchema_2 (Scenario.env 0xb1 9 true)
            (Scenario.request (Scenario.oid 0xc1) (Express.body (Scenario.tea "Veg")) None)
            Scenario.shop)) = stored (Scenario.oid 0xa1) Scenario.shop /\
  stored (Scenario.oid 0xa1)
    (snd (put_products ProductSchema_2 (Scenario.env 0xb1 9 true)
            (Scenario.request (Scenario.oid 0xc1) (Express.body (Scenario.tea "Veg")) None)
            Scenario.shop)) = stored (Scenario.oid 0xa1) Scenario.shop /\
  stored (Scenario.oid 0xa1)
    (snd (delete_products (Scenario.env 0xb1 9 true)
            (Scenario.request (Scenario.oid 0xc1) (Express.body (Scenario.tea "Veg")) None)
            Scenario.shop)) = stored (Scenario.oid 0xa1) Scenario.shop.
Proof.
  apply (routes_touch_one_record ProductSchema_2 (Scenario.env 0xb1 9 true)
           (Scenario.request (Scenario.oid 0xc1) (Express.body (Scenario.tea "Veg")) None)
           Scenario.shop (Scenario.oid 0xa1)); vm_compute; discriminate.
Defined.

(** X12. Deleting the record that a create has just answered gives back
    the collection of before the create, and answers 200 with that record;
    the asset that the create uploaded, if the schema stores its URL, is
    asked to be removed. *)
Theorem create_then_delete
  (sch : Schema) (env env' : Env) (req req' : Express.Request) (w w1 : World)
  (message : string) (p : Product) :
  post_products sch env req w = (res 201 (message_json message (Some p)), w1) ->
  Express.params_id req' = _id p ->
  exists w2,
    delete_products env' req' w1
    = (res 200 (message_json "Product deleted successfully" (Some p)), w2) /\
    db w2 = db w /\
    calls w2 = (calls w1 ++ removal_calls p)%list.
Proof.
  intros H Hid. apply post_products_created in H.
  destruct H as (g & price & _ & _ & _ & _ & _ & Hnew & _ & Hfresh & Hdb).
  assert (Hp : stored (Express.params_id req') w1 = Some p).
  { unfold stored. rewrite Hid, Hnew, castObjectId_new, <- Hnew, Hdb.
    now apply find_snoc_fresh. }
  destruct (delete_runs env' req' w1 p Hp) as (w2 & E & Hdb2 & Hc).
  exists w2. repeat split; try assumption.
  rewrite Hdb2, Hdb. now apply remove_first_snoc_fresh.
Qed.

Lemma create_then_delete_witness :
  exists w2,
    delete_products (Scenario.env_down 0xff 10)
      (Scenario.request (Scenario.oid 0xb1) (Scenario.form None None None None) None)
      (Records.world [Records.tea 0xb1 9])
    = (res 200 (message_json "Product deleted successfully" (Some (Records.tea 0xb1 9))),
       w2) /\
    db w2 = db Scenario.empty /\
    calls w2 = (calls (Records.world [Records.tea 0xb1 9])
                ++ removal_calls (Records.tea 0xb1 9))%list.
Proof.
  apply (create_then_delete ProductSchema_2 (Scenario.env 0xb1 9 true)
           (Scenario.env_down 0xff 10) (Scenario.tea "Veg")
           (Scenario.request (Scenario.oid 0xb1) (Scenario.form None None None None) None)
           Scenario.empty (Records.world [Records.tea 0xb1 9])
           "Product created successfully" (Records.tea 0xb1 9)).
  - vm_compute. reflexivity.
  - reflexivity.
Defined.

(** *** Requests that the validators refuse, requests without a file *)

(** X13. A request that the upload middleware lets through and that has
    any validation error is answered 400 with the whole list of errors, by
    the create route and by the update route alike, and the handler does
    not run: nothing is stored, uploaded or logged. *)
Theorem invalid_request_changes_nothing
  (sch : Schema) (env : Env) (req : Express.Request) (w : World)
  (file : option Express.File) :
  Multer.single "image" req = inr file ->
  fst (Validator.validateProduct (Express.body req)) <> [] ->
  post_products sch env req w
  = (res 400 (errors_json (fst (Validator.validateProduct (Express.body req)))), w) /\
  put_products sch env req w
  = (res 400 (errors_json (fst (Validator.validateProduct (Express.body req)))), w).
Proof.
  intros Hf Hv. unfold post_products, put_products. rewrite Hf.
  destruct (Validator.validateProduct (Express.body req)) as [[|e errors] b];
    [now elim Hv | split; reflexivity].
Qed.

Lemma invalid_request_changes_nothing_witness :
  post_products ProductSchema_2 (Scenario.env 0xb1 9 true)
    (Scenario.request (Scenario.oid 0xa1) (Scenario.form None (Some "-5") (Some "Dessert") None)
       (Some Scenario.png)) Scenario.shop
  = (res 400 (errors_json
                (fst (Validator.validateProduct
                        (Scenario.form None (Some "-5") (Some "Dessert") None)))),
     Scenario.shop) /\
  put_products ProductSchema_2 (Scenario.env 0xb1 9 true)
    (Scenario.request (Scenario.oid 0xa1) (Scenario.form None (Some "-5") (Some "Dessert") None)
       (Some Scenario.png)) Scenario.shop
  = (res 400 (errors_json
                (fst (Validator.validateProduct
                        (Scenario.form None (Some "-5") (Some "Dessert") None)))),
     Scenario.shop).
Proof.
  apply (invalid_request_changes_nothing ProductSchema_2 (Scenario.env 0xb1 9 true)
           (Scenario.request (Scenario.oid 0xa1) (Scenario.form None (Some "-5") (Some "Dessert") None)
              (Some Scenario.png)) Scenario.shop (Some Scenario.png)).
  - reflexivity.
  - vm_compute. discriminate.
Defined.

(** The three violations of that request are listed together, in the order
    of the chains. *)
Example all_violations_listed :
  map Validator.msg
    (fst (Validator.validateProduct (Scenario.form None (Some "-5") (Some "Dessert") None)))
  = ["Item name is required"; "Sell price must be a positive number";
     "Invalid product type"].
Proof. vm_compute. reflexivity. Qed.

Lemma save_new_calls (sch : Schema) (p : Product) (w w' : World)
  (r : Product + Exception) :
  save_new sch p w = (r, w') -> calls w' = calls w.
Proof.
  unfold save_new, bind, get_db, set_db, throw, ret.
  destruct (validate sch p); [|intros H; now injection H as _ <-].
  destruct (existsb _ _); [intros H; now injection H as _ <-|].
  destruct (_ && _); intros H; now injection H as _ <-.
Qed.

Lemma save_calls (sch : Schema) (now : Z) (p : Product) (w w' : World)
  (r : Product + Exception) :
  save sch now p w = (r, w') -> calls w' = calls w.
Proof.
  unfold save, bind, get_db, set_db, throw, ret.
  destruct (validate sch p); intros H; now injection H as _ <-.
Qed.

(** X14. A create or update request without a file never reaches the asset
    host, whatever its outcome: the calls to the host are those of
    before. *)
Theorem no_file_no_host_call
  (sch : Schema) (env : Env) (req : Express.Request) (w : World) :
  Express.attachment req = None ->
  calls (snd (post_products sch env req w)) = calls w /\
  calls (snd (put_products sch env req w)) = calls w.
Proof.
  intros Ha. unfold post_products, put_products, Multer.single. rewrite Ha.
  destruct (Validator.validateProduct (Express.body req)) as [[|e errors] b];
    [|split; reflexivity].
  split.
  - unfold handle, create, uploadToCloudinary. unfold bind at 1, ret at 1.
    unfold bind.
    destruct (save_new sch _ w) as [[p|e] w1] eqn:Hs; apply save_new_calls in Hs;
      simpl; exact Hs.
  - unfold handle, update. unfold bind at 1.
    destruct (castObjectId (Express.params_id req)) as [i|] eqn:Hc;
      [rewrite (findById_run _ i w Hc) | now rewrite (findById_throws _ w Hc)].
    destruct (find (same_id i) (db w)) as [old|]; [|reflexivity].
    unfold bind at 1, ret at 1. unfold bind.
    destruct (save sch _ _ w) as [[p|e] w1] eqn:Hs; apply save_calls in Hs;
      simpl; exact Hs.
Qed.

Lemma no_file_no_host_call_witness :
  calls (snd (post_products ProductSchema_2 (Scenario.env 0xb1 9 true)
                (Cases.update_tea None) Scenario.shop)) = calls Scenario.shop /\
  calls (snd (put_products ProductSchema_2 (Scenario.env 0xb1 9 true)
                (Cases.update_tea None) Scenario.shop)) = calls Scenario.shop.
Proof.
  apply (no_file_no_host_call ProductSchema_2 (Scenario.env 0xb1 9 true)
           (Cases.update_tea None) Scenario.shop).
  reflexivity.
Defined.

(** *** What is stored *)

(** A record answered by a create comes from a body that the validators
    accepted. *)
Lemma post_products_created_from
  (sch : Schema) (env : Env) (req : Express.Request) (w w' : World)
  (message : string) (p : Product) :
  post_products sch env req w = (res 201 (message_json message (Some p)), w') ->
  exists b,
    Validator.validateProduct (Express.body req) = ([], b) /\
    itemName p = option_map trim (Express.itemName b) /\
    type p = Express.type b /\
    sellPrice p = parseFloat (Express.ToString (Express.sellPrice b)) /\
    gstPercentage p = gstPercentage_of (Express.gstEnabled b) /\
    gstAmount p = gstAmount_of (Express.gstEnabled b) (sellPrice p) /\
    totalPrice p = totalPrice_of (sellPrice p) (gstAmount p) /\
    gstEnabled p = strict_eq (Express.gstEnabled b) "true".
Proof.
  unfold post_products. intros H.
  destruct (Multer.single "image" req) as [err|file]; [discriminate|].
  destruct (Validator.validateProduct (Express.body req)) as [[|e errors] b] eqn:Hb;
    [|discriminate].
  apply handle_inl in H. unfold create in H.
  apply bind_inl in H. destruct H as (url & w1 & _ & H).
  apply bind_inl in H. destruct H as (q & w2 & Hs & H).
  unfold ret in H. injection H as _ Hq Hw. subst q w2.
  unfold save_new, bind, get_db, set_db, throw, ret in Hs.
  destruct (validate sch _) eqn:Hv; [|discriminate].
  destruct (existsb _ (db w1)); [discriminate|].
  destruct (barcode_path sch && _); [discriminate|].
  injection Hs as <- _. exists b. split; [reflexivity|].
  destruct (validateProduct_accepts _ b Hb) as (_ & _ & (ty & Hty & _) & _).
  cbn. rewrite Hty. repeat split.
Qed.

(** A record answered by an update comes from a body that the validators
    accepted. *)
Lemma put_products_updated_from
  (sch : Schema) (env : Env) (req : Express.Request) (w w' : World)
  (message : string) (p : Product) :
  put_products sch env req w = (res 200 (message_json message (Some p)), w') ->
  exists b,
    Validator.validateProduct (Express.body req) = ([], b) /\
    type p = Express.type b /\
    sellPrice p = parseFloat (Express.ToString (Express.sellPrice b)) /\
    gstPercentage p = gstPercentage_of (Express.gstEnabled b) /\
    gstAmount p = gstAmount_of (Express.gstEnabled b) (sellPrice p) /\
    totalPrice p = totalPrice_of (sellPrice p) (gstAmount p) /\
    gstEnabled p = strict_eq (Express.gstEnabled b) "true".
Proof.
  unfold put_products. intros H.
  destruct (Multer.single "image" req) as [err|file]; [discriminate|].
  destruct (Validator.validateProduct (Express.body req)) as [[|e errors] b] eqn:Hb;
    [|discriminate].
  apply handle_inl in H. unfold update in H.
  apply bind_inl in H. destruct H as (found & w0 & Hf & H).
  apply findById_inl in Hf. destruct Hf as (i & _ & -> & ->).
  destruct (find (same_id i) (db w)) as [old|]; [|discriminate].
  apply bind_inl in H. destruct H as (imageUrl & w1 & _ & H).
  apply bind_inl in H. destruct H as (up & w2 & Hsave & H).
  unfold ret in H. injection H as _ Hup Hw. subst up w2.
  unfold save, bind, get_db, set_db, throw, ret in Hsave.
  destruct (validate sch _) as [|? ?]; [|discriminate].
  injection Hsave as <- _. exists b. split; [reflexivity|]. cbn. repeat split.
Qed.

(** X15. Whatever the schema, the record that a successful create or
    update answers with has a type among [Veg] and [Non-Veg], and a price,
    a GST percentage, a GST amount and a total that are numbers not below
    zero: none is NaN or negative. *)
Theorem stored_amounts_nonneg
  (sch : Schema) (env : Env) (req : Express.Request) (w w' : World)
  (message : string) (p : Product) :
  post_products sch env req w = (res 201 (message_json message (Some p)), w') \/
  put_products sch env req w = (res 200 (message_json message (Some p)), w') ->
  amounts_nonneg p /\ (type p = Some "Veg" \/ type p = Some "Non-Veg").
Proof.
  intros H.
  assert (Hb : exists b,
             Validator.validateProduct (Express.body req) = ([], b) /\
             type p = Express.type b /\
             sellPrice p = parseFloat (Express.ToString (Express.sellPrice b)) /\
             gstPercentage p = gstPercentage_of (Express.gstEnabled b) /\
             gstAmount p = gstAmount_of (Express.gstEnabled b) (sellPrice p) /\
             totalPrice p = totalPrice_of (sellPrice p) (gstAmount p)).
  { destruct H as [H|H].
    - apply post_products_created_from in H.
      destruct H as (b & Hb & _ & H0 & H1 & H2 & H3 & H4 & _). exists b. auto 10.
    - apply put_products_updated_from in H.
      destruct H as (b & Hb & H0 & H1 & H2 & H3 & H4 & _). exists b. auto 10. }
  destruct Hb as (b & Hb & Hty & H1 & H2 & H3 & H4).
  destruct (validateProduct_accepts _ b Hb)
    as (_ & (price & Hp & Hn) & (ty & Hty' & Hin) & _).
  rewrite Hp in H1. cbn in H1.
  destruct (amounts_of_nonneg (Express.gstEnabled b) (parseFloat price) Hn)
    as (N2 & N3 & N4).
  unfold amounts_nonneg. rewrite H4, H3, H2, H1, Hty, Hty'.
  repeat split; try assumption.
  now destruct Hin as [-> | ->]; [left | right].
Qed.

Lemma stored_amounts_nonneg_witness :
  amounts_nonneg (Records.tea 0xb1 9) /\
  (type (Records.tea 0xb1 9) = Some "Veg" \/ type (Records.tea 0xb1 9) = Some "Non-Veg").
Proof.
  apply (stored_amounts_nonneg ProductSchema_2 (Scenario.env 0xb1 9 true)
           (Scenario.tea "Veg") Scenario.empty (Records.world [Records.tea 0xb1 9])
           "Product created successfully" (Records.tea 0xb1 9)).
  left. vm_compute. reflexivity.
Defined.

(** X16. Whatever the schema, the item name of a record that a create
    answers with is the item name of the body without the white space
    around it: it is not empty and trimming it again changes nothing. *)
Theorem created_name_is_trimmed
  (sch : Schema) (env : Env) (req : Express.Request) (w w' : World)
  (message : string) (p : Product) :
  post_products sch env req w = (res 201 (message_json message (Some p)), w') ->
  exists name,
    itemName p = Some name /\
    name = trim (Validator.toString (Express.itemName (Express.body req))) /\
    name <> "" /\ trim name = name.
Proof.
  intros H. apply post_products_created_from in H.
  destruct H as (b & Hb & Hname & _).
  destruct (validateProduct_accepts _ b Hb) as ((c & r & Hn & Htrim) & _).
  exists (String c r). rewrite Hname, Hn. cbn [option_map].
  rewrite Htrim, trim_idempotent. repeat split.
  rewrite <- Htrim. discriminate.
Qed.

Lemma created_name_is_trimmed_witness :
  exists name,
    itemName (Records.tea 0xb1 9) = Some name /\
    name = trim (Validator.toString
                   (Express.itemName
                      (Scenario.form (Some "  Tea ") (Some "20") (Some "Veg") (Some "true")))) /\
    name <> "" /\ trim name = name.
Proof.
  apply (created_name_is_trimmed ProductSchema_2 (Scenario.env 0xb1 9 true)
           (Scenario.request ""
              (Scenario.form (Some "  Tea ") (Some "20") (Some "Veg") (Some "true")) None)
           Scenario.empty (Records.world [Records.tea 0xb1 9])
           "Product created successfully" (Records.tea 0xb1 9)).
  vm_compute. reflexivity.
Defined.

(** *** The public id of an asset, the data URI of a file *)

Lemma split_nonempty (sep : ascii) (s : string) :
  exists h t, Cloudinary.split sep s = h :: t.
Proof.
  induction s as [|c s (h & t & IH)]; simpl; [eauto|].
  rewrite IH. destruct (Ascii.eqb c sep); eauto.
Qed.

Lemma split_without (sep : ascii) (s : string) :
  without sep s = true -> Cloudinary.split sep s = [s].
Proof.
  induction s as [|c s IH]; simpl; [reflexivity|].
  intros H. apply andb_true_iff in H. destruct H as [Hc Hs].
  rewrite (IH Hs). apply negb_true_iff in Hc. now rewrite Hc.
Qed.

(** The last segment of a path. *)
Lemma split_last (sep : ascii) (dir seg : string) :
  without sep seg = true ->
  exists h t, Cloudinary.split sep (dir ++ String sep seg) = h :: t /\
              t <> [] /\ last t "" = seg.
Proof.
  intros Hs. induction dir as [|c dir (h & t & IH & Ht & Hl)]; simpl.
  - rewrite (split_without sep seg Hs), Ascii.eqb_refl.
    exists "", [seg]. repeat split. discriminate.
  - rewrite IH. destruct (Ascii.eqb c sep).
    + exists "", (h :: t). repeat split; [discriminate|].
      destruct t; [now elim Ht | exact Hl].
    + exists (String c h), t. repeat split; assumption.
Qed.

(** What comes before the first separator. *)
Lemma split_head (sep : ascii) (name rest : string) :
  without sep name = true ->
  hd "" (Cloudinary.split sep (name ++ String sep rest)) = name.
Proof.
  induction name as [|c name IH]; simpl.
  - intros _. rewrite Ascii.eqb_refl.
    now destruct (split_nonempty sep rest) as (h & t & ->).
  - intros H. apply andb_true_iff in H. destruct H as [Hc Hn].
    apply negb_true_iff in Hc. rewrite Hc. specialize (IH Hn).
    destruct (split_nonempty sep (name ++ String sep rest)) as (h & t & E).
    rewrite E in *. simpl in *. now rewrite IH.
Qed.

Lemma without_app (c : ascii) (a b : string) :
  without c (a ++ b) = without c a && without c b.
Proof.
  induction a as [|d a IH]; simpl; [reflexivity|]. now rewrite IH, andb_assoc.
Qed.

(** X19. For the URL of an asset whose last segment is [name.ext], the
    public id that the update and delete handlers derive is [name]: what
    comes after the last slash and before the first dot that follows it.
    (So a name that itself holds a dot is cut at that dot.) *)
Theorem publicId_of_url (dir name ext : string) :
  without "/" name = true ->
  without "." name = true ->
  without "/" ext = true ->
  Cloudinary.publicId (dir ++ "/" ++ name ++ "." ++ ext) = name.
Proof.
  intros H1 H2 H3. unfold Cloudinary.publicId.
  assert (Hseg : without "/" (name ++ "." ++ ext) = true).
  { rewrite without_app, H1. simpl. exact H3. }
  destruct (split_last "/" dir (name ++ "." ++ ext) Hseg) as (h & t & E & Ht & Hl).
  change (dir ++ "/" ++ name ++ "." ++ ext)%string
    with (dir ++ String "/" (name ++ "." ++ ext))%string.
  rewrite E.
  assert (Hlast : last (h :: t) "" = (name ++ "." ++ ext)%string).
  { destruct t; [now elim Ht | exact Hl]. }
  rewrite Hlast. now apply split_head.
Qed.

Lemma publicId_of_url_witness :
  Cloudinary.publicId
    ("https://res.cloudinary.com/demo/image/upload/v1/products" ++ "/" ++ "my" ++ "."
     ++ "photo.png") = "my".
Proof.
  apply (publicId_of_url "https://res.cloudinary.com/demo/image/upload/v1/products"
           "my" "photo.png"); reflexivity.
Defined.

Lemma without_hd_split (c sep : ascii) (s : string) :
  without c s = true -> without c (hd "" (Cloudinary.split sep s)) = true.
Proof.
  induction s as [|d s IH]; simpl; [reflexivity|].
  intros H. apply andb_true_iff in H. destruct H as [Hd Hs]. specialize (IH Hs).
  destruct (split_nonempty sep s) as (h & t & E). rewrite E in *. simpl in IH.
  destruct (Ascii.eqb d sep); simpl; [reflexivity | now rewrite Hd, IH].
Qed.

Lemma without_split (sep : ascii) (s : string) :
  Forall (fun x => without sep x = true) (Cloudinary.split sep s).
Proof.
  induction s as [|d s IH]; simpl; [repeat constructor|].
  destruct (split_nonempty sep s) as (h & t & E). rewrite E in *.
  inversion IH as [|? ? Hh Ht]; subst.
  destruct (Ascii.eqb d sep) eqn:Ed.
  - constructor; [reflexivity | now constructor].
  - constructor; [|exact Ht]. simpl. now rewrite Ed, Hh.
Qed.

Lemma Forall_last {A} (P : A -> Prop) (l : list A) (d : A) :
  Forall P l -> P d -> P (last l d).
Proof.
  induction 1 as [|a l Ha Hl IH]; simpl; [auto|].
  intros Hd. destruct l; [exact Ha | now apply IH].
Qed.

(** X20. The public id derived from any URL holds no slash and no dot, so
    the asset that is asked to be removed is always directly in the
    folder [products]. *)
Theorem publicId_has_no_separator (url : string) :
  without "/" (Cloudinary.publicId url) = true /\
  without "." (Cloudinary.publicId url) = true.
Proof.
  unfold Cloudinary.publicId. split.
  - apply without_hd_split.
    apply (Forall_last (fun x => without "/" x = true)); [apply without_split | reflexivity].
  - destruct (split_nonempty "." (last (Cloudinary.split "/" url) "")) as (h & t & E).
    pose proof (without_split "." (last (Cloudinary.split "/" url) "")) as H.
    rewrite E in *. now inversion H.
Qed.

Lemma get_in_range (s : string) (k : nat) :
  (k < String.length s)%nat -> exists c, String.get k s = Some c.
Proof.
  revert k. induction s as [|c s IH]; simpl; intros k Hk; [lia|].
  destruct k as [|k]; [eauto|]. apply IH. lia.
Qed.

Lemma base64_char_length (n : N) :
  (n < 64)%N -> String.length (Cloudinary.base64_char n) = 1%nat.
Proof.
  intros H. unfold Cloudinary.base64_char.
  destruct (get_in_range Cloudinary.base64_alphabet (N.to_nat n)) as (c & ->);
    [|reflexivity].
  change (String.length Cloudinary.base64_alphabet) with 64%nat. lia.
Qed.

Lemma length_app_string (a b : string) :
  String.length (a ++ b) = (String.length a + String.length b)%nat.
Proof. induction a as [|c a IH]; simpl; [reflexivity | now rewrite IH]. Qed.

Lemma base64_length_upto (n : nat) (bytes : list Byte.byte) :
  (List.length bytes <= n)%nat ->
  String.length (Cloudinary.base64 bytes) = (4 * ((List.length bytes + 2) / 3))%nat.
Proof.
  revert bytes. induction n as [|n IH]; intros bytes Hn.
  { destruct bytes; [reflexivity | simpl in Hn; lia]. }
  destruct bytes as [|a [|b [|c rest]]].
  - reflexivity.
  - pose proof (Byte.to_N_bounded a) as Ha.
    cbn [Cloudinary.base64 List.length]. rewrite !length_app_string.
    rewrite !base64_char_length; [reflexivity | |].
    + assert (Byte.to_N a mod 4 < 4)%N by (apply N.mod_lt; lia). lia.
    + apply N.Div0.div_lt_upper_bound. lia.
  - pose proof (Byte.to_N_bounded a) as Ha. pose proof (Byte.to_N_bounded b) as Hb.
    cbn [Cloudinary.base64 List.length]. rewrite !length_app_string.
    assert (Byte.to_N a mod 4 < 4)%N by (apply N.mod_lt; lia).
    assert (Byte.to_N b mod 16 < 16)%N by (apply N.mod_lt; lia).
    assert (Byte.to_N b / 16 < 16)%N by (apply N.Div0.div_lt_upper_bound; lia).
    rewrite !base64_char_length; [reflexivity | lia | lia |].
    apply N.Div0.div_lt_upper_bound. lia.
  - pose proof (Byte.to_N_bounded a) as Ha. pose proof (Byte.to_N_bounded b) as Hb.
    pose proof (Byte.to_N_bounded c) as Hc.
    cbn [Cloudinary.base64 List.length]. rewrite !length_app_string.
    assert (Byte.to_N a mod 4 < 4)%N by (apply N.mod_lt; lia).
    assert (Byte.to_N b mod 16 < 16)%N by (apply N.mod_lt; lia).
    assert (Byte.to_N b / 16 < 16)%N by (apply N.Div0.div_lt_upper_bound; lia).
    assert (Byte.to_N c / 64 < 4)%N by (apply N.Div0.div_lt_upper_bound; lia).
    assert (Byte.to_N c mod 64 < 64)%N by (apply N.mod_lt; lia).
    rewrite !base64_char_length; try lia;
      [|apply N.Div0.div_lt_upper_bound; lia].
    cbn [List.length] in Hn.
    rewrite (IH rest) by lia.
    replace (S (S (S (List.length rest))) + 2)%nat
      with (1 * 3 + (List.length rest + 2))%nat by lia.
    rewrite Nat.div_add_l by lia. lia.
Qed.

(** X21. The base64 text that [uploadToCloudinary] makes of a buffer has
    four characters for every three bytes, the last group being padded:
    its length is [4 * ceil (n / 3)] for [n] bytes. *)
Theorem base64_length (bytes : list Byte.byte) :
  String.length (Cloudinary.base64 bytes) = (4 * ((List.length bytes + 2) / 3))%nat.
Proof. now apply (base64_length_upto (List.length bytes)). Qed.

(** *** The upload helper, the GST flag, the two schemas *)

(** X18. [uploadToCloudinary] never touches the collection. Without a
    file it returns [null] and does nothing; with a file it calls the asset
    host once, and returns the URL that the host answers or throws [Image
    upload failed], whatever the error of the host was. *)
Theorem uploadToCloudinary_contract
  (env : Env) (file : option Express.File) (w : World) :
  db (snd (uploadToCloudinary env file w)) = db w /\
  calls (snd (uploadToCloudinary env file w)) = (calls w ++ upload_calls file)%list /\
  (file = None -> uploadToCloudinary env file w = (inl None, w)) /\
  (fst (uploadToCloudinary env file w) = inr (Error "Image upload failed") \/
   fst (uploadToCloudinary env file w) = inl (uploaded env file)).
Proof.
  destruct file as [f|].
  - destruct (Effect.uploader_upload env (dataURI f)) as [u|e] eqn:Hu.
    + rewrite (uploadToCloudinary_succeeds env f u w Hu).
      cbn [fst snd db calls upload_calls uploaded].
      rewrite Hu. repeat split; [discriminate | now right].
    + rewrite (uploadToCloudinary_fails env f e w Hu).
      cbn [fst snd db calls upload_calls uploaded].
      repeat split; [discriminate | now left].
  - cbn [uploadToCloudinary ret fst snd upload_calls uploaded].
    rewrite app_nil_r. repeat split. now right.
Qed.

Lemma validateProduct_gstEnabled (b b' : Express.Body) (errors : list Validator.FieldError) :
  Validator.validateProduct b = (errors, b') ->
  Express.gstEnabled b' = Express.gstEnabled b.
Proof. unfold Validator.validateProduct. intros H. now injection H as _ <-. Qed.

(** The derived fields, from the lemmas on the answered records. *)
Lemma derived_fields_after_create_and_update_of
  (sch : Schema) (env : Env) (req : Express.Request) (w w' : World)
  (message : string) (p : Product) :
  post_products sch env req w = (res 201 (message_json message (Some p)), w') \/
  put_products sch env req w = (res 200 (message_json message (Some p)), w') ->
  gstPercentage p = (if gstEnabled p then of_Z 5 else of_Z 0) /\
  gstAmount p = (if gstEnabled p then round2 (mul (sellPrice p) lit_0_05) else of_Z 0) /\
  totalPrice p = round2 (add (sellPrice p) (gstAmount p)).
Proof.
  intros [H|H].
  - apply post_products_created in H.
    destruct H as (g & price & He & Hp & H1 & H2 & H3 & _).
    now apply (derived_fields_of p g price).
  - apply put_products_updated in H.
    destruct H as (g & price & old & He & Hp & H1 & H2 & H3 & _).
    now apply (derived_fields_of p g price).
Qed.

(** X17. GST is charged only when the form field [gstEnabled] is exactly
    the string [true]: the record that a successful create or update
    answers with has the flag set if and only if the body has that very
    string, and with any other value, or none, its GST percentage and amount
    are zero. *)
Theorem gst_only_for_true
  (sch : Schema) (env : Env) (req : Express.Request) (w w' : World)
  (message : string) (p : Product) :
  post_products sch env req w = (res 201 (message_json message (Some p)), w') \/
  put_products sch env req w = (res 200 (message_json message (Some p)), w') ->
  (gstEnabled p = true <-> Express.gstEnabled (Express.body req) = Some "true") /\
  (Express.gstEnabled (Express.body req) <> Some "true" ->
   gstPercentage p = of_Z 0 /\ gstAmount p = of_Z 0).
Proof.
  intros H.
  pose proof (derived_fields_after_create_and_update_of sch env req w w' message p H)
    as Hd.
  assert (Hb : exists b,
             Validator.validateProduct (Express.body req) = ([], b) /\
             gstPercentage p = gstPercentage_of (Express.gstEnabled b)).
  { destruct H as [H|H].
    - apply post_products_created_from in H.
      destruct H as (b & Hb & _ & _ & _ & H & _). eauto.
    - apply put_products_updated_from in H.
      destruct H as (b & Hb & _ & _ & H & _). eauto. }
  destruct Hb as (b & Hb & Hpct).
  rewrite (validateProduct_gstEnabled _ _ _ Hb) in Hpct.
  destruct Hd as (D1 & D2 & _).
  assert (Hflag : gstEnabled p = strict_eq (Express.gstEnabled (Express.body req)) "true").
  { rewrite D1 in Hpct. unfold gstPercentage_of in Hpct.
    destruct (gstEnabled p), (strict_eq _ "true"); try reflexivity; discriminate Hpct. }
  assert (Hiff : gstEnabled p = true
                 <-> Express.gstEnabled (Express.body req) = Some "true").
  { rewrite Hflag. unfold strict_eq.
    destruct (Express.gstEnabled (Express.body req)) as [g|]; [|split; discriminate].
    rewrite String.eqb_eq. split; [now intros -> | now intros [= ->]]. }
  split; [exact Hiff|].
  intros Hne. destruct (gstEnabled p) eqn:E.
  - elim Hne. now apply Hiff.
  - now rewrite D1, D2.
Qed.

Lemma gst_only_for_true_witness :
  (gstEnabled (Records.tea 0xb1 9) = true
   <-> Express.gstEnabled (Express.body (Scenario.tea "Veg")) = Some "true") /\
  (Express.gstEnabled (Express.body (Scenario.tea "Veg")) <> Some "true" ->
   gstPercentage (Records.tea 0xb1 9) = of_Z 0 /\ gstAmount (Records.tea 0xb1 9) = of_Z 0).
Proof.
  apply (gst_only_for_true ProductSchema_2 (Scenario.env 0xb1 9 true)
           (Scenario.tea "Veg") Scenario.empty (Records.world [Records.tea 0xb1 9])
           "Product created successfully" (Records.tea 0xb1 9)).
  left. vm_compute. reflexivity.
Defined.

(** X22. The second schema is the weaker one: a record that the first
    schema accepts is accepted by the second. (Not the other way round: the
    second accepts the type [Beverage] and amounts below zero.) *)
Theorem second_schema_is_weaker (p : Product) :
  validate ProductSchema_1 p = [] -> validate ProductSchema_2 p = [].
Proof.
  unfold validate, check_number, check_enum. cbn [ProductSchema_1 ProductSchema_2
    type_enum sellPrice_min totalPrice_min primaryUnit_enum existsb].
  intros H.
  apply app_eq_nil in H. destruct H as [H1 H].
  apply app_eq_nil in H. destruct H as [H2 H].
  apply app_eq_nil in H. destruct H as [H3 H].
  apply app_eq_nil in H. destruct H as [H4 H].
  apply app_eq_nil in H. destruct H as [H5 H].
  apply app_eq_nil in H. destruct H as [H6 _].
  rewrite H1, H4, H5. cbn [app].
  assert (E2 : match type p with
               | Some t =>
                   if ((t =? "Veg") || ((t =? "Non-Veg") || ((t =? "Beverage") || false)))%string
                   then [] else ["type"]
               | None => []
               end = []).
  { destruct (type p) as [t|]; [|reflexivity].
    destruct (t =? "Veg")%string; [reflexivity|].
    destruct (t =? "Non-Veg")%string; [reflexivity | discriminate H2]. }
  rewrite E2. cbn [app].
  destruct (is_nan (sellPrice p)); [discriminate H3|].
  destruct (is_nan (totalPrice p)); [discriminate H6|].
  now destruct (primaryUnit p).
Qed.

Lemma second_schema_is_weaker_witness : validate ProductSchema_2 Cases.milk = [].
Proof. apply (second_schema_is_weaker Cases.milk). reflexivity. Defined.

(** A record that only the second schema accepts. *)
Example second_schema_only :
  validate ProductSchema_2
    {| _id := Scenario.oid 3; itemName := Some "Tea"; sellPrice := of_Z (-1); type := Some "Beverage";
       primaryUnit := Some "litre"; customUnit := None; gstEnabled := false;
       gstPercentage := of_Z 0; gstAmount := of_Z 0; totalPrice := of_Z (-1);
       barcode := None; image := None; createdAt := 3; updatedAt := None |} = [] /\
  validate ProductSchema_1
    {| _id := Scenario.oid 3; itemName := Some "Tea"; sellPrice := of_Z (-1); type := Some "Beverage";
       primaryUnit := Some "litre"; customUnit := None; gstEnabled := false;
       gstPercentage := of_Z 0; gstAmount := of_Z 0; totalPrice := of_Z (-1);
       barcode := None; image := None; createdAt := 3; updatedAt := None |}
  = ["type"; "sellPrice"; "totalPrice"; "primaryUnit"].
Proof. repeat split. Qed.

(** *** Rounding, on an instance *)

Lemma round2_hundredths_witness :
  round2 (parseFloat "1.005") = of_decimal false 100 (-2).
Proof.
  apply (round2_hundredths (parseFloat "1.005") false 100). vm_compute. reflexivity.
Defined.

(** *** Listing, and what follows a delete *)

(** X24. In any world, [GET /products] answers 200 with a list that holds
    exactly the stored records, each as often as it is stored, newest
    first, and changes nothing. *)
Theorem list_is_sorted_collection (w : World) :
  exists l,
    get_products w = (res 200 (products_json l), w) /\
    Permutation (db w) l /\
    Sorted newer_or_same l.
Proof.
  exists (sort_createdAt_desc (db w)). split; [reflexivity|]. split.
  - apply sort_createdAt_desc_perm.
  - apply sort_createdAt_desc_sorted.
Qed.

(** X25. After a successful create, the list of [GET /products] holds the
    new record and every record that was stored before. *)
Theorem created_record_is_listed
  (sch : Schema) (env : Env) (req : Express.Request) (w w' : World)
  (message : string) (p : Product) :
  post_products sch env req w = (res 201 (message_json message (Some p)), w') ->
  exists l,
    fst (get_products w') = res 200 (products_json l) /\
    In p l /\ (forall q, In q (db w) -> In q l).
Proof.
  intros H. apply post_products_created in H.
  destruct H as (g & price & _ & _ & _ & _ & _ & _ & _ & _ & Hdb).
  exists (sort_createdAt_desc (db w')). split; [reflexivity|].
  pose proof (sort_createdAt_desc_perm (db w')) as Hperm.
  split; [apply (Permutation_in _ Hperm); rewrite Hdb | intros q Hq; apply (Permutation_in _ Hperm); rewrite Hdb].
  - apply in_or_app. right. now left.
  - apply in_or_app. now left.
Qed.

Lemma created_record_is_listed_witness :
  exists l,
    fst (get_products (Records.world [Records.tea 1 1; Records.tea 2 2]))
    = res 200 (products_json l) /\
    In (Records.tea 2 2) l /\
    (forall q, In q (db (Records.world [Records.tea 1 1])) -> In q l).
Proof.
  apply (created_record_is_listed ProductSchema_2 (Scenario.env 2 2 true)
           (Scenario.tea "Veg") (Records.world [Records.tea 1 1])
           (Records.world [Records.tea 1 1; Records.tea 2 2])
           "Product created successfully" (Records.tea 2 2)).
  vm_compute. reflexivity.
Defined.

(** X26. Once a record is deleted from a collection with distinct
    identifiers, its id is unknown to the routes: a second delete and a
    valid update of that id are both answered 404 and change nothing. *)
Theorem deleted_record_is_gone
  (sch : Schema) (env env' : Env) (req req' : Express.Request) (w w' : World)
  (message : string) (p : option Product) (file : option Express.File) :
  unique_ids w ->
  delete_products env req w = (res 200 (message_json message p), w') ->
  Express.params_id req' = Express.params_id req ->
  Multer.single "image" req' = inr file ->
  fst (Validator.validateProduct (Express.body req')) = [] ->
  delete_products env' req' w' = (res 404 (error_json "Product not found"), w') /\
  put_products sch env' req' w' = (res 404 (error_json "Product not found"), w').
Proof.
  intros Hu Hd Hid Hf Hv.
  assert (Hgone : exists i, castObjectId (Express.params_id req') = Some i /\
                            find (same_id i) (db w') = None).
  { rewrite Hid. destruct (castObjectId (Express.params_id req)) as [i|] eqn:Hc.
    - exists i. split; [reflexivity|].
      destruct (find (same_id i) (db w)) as [q|] eqn:Hq.
      + assert (Hs : stored (Express.params_id req) w = Some q)
          by now rewrite (stored_of_cast _ i w Hc).
        destruct (delete_runs env req w q Hs) as (w2 & E & Hdb & _).
        rewrite E in Hd. injection Hd as _ _ <-.
        rewrite Hdb, (find_same_id i _ _ Hq). now apply find_remove_first_same.
      + rewrite (delete_absent_id_not_found_of_find env req w i Hc Hq) in Hd.
        discriminate Hd.
    - rewrite (delete_cast_fails env req w Hc) in Hd. discriminate Hd. }
  destruct Hgone as (i & Hc & Hgone).
  split.
  - now apply (delete_absent_id_not_found_of_find env' req' w' i).
  - destruct (Validator.validateProduct (Express.body req')) as [errors b] eqn:Hb.
    simpl in Hv. subst errors.
    unfold put_products. rewrite Hf, Hb.
    unfold handle, update, bind. now rewrite (findById_run _ i w' Hc), Hgone.
Qed.

Lemma deleted_record_is_gone_witness :
  delete_products (Scenario.env 0xb1 9 true) (Cases.update_tea None)
    {| db := []; calls := [destroy_of Scenario.old_url]; console := [] |}
  = (res 404 (error_json "Product not found"),
     {| db := []; calls := [destroy_of Scenario.old_url]; console := [] |}) /\
  put_products ProductSchema_2 (Scenario.env 0xb1 9 true) (Cases.update_tea None)
    {| db := []; calls := [destroy_of Scenario.old_url]; console := [] |}
  = (res 404 (error_json "Product not found"),
     {| db := []; calls := [destroy_of Scenario.old_url]; console := [] |}).
Proof.
  apply (deleted_record_is_gone ProductSchema_2 (Scenario.env 0xb1 9 true)
           (Scenario.env 0xb1 9 true) (Cases.update_tea None) (Cases.update_tea None)
           Scenario.shop
           {| db := []; calls := [destroy_of Scenario.old_url]; console := [] |}
           "Product deleted successfully" (Some Scenario.coffee) None).
  - repeat constructor. simpl. tauto.
  - vm_compute. reflexivity.
  - reflexivity.
  - reflexivity.
  - reflexivity.
Defined.

(* ================================================================== *)
(** ** The asset that is removed, the bytes that are sent *)
(* ================================================================== *)

Lemma after_last_without (c : ascii) (s : string) :
  without c s = true -> after_last c s = s.
Proof.
  destruct s as [|d s]; [reflexivity|]. cbn [without after_last].
  intros H. apply andb_true_iff in H. destruct H as [Hd Hs].
  apply negb_true_iff in Hd. now rewrite Hs, Hd.
Qed.

Lemma split_one (sep : ascii) (s h : string) :
  Cloudinary.split sep s = [h] -> without sep s = true.
Proof.
  revert h. induction s as [|d s IH]; intros h; [reflexivity|].
  cbn [Cloudinary.split without].
  destruct (split_nonempty sep s) as (h' & t' & E). rewrite E.
  destruct (Ascii.eqb d sep); [discriminate|].
  intros H. injection H as _ ->. now rewrite (IH h' E).
Qed.

(** The last segment of [split] is what comes after the last separator. *)
Lemma last_split (sep : ascii) (s : string) :
  last (Cloudinary.split sep s) "" = after_last sep s.
Proof.
  induction s as [|d s IH]; [reflexivity|].
  cbn [Cloudinary.split after_last].
  destruct (split_nonempty sep s) as (h & t & E). rewrite E in *.
  destruct (without sep s) eqn:Hw.
  - rewrite (split_without sep s Hw) in E. injection E as <- <-.
    destruct (Ascii.eqb d sep); reflexivity.
  - assert (Ht : t <> []).
    { intros ->. apply split_one in E. congruence. }
    destruct (Ascii.eqb d sep); [exact IH|].
    rewrite <- IH. destruct t; [now elim Ht | reflexivity].
Qed.

(** The first segment of [split] is what comes before the first
    separator. *)
Lemma hd_split (sep : ascii) (s : string) :
  hd "" (Cloudinary.split sep s) = before_first sep s.
Proof.
  induction s as [|d s IH]; [reflexivity|].
  cbn [Cloudinary.split before_first].
  destruct (split_nonempty sep s) as (h & t & E). rewrite E in *.
  destruct (Ascii.eqb d sep); [reflexivity|]. cbn [hd] in *. now rewrite IH.
Qed.

(** The public id that the handlers derive from a URL is the name that the
    URL gives to its asset. *)
Lemma publicId_asset_name (url : string) : Cloudinary.publicId url = asset_name url.
Proof.
  unfold Cloudinary.publicId, asset_name. now rewrite last_split, hd_split.
Qed.

(** Each of the 64 characters of the alphabet has its value, and none is
    the padding character. *)
Lemma base64_alphabet_values (k : nat) :
  (k < 64)%nat ->
  exists ch,
    String.get k Cloudinary.base64_alphabet = Some ch /\
    base64_value ch = Some (N.of_nat k) /\
    Ascii.eqb ch "=" = false.
Proof.
  intros Hk.
  do 64 (destruct k as [|k]; [eexists; repeat split; reflexivity|]).
  lia.
Qed.

Lemma base64_char_value (n : N) :
  (n < 64)%N ->
  exists ch,
    Cloudinary.base64_char n = String ch "" /\
    base64_value ch = Some n /\
    Ascii.eqb ch "=" = false.
Proof.
  intros Hn.
  destruct (base64_alphabet_values (N.to_nat n)) as (ch & Hg & Hv & Hp); [lia|].
  exists ch. unfold Cloudinary.base64_char. rewrite Hg, Hv, Nnat.N2Nat.id. auto.
Qed.

Lemma base64_sextets (x y z : N) :
  (x < 256)%N -> (y < 256)%N -> (z < 256)%N ->
  (x / 4 < 64 /\ x mod 4 * 16 < 64 /\ x mod 4 * 16 + y / 16 < 64 /\
   y mod 16 * 4 < 64 /\ y mod 16 * 4 + z / 64 < 64 /\ z mod 64 < 64)%N.
Proof.
  intros Hx Hy Hz. repeat split; zify; Z.to_euclidean_division_equations; lia.
Qed.

(** The bytes of a group, from its sextets. *)
Lemma base64_bytes (x y z : N) :
  (y < 256)%N -> (z < 256)%N ->
  (x / 4 * 4 + (x mod 4 * 16 + y / 16) / 16 = x /\
   x / 4 * 4 + (x mod 4 * 16) / 16 = x /\
   (x mod 4 * 16 + y / 16) mod 16 * 16 + (y mod 16 * 4 + z / 64) / 4 = y /\
   (x mod 4 * 16 + y / 16) mod 16 * 16 + (y mod 16 * 4) / 4 = y /\
   (y mod 16 * 4 + z / 64) mod 4 * 64 + z mod 64 = z)%N.
Proof.
  intros Hy Hz. repeat split; zify; Z.to_euclidean_division_equations; lia.
Qed.

Lemma base64_decode_base64_upto (n : nat) (bytes : list Byte.byte) :
  (List.length bytes <= n)%nat ->
  base64_decode (Cloudinary.base64 bytes) = Some bytes.
Proof.
  revert bytes. induction n as [|n IH]; intros bytes Hn.
  { destruct bytes; [reflexivity | simpl in Hn; lia]. }
  destruct bytes as [|a [|b [|c rest]]]; [reflexivity | | |];
    pose proof (Byte.to_N_bounded a) as Ha.
  - destruct (base64_sextets (Byte.to_N a) 0 0) as (S1 & S2 & _); [lia..|].
    destruct (base64_bytes (Byte.to_N a) 0 0) as (_ & B1 & _); [lia..|].
    destruct (base64_char_value _ S1) as (c1 & E1 & V1 & P1).
    destruct (base64_char_value _ S2) as (c2 & E2 & V2 & P2).
    cbn [Cloudinary.base64]. rewrite E1, E2. cbn [append base64_decode].
    rewrite V1, V2, B1, Byte.of_to_N. reflexivity.
  - pose proof (Byte.to_N_bounded b) as Hb.
    destruct (base64_sextets (Byte.to_N a) (Byte.to_N b) 0) as (S1 & _ & S2 & S3 & _);
      [lia..|].
    destruct (base64_bytes (Byte.to_N a) (Byte.to_N b) 0) as (B1 & _ & _ & B2 & _);
      [lia..|].
    destruct (base64_char_value _ S1) as (c1 & E1 & V1 & P1).
    destruct (base64_char_value _ S2) as (c2 & E2 & V2 & P2).
    destruct (base64_char_value _ S3) as (c3 & E3 & V3 & P3).
    cbn [Cloudinary.base64]. rewrite E1, E2, E3. cbn [append base64_decode].
    rewrite V1, V2, B1, Byte.of_to_N, P3, V3, B2, Byte.of_to_N. reflexivity.
  - pose proof (Byte.to_N_bounded b) as Hb. pose proof (Byte.to_N_bounded c) as Hc.
    destruct (base64_sextets (Byte.to_N a) (Byte.to_N b) (Byte.to_N c))
      as (S1 & _ & S2 & _ & S3 & S4); [lia..|].
    destruct (base64_bytes (Byte.to_N a) (Byte.to_N b) (Byte.to_N c))
      as (B1 & _ & B2 & _ & B3); [lia..|].
    destruct (base64_char_value _ S1) as (c1 & E1 & V1 & P1).
    destruct (base64_char_value _ S2) as (c2 & E2 & V2 & P2).
    destruct (base64_char_value _ S3) as (c3 & E3 & V3 & P3).
    destruct (base64_char_value _ S4) as (c4 & E4 & V4 & P4).
    cbn [Cloudinary.base64]. rewrite E1, E2, E3, E4. cbn [append base64_decode].
    rewrite V1, V2, B1, Byte.of_to_N, P3, V3, B2, Byte.of_to_N, P4, V4.
    rewrite (IH rest) by (cbn [List.length] in Hn; lia).
    rewrite B3, Byte.of_to_N. reflexivity.
Qed.

(** The base64 text of a buffer stands for the bytes of the buffer. *)
Lemma base64_decode_base64 (bytes : list Byte.byte) :
  base64_decode (Cloudinary.base64 bytes) = Some bytes.
Proof. now apply (base64_decode_base64_upto (List.length bytes)). Qed.

(* ================================================================== *)
(** ** C5: an update with a new image *)
(* ================================================================== *)

(** C5, as stated, fails under the schema that does not declare [image]:
    the update of a stored record with a file that the asset host accepts
    is answered 200 and the file is uploaded, but the record that is
    answered and stored has no image. *)
Lemma update_with_new_image_not_stored :
  Effect.uploader_upload (Scenario.env 0xb1 9 true) (dataURI Scenario.png)
  = inl Scenario.new_url /\
  exists p,
    put_products ProductSchema_1 (Scenario.env 0xb1 9 true)
      (Scenario.request (Scenario.oid 2) (Express.body (Scenario.tea "Veg"))
         (Some Scenario.png))
      Cases.dairy
    = (res 200 (message_json "Product updated successfully" (Some p)),
       {| db := [p];
          calls := [Cloudinary.upload "data:image/png;base64,iVBORw==" "products"];
          console := [] |}) /\
    image p = None.
Proof.
  split; [reflexivity|]. eexists. split; [vm_compute; reflexivity | reflexivity].
Qed.

(** C5, amended. Under the schema that declares [image], the update of a
    stored record by a valid request that carries a file which the asset
    host accepts is answered 200; the answered record is the stored one and
    its [image] is the URL that the host answered. The host received, in
    this order, the removal of the old asset when the record had an image,
    that is of the asset in the folder [products] whose name is the
    trailing segment of the old URL up to its first dot, and the upload, to
    the folder [products], of a data URI with the media type of the file
    and a base64 text that stands for its bytes. The outcome of the removal
    is not assumed: the update succeeds whether the host accepts or refuses
    it. *)
Theorem update_with_new_image
  (env : Env) (req : Express.Request) (w : World) (f : Express.File)
  (old : Product) (url : string) :
  Multer.single "image" req = inr (Some f) ->
  fst (Validator.validateProduct (Express.body req)) = [] ->
  stored (Express.params_id req) w = Some old ->
  validate ProductSchema_2 old = [] ->
  Effect.uploader_upload env (dataURI f) = inl url ->
  exists p w' text,
    put_products ProductSchema_2 env req w
    = (res 200 (message_json "Product updated successfully" (Some p)), w') /\
    stored (Express.params_id req) w' = Some p /\
    image p = Some url /\
    base64_decode text = Some (Express.buffer f) /\
    calls w'
    = (calls w
       ++ match image old with
          | Some (String c u) =>
              [Cloudinary.destroy ("products/" ++ asset_name (String c u))]
          | _ => []
          end
       ++ [Cloudinary.upload ("data:" ++ Express.mimetype f ++ ";base64," ++ text)
             "products"])%list.
Proof.
  intros Hf Hv Hold Hvalid Hu.
  assert (Hup : upload_accepted env (Some f)).
  { intros f' Hf'. injection Hf' as <-. now exists url. }
  destruct (Validator.validateProduct (Express.body req)) as [errors b] eqn:Hb.
  simpl in Hv. subst errors.
  destruct (stored_cast _ _ _ Hold) as (Hcast & Hfind).
  unfold put_products. rewrite Hf, Hb. unfold handle, update.
  rewrite (bind_run _ _ w w (Some old)) by now apply findById_stored.
  erewrite bind_run;
    [| exact (update_image_accepted env (Some f) old w Hup) ].
  erewrite bind_run;
    [| apply save_ok;
       now apply (update_saved_valid ProductSchema_2 (Express.body req) b old _
                    (or_intror eq_refl)) ].
  unfold ret. eexists. eexists. exists (Cloudinary.base64 (Express.buffer f)).
  split; [reflexivity|].
  cbn [with_updatedAt with_db db calls image _id set_image ProductSchema_2 image_path
       uploaded].
  rewrite Hu. split; [|split; [reflexivity|split]].
  - unfold stored. rewrite Hcast. cbn [db].
    apply (find_replace _ _ old); [exact Hfind | reflexivity].
  - apply base64_decode_base64.
  - unfold removal_calls, upload_calls, destroy_of, dataURI.
    destruct (image old) as [[|c u]|]; rewrite ?publicId_asset_name; reflexivity.
Qed.

Lemma update_with_new_image_witness :
  exists p w' text,
    put_products ProductSchema_2 (Scenario.env 0xb1 9 false)
      (Cases.update_tea (Some Scenario.png)) Scenario.shop
    = (res 200 (message_json "Product updated successfully" (Some p)), w') /\
    stored (Express.params_id (Cases.update_tea (Some Scenario.png))) w' = Some p /\
    image p = Some Scenario.new_url /\
    base64_decode text = Some (Express.buffer Scenario.png) /\
    calls w'
    = (calls Scenario.shop
       ++ [Cloudinary.destroy ("products/" ++ asset_name Scenario.old_url)]
       ++ [Cloudinary.upload
             ("data:" ++ Express.mimetype Scenario.png ++ ";base64," ++ text)
             "products"])%list.
Proof.
  apply (update_with_new_image (Scenario.env 0xb1 9 false)
           (Cases.update_tea (Some Scenario.png)) Scenario.shop Scenario.png
           Scenario.coffee Scenario.new_url); reflexivity.
Defined.

(* ================================================================== *)
(** ** C1: the derived fields *)
(* ================================================================== *)

(** C1 fails on the code. For the price 21.50 with GST, a successful
    create or update answers with a record whose price is exactly 21.5,
    whose [gstAmount] is 1.07 and whose [totalPrice] is 22.57, while the
    data model prescribes [round2 (21.5 * 0.05) = round2 1.075 = 1.08] and
    [round2 (21.5 + 1.08) = 22.58], whether Round2 rounds half up or to the
    even digit. The handler rounds the binary64 product, which lies below
    1.075. *)
Theorem derived_fields_fail_at_21_50
  (sch : Schema) (env : Env) (w w' : World) (message : string) (p : Product) :
  post_products sch env Cases.snack w = (res 201 (message_json message (Some p)), w') \/
  put_products sch env Cases.snack w = (res 200 (message_json message (Some p)), w') ->
  QArith_base.Qeq (exact_value (sellPrice p)) (cents 2150) /\
  gstEnabled p = true /\
  gstAmount p = of_Q (cents 107) /\
  totalPrice p = of_Q (cents 2257) /\
  (forall round2,
     round2 = Spec.Round2_half_up \/ round2 = Spec.Round2_half_even ->
     QArith_base.Qeq (Spec.gstAmount round2 (cents 2150) true) (cents 108) /\
     QArith_base.Qeq (Spec.totalPrice round2 (cents 2150) true) (cents 2258) /\
     ~ derived_fields_hold round2 p).
Proof.
  intros H.
  assert (Hb : exists b,
             Validator.validateProduct (Express.body Cases.snack) = ([], b) /\
             sellPrice p = parseFloat (Express.ToString (Express.sellPrice b)) /\
             gstAmount p = gstAmount_of (Express.gstEnabled b) (sellPrice p) /\
             totalPrice p = totalPrice_of (sellPrice p) (gstAmount p) /\
             gstEnabled p = strict_eq (Express.gstEnabled b) "true").
  { destruct H as [H|H].
    - apply post_products_created_from in H.
      destruct H as (b & Hb & _ & _ & H1 & _ & H2 & H3 & H4). exists b. auto.
    - apply put_products_updated_from in H.
      destruct H as (b & Hb & _ & H1 & _ & H2 & H3 & H4). exists b. auto. }
  destruct Hb as (b & Hb & H1 & H2 & H3 & H4).
  injection Hb as <-.
  change (sellPrice p = S754_finite false 6051711999279104 (-48)) in H1.
  rewrite H1 in H2, H3.
  assert (E2 : gstAmount p = of_Q (cents 107)) by (rewrite H2; vm_compute; reflexivity).
  rewrite E2 in H3.
  assert (E3 : totalPrice p = of_Q (cents 2257)) by (rewrite H3; vm_compute; reflexivity).
  assert (E4 : gstEnabled p = true) by (rewrite H4; reflexivity).
  split; [rewrite H1; vm_compute; reflexivity|].
  split; [exact E4|]. split; [exact E2|]. split; [exact E3|].
  intros round2 Hr.
  split; [destruct Hr as [-> | ->]; vm_compute; reflexivity|].
  split; [destruct Hr as [-> | ->]; vm_compute; reflexivity|].
  intros (_ & D2 & _). rewrite E2, H1, E4 in D2.
  destruct Hr as [-> | ->]; vm_compute in D2; discriminate D2.
Qed.

Lemma derived_fields_fail_at_21_50_witness :
  exists p,
    fst (post_products ProductSchema_2 (Scenario.env 0xb1 9 true) Cases.snack Scenario.empty)
    = res 201 (message_json "Product created successfully" (Some p)) /\
    gstAmount p = of_Q (cents 107) /\
    totalPrice p = of_Q (cents 2257) /\
    ~ derived_fields_hold Spec.Round2_half_up p /\
    ~ derived_fields_hold Spec.Round2_half_even p.
Proof.
  eexists. split; [vm_compute; reflexivity|].
  match goal with
  | |- gstAmount ?p = _ /\ _ =>
      destruct (derived_fields_fail_at_21_50 ProductSchema_2 (Scenario.env 0xb1 9 true)
                  Scenario.empty
                  (snd (post_products ProductSchema_2 (Scenario.env 0xb1 9 true)
                          Cases.snack Scenario.empty))
                  "Product created successfully" p)
        as (_ & _ & E2 & E3 & Hr)
  end.
  - left. vm_compute. reflexivity.
  - split; [exact E2|]. split; [exact E3|]. split.
    + apply (Hr Spec.Round2_half_up). now left.
    + apply (Hr Spec.Round2_half_even). now right.
Defined.

(* ================================================================== *)
(** ** The record that is answered, the bytes that are uploaded *)
(* ================================================================== *)

Lemma lower_hex_digit_canonical (c : ascii) :
  is_hex_digit (lower_hex_digit c) = is_hex_digit c /\
  lower_hex_digit (lower_hex_digit c) = lower_hex_digit c.
Proof. destruct c as [[] [] [] [] [] [] [] []]; split; reflexivity. Qed.

Lemma lower_hex_canonical (s : string) :
  String.length (lower_hex s) = String.length s /\
  all_hex_digits (lower_hex s) = all_hex_digits s /\
  lower_hex (lower_hex s) = lower_hex s.
Proof.
  induction s as [|c s (H1 & H2 & H3)]; [repeat split|].
  destruct (lower_hex_digit_canonical c) as (Hh & Hl).
  cbn [lower_hex String.length all_hex_digits]. now rewrite H1, H2, H3, Hh, Hl.
Qed.

(** The identifier that an id casts to casts to itself. *)
Lemma castObjectId_canonical (id : string) (i : ObjectId) :
  castObjectId id = Some i -> castObjectId i = Some i.
Proof.
  unfold castObjectId.
  destruct (Nat.eqb (String.length id) 24 && all_hex_digits id) eqn:E; [|discriminate].
  intros H. injection H as <-.
  destruct (lower_hex_canonical id) as (H1 & H2 & H3).
  now rewrite H1, H2, H3, E.
Qed.

(** X27. The record that a successful create or update answers with is
    the record stored under its identifier: fetching it by the id that the
    answer shows gives it back, field for field. *)
Theorem answered_record_is_stored
  (sch : Schema) (env : Env) (req : Express.Request) (w w' : World)
  (message : string) (p : Product) :
  post_products sch env req w = (res 201 (message_json message (Some p)), w') \/
  put_products sch env req w = (res 200 (message_json message (Some p)), w') ->
  stored (_id p) w' = Some p /\ findById (_id p) w' = (inl (Some p), w').
Proof.
  intros H.
  assert (Hs : stored (_id p) w' = Some p).
  { destruct H as [H|H].
    - apply post_products_created in H.
      destruct H as (g & price & _ & _ & _ & _ & _ & Hnew & _ & Hfresh & Hdb).
      unfold stored. rewrite Hnew, castObjectId_new, <- Hnew, Hdb.
      now apply find_snoc_fresh.
    - apply put_products_updated in H.
      destruct H as (g & price & old & _ & _ & _ & _ & _ & Hold & Hid & Hdb).
      destruct (stored_cast _ _ _ Hold) as (Hcast & Hfind).
      assert (Hi : _id p = _id old) by (unfold identity in Hid; now injection Hid).
      unfold stored. rewrite Hi, (castObjectId_canonical _ _ Hcast), Hdb.
      now apply (find_replace _ _ old). }
  split; [exact Hs | now apply findById_stored].
Qed.

Lemma answered_record_is_stored_witness :
  stored (_id (Records.tea 0xb1 9)) (Records.world [Records.tea 0xb1 9])
  = Some (Records.tea 0xb1 9) /\
  findById (_id (Records.tea 0xb1 9)) (Records.world [Records.tea 0xb1 9])
  = (inl (Some (Records.tea 0xb1 9)), Records.world [Records.tea 0xb1 9]).
Proof.
  apply (answered_record_is_stored ProductSchema_2 (Scenario.env 0xb1 9 true)
           (Scenario.tea "Veg") Scenario.empty (Records.world [Records.tea 0xb1 9])
           "Product created successfully" (Records.tea 0xb1 9)).
  left. vm_compute. reflexivity.
Defined.

(** X28. What [uploadToCloudinary] sends for a file is one upload, to the
    folder [products], of a data URI that carries the media type of the
    file and a base64 text which stands for exactly the bytes of its
    buffer. *)
Theorem uploaded_bytes_are_the_buffer (env : Env) (f : Express.File) (w : World) :
  exists text,
    calls (snd (uploadToCloudinary env (Some f) w))
    = (calls w
       ++ [Cloudinary.upload ("data:" ++ Express.mimetype f ++ ";base64," ++ text)
             "products"])%list /\
    base64_decode text = Some (Express.buffer f).
Proof.
  exists (Cloudinary.base64 (Express.buffer f)).
  split; [|apply base64_decode_base64].
  destruct (Effect.uploader_upload env (dataURI f)) as [u|e] eqn:Hu.
  - now rewrite (uploadToCloudinary_succeeds env f u w Hu).
  - now rewrite (uploadToCloudinary_fails env f e w Hu).
Qed.
